(** * Zone01 profile viewer: series transforms, authenticated fetch, chart renderers

    A shallow embedding of the modular JavaScript sources

      - calculations.js : [calculateXpProgress], [calculateXpByProject],
                          [calculatePassFailCounts]
      - config.js       : [ERROR_MESSAGES]
      - auth.js         : [displayErrorMessage], [hideErrorMessage],
                          [handleLogin], [logout]
      - graphql.js      : [fetchGraphQLData]
      - charts.js       : [createSVGElement], [addTooltip],
                          [drawSkillsRadarChart], [drawXpProgressLineChart],
                          [drawXpByProjectBarChart]
      - profile.js      : [loadProfilePage], [renderProfile]
      - script.js       : the [DOMContentLoaded] listener

    Modelling conventions.

      - XP amounts are integers ([Z]).  JavaScript adds them as doubles, which
        is exact as long as the partial sums stay below 2^53 in magnitude.
      - A plain JavaScript object used as a dictionary is an insertion-ordered
        association list of its own properties ([JsObject]).  Where the source
        reads a key that need not be an own property (the accumulator of
        [calculateXpByProject]), the members inherited from
        [Object.prototype] are read as well.
      - A text is held in UTF-8: a character above U+007F takes several
        characters of the [string].
      - [createdAt] is carried as the time value of [new Date(createdAt)]
        (milliseconds since the epoch, [None] for an Invalid Date).
      - Mutable state (the session slot, the DOM, a container's children) is
        passed explicitly; exceptions are an explicit outcome. *)

From Stdlib Require Import ZArith QArith Lia Ascii String.
From Stdlib Require Import Floats.SpecFloat.
From stdpp Require Import base strings list sorting pretty.

Open Scope string_scope.
Open Scope list_scope.
Open Scope Z_scope.

(** ** JavaScript values and built-ins used by the sources *)

Module Js.

(** The shapes an argument can take where the source expects an array. *)
Inductive Value (A : Type) : Type :=
| Undefined
| Null
| Bool (b : bool)
| Number (n : Z)
| Str (s : string)
| PlainObject                (* an object literal such as [{}] *)
| Array (l : list A).

Arguments Undefined {A}.
Arguments Null {A}.
Arguments Bool {A} b.
Arguments Number {A} n.
Arguments Str {A} s.
Arguments PlainObject {A}.
Arguments Array {A} l.

(** [ToBoolean]. *)
Definition truthy {A} (v : Value A) : bool :=
  match v with
  | Undefined | Null => false
  | Bool b => b
  | Number n => negb (n =? 0)
  | Str s => negb (bool_decide (s = ""))
  | PlainObject | Array _ => true
  end.

(** [Array.isArray]. *)
Definition isArray {A} (v : Value A) : bool :=
  match v with Array _ => true | _ => false end.

Definition elements {A} (v : Value A) : list A :=
  match v with Array l => l | _ => [] end.

(** *** [Array.prototype.sort] with a comparison function

    The comparison function returns a number, [None] standing for [NaN],
    which the sort reads as [+0].  For a consistent comparison function
    the result is the unique stable ordering, computed here by insertion
    from the right. *)

Definition positive_result (c : option Z) : bool :=
  match c with Some v => 0 <? v | None => false end.

Fixpoint insert_by {A} (cmp : A -> A -> option Z) (x : A) (l : list A) : list A :=
  match l with
  | [] => [x]
  | y :: l' =>
      if positive_result (cmp x y) then y :: insert_by cmp x l' else x :: l
  end.

Definition sort {A} (cmp : A -> A -> option Z) (l : list A) : list A :=
  foldr (insert_by cmp) [] l.

(** *** Plain objects used as dictionaries *)

Definition JsObject (V : Type) : Type := list (string * V).

(** [o[k]] for an own property. *)
Fixpoint get {V} (o : JsObject V) (k : string) : option V :=
  match o with
  | [] => None
  | (k', v) :: o' => if bool_decide (k' = k) then Some v else get o' k
  end.

(** [o[k] = v]: an existing key keeps its position, a new key goes last. *)
Fixpoint set {V} (o : JsObject V) (k : string) (v : V) : JsObject V :=
  match o with
  | [] => [(k, v)]
  | (k', v') :: o' =>
      if bool_decide (k' = k) then (k, v) :: o' else (k', v') :: set o' k v
  end.

(** Array indices are the canonical decimal strings below 2^32 - 1. *)
Definition digit_value (c : ascii) : option Z :=
  let n := Z.of_nat (nat_of_ascii c) in
  if (48 <=? n) && (n <=? 57) then Some (n - 48) else None.

Fixpoint parse_digits (acc : Z) (s : string) : option Z :=
  match s with
  | EmptyString => Some acc
  | String c s' =>
      match digit_value c with
      | Some d => parse_digits (10 * acc + d) s'
      | None => None
      end
  end.

Definition array_index (k : string) : option Z :=
  match k with
  | EmptyString => None
  | String c rest =>
      match parse_digits 0 k with
      | Some n =>
          if (bool_decide (k = "0") || negb (bool_decide (c = "0"%char)))
             && (n <? 4294967295)
          then Some n else None
      | None => None
      end
  end.

Definition index_keys (ks : list string) : list (Z * string) :=
  omap (fun k => match array_index k with Some n => Some (n, k) | None => None end) ks.

Definition name_keys (ks : list string) : list string :=
  filter (fun k => array_index k = None) ks.

(** [Object.keys]: array-index keys in ascending numeric order, then the
    other keys in insertion order. *)
Definition keys {V} (o : JsObject V) : list string :=
  let ks := o.*1 in
  (sort (fun a b => Some (a.1 - b.1)) (index_keys ks)).*2 ++ name_keys ks.

(** *** Doubles: [Number.prototype.toFixed(2)] of a quotient *)

Definition toDouble (z : Z) : spec_float := binary_normalize 53 1024 z 0 false.

Definition divide (x y : spec_float) : spec_float := SFdiv 53 1024 x y.

(** The integer [n] for which [n / 100 - m * 2^e] is closest to zero,
    the larger one on a tie. *)
Definition nearest_hundredth (m : positive) (e : Z) : Z :=
  if 0 <=? e then Z.pos m * 2 ^ e * 100
  else (2 * (Z.pos m * 100) + 2 ^ (- e)) / 2 ^ (- e + 1).

Definition pad2 (s : string) : string :=
  if (String.length s <? 2)%nat then "0" +:+ s else s.

(** Digits of [n >= 0] with a point before the last two. *)
Definition fixed2_digits (n : Z) : string :=
  pretty (n / 100) +:+ "." +:+ pad2 (pretty (n mod 100)).

(** [x.toFixed(2)].  At or above 10^21 the built-in switches to
    [Number::toString]; quotients of that size need sums of at least
    10^27, outside the range in which integer sums are exact doubles, and
    the same digits rule is used there. *)
Definition toFixed2 (x : spec_float) : string :=
  match x with
  | S754_nan => "NaN"
  | S754_infinity false => "Infinity"
  | S754_infinity true => "-Infinity"
  | S754_zero _ => "0.00"
  | S754_finite s m e =>
      (if s then "-" else "") +:+ fixed2_digits (nearest_hundredth m e)
  end.

(** *** Dates: [new Date(v)] and [toLocaleDateString()] *)

(** [TimeClip]: time values beyond 8.64e15 ms make an Invalid Date. *)
Definition newDate (v : option Z) : option Z :=
  match v with
  | Some t => if Z.abs t <=? 8640000000000000 then Some t else None
  | None => None
  end.

(** [a - b] on two dates; [None] is [NaN]. *)
Definition dateDiff (a b : option Z) : option Z :=
  match a, b with
  | Some x, Some y => Some (x - y)
  | _, _ => None
  end.

(** The host settings read by [toLocaleDateString()] called without
    arguments: the default locale and the default time zone (here a fixed
    offset from UTC, in minutes). *)
Inductive Locale : Type := en_US | en_GB | de_DE.

Record Host : Type := mkHost { locale : Locale; utcOffsetMinutes : Z }.

(** Proleptic Gregorian date (year, month, day) of a day number counted
    from 1970-01-01. *)
Definition civil_from_days (days : Z) : Z * Z * Z :=
  let z := days + 719468 in
  let era := z / 146097 in
  let doe := z - era * 146097 in
  let yoe := (doe - doe / 1460 + doe / 36524 - doe / 146096) / 365 in
  let doy := doe - (365 * yoe + yoe / 4 - yoe / 100) in
  let mp := (5 * doy + 2) / 153 in
  let d := doy - (153 * mp + 2) / 5 + 1 in
  let m := if mp <? 10 then mp + 3 else mp - 9 in
  let y := yoe + era * 400 in
  (if m <=? 2 then y + 1 else y, m, d).

(** Short numeric date of each locale (years 1 CE onwards). *)
Definition formatDate (l : Locale) (ymd : Z * Z * Z) : string :=
  let '(y, m, d) := ymd in
  match l with
  | en_US => pretty m +:+ "/" +:+ pretty d +:+ "/" +:+ pretty y
  | en_GB => pad2 (pretty d) +:+ "/" +:+ pad2 (pretty m) +:+ "/" +:+ pretty y
  | de_DE => pretty d +:+ "." +:+ pretty m +:+ "." +:+ pretty y
  end.

Definition toLocaleDateString (h : Host) (date : option Z) : string :=
  match date with
  | None => "Invalid Date"
  | Some t =>
      formatDate (locale h)
        (civil_from_days ((t + utcOffsetMinutes h * 60000) / 86400000))
  end.

End Js.

(** ** calculations.js *)

Module Calc.
Import Js.

(** [object { name type }] of a transaction. *)
Record TxObject : Type := mkTxObject {
  obj_name : option string;
  obj_type : string
}.

(** One transaction of the [transactions] query result. *)
Record Transaction : Type := mkTransaction {
  amount : Z;
  type : string;
  createdAt : option Z;
  eventId : Z;
  object : option TxObject
}.

(** One point of the XP progress series. *)
Record XpPoint : Type := mkXpPoint {
  date : string;
  totalXp : Z;
  totalXpMB : string
}.

(** [t.type === 'xp' && t.object?.type === 'project'] *)
Definition isProjectXp (t : Transaction) : bool :=
  bool_decide (type t = "xp")
  && match object t with
     | Some o => bool_decide (obj_type o = "project")
     | None => false
     end.

(** [(a, b) => new Date(a.createdAt) - new Date(b.createdAt)] *)
Definition byCreatedAt (a b : Transaction) : option Z :=
  dateDiff (newDate (createdAt a)) (newDate (createdAt b)).

(** The [map] callback of [calculateXpProgress], with the captured
    [cumulativeXp] threaded through. *)
Fixpoint accumulate (h : Host) (cumulativeXp : Z) (txs : list Transaction)
  : list XpPoint :=
  match txs with
  | [] => []
  | tx :: rest =>
      let cumulativeXp := cumulativeXp + amount tx in
      {| date := toLocaleDateString h (newDate (createdAt tx));
         totalXp := cumulativeXp;
         totalXpMB := toFixed2 (divide (toDouble cumulativeXp) (toDouble 1000000)) |}
      :: accumulate h cumulativeXp rest
  end.

Definition xpTransactions (transactions : list Transaction) : list Transaction :=
  sort byCreatedAt (List.filter isProjectXp transactions).

Definition calculateXpProgress (h : Host) (transactions : Value Transaction)
  : list XpPoint :=
  if negb (truthy transactions) || negb (isArray transactions) then []
  else accumulate h 0 (xpTransactions (elements transactions)).

(** [tx.object?.name || 'Unknown Project'] *)
Definition projectName (tx : Transaction) : string :=
  match object tx with
  | Some {| obj_name := Some n |} =>
      if bool_decide (n = "") then "Unknown Project" else n
  | _ => "Unknown Project"
  end.

(** The names every plain object inherits from [Object.prototype]: eleven
    functions and the accessor [__proto__]. *)
Definition prototypeMembers : list string :=
  [ "constructor"; "__defineGetter__"; "__defineSetter__"; "hasOwnProperty";
    "__lookupGetter__"; "__lookupSetter__"; "isPrototypeOf";
    "propertyIsEnumerable"; "toString"; "valueOf"; "__proto__";
    "toLocaleString" ].

(** A value of the accumulator [{}]: a number, or the string that [+] makes
    of an inherited member and the amounts added to it, which is
    [String(Object.prototype[member])] followed by the amounts in decimal,
    in the order they were added. *)
Inductive XpValue : Type :=
| XpNumber (n : Z)
| XpString (member : string) (amounts : list Z).

(** [(acc[projectName] || 0) + tx.amount].  [acc[projectName]] is the own
    property if there is one, else the inherited member, else [undefined];
    a function, an object and a string of this kind are truthy, and [+]
    with one of them concatenates. *)
Definition currentXp (acc : JsObject XpValue) (name : string) (amount : Z) : XpValue :=
  match get acc name with
  | Some (XpNumber n) => XpNumber ((if n =? 0 then 0 else n) + amount)
  | Some (XpString member amounts) => XpString member (amounts ++ [amount])
  | None =>
      if bool_decide (name ∈ prototypeMembers) then XpString name [amount]
      else XpNumber (0 + amount)
  end.

(** [acc[projectName] = v].  An inherited function is shadowed by a new own
    property; the setter of [__proto__] takes objects and [null] only, and
    the value assigned under that name is always a string, so nothing is
    stored. *)
Definition assign (acc : JsObject XpValue) (name : string) (v : XpValue)
  : JsObject XpValue :=
  if bool_decide (name = "__proto__") then acc else set acc name v.

(** The [reduce] callback of [calculateXpByProject]. *)
Definition addToProject (acc : JsObject XpValue) (tx : Transaction) : JsObject XpValue :=
  assign acc (projectName tx) (currentXp acc (projectName tx) (amount tx)).

Definition calculateXpByProject (transactions : Value Transaction) : JsObject XpValue :=
  if negb (truthy transactions) || negb (isArray transactions) then []
  else foldl addToProject [] (List.filter isProjectXp (elements transactions)).

(** One entry of the [results] query result; [grade] is [None] for [null]. *)
Record Result : Type := mkResult {
  res_grade : option Q;
  res_type : string;
  res_path : string
}.

Record PassFail : Type := mkPassFail { passed : Z; failed : Z; total : Z }.

(** [res.type === 'tester' && res.grade !== null] *)
Definition isTested (res : Result) : bool :=
  bool_decide (res_type res = "tester")
  && match res_grade res with Some _ => true | None => false end.

(** The [reduce] callback of [calculatePassFailCounts]. *)
Definition countResult (acc : PassFail) (res : Result) : PassFail :=
  let acc := {| passed := passed acc; failed := failed acc; total := total acc + 1 |} in
  match res_grade res with
  | Some g =>
      if Qeq_bool g 1 then
        {| passed := passed acc + 1; failed := failed acc; total := total acc |}
      else if negb (Qle_bool 1 g) && Qle_bool 0 g then
        {| passed := passed acc; failed := failed acc + 1; total := total acc |}
      else acc
  | None =>
      (* [null] compares as 0; the filter keeps such results out *)
      {| passed := passed acc; failed := failed acc + 1; total := total acc |}
  end.

Definition calculatePassFailCounts (results : Value Result) : PassFail :=
  if negb (truthy results) || negb (isArray results) then
    {| passed := 0; failed := 0; total := 0 |}
  else
    foldl countResult {| passed := 0; failed := 0; total := 0 |}
      (List.filter isTested (elements results)).

(** *** The same functions over arrays held by reference

    [filter] returns a new array, [sort] reorders the array it is called
    on and returns it, [reduce] and [map] only read.  Running the
    functions on a store of arrays shows which arrays they write. *)

Abbreviation Store A := (list (list A)).







(** Sum of the values of a dictionary. *)
Definition sumValues (o : JsObject Z) : Z := foldr Z.add 0 o.*2.

(** A dictionary read as numbers, when it holds nothing else. *)
Definition numbers (o : JsObject XpValue) : option (JsObject Z) :=
  mapM (fun kv => match kv.2 with
                  | XpNumber n => Some (kv.1, n)
                  | XpString _ _ => None
                  end) o.

(** Sum of [amount] over a list of transactions. *)
Definition sumAmounts (txs : list Transaction) : Z := foldr Z.add 0 (amount <$> txs).

(** The qualifying records booked under the key [k]. *)
Definition projectGroup (k : string) (txs : list Transaction) : list Transaction :=
  List.filter (fun tx => isProjectXp tx && bool_decide (projectName tx = k)) txs.

(** Inputs on which the guards return at once, and empty arrays. *)
Definition missingOrEmpty {A} (v : Value A) : bool :=
  match v with Array (_ :: _) => false | _ => true end.

(** [l] never decreases from one element to the next. *)
Fixpoint nonDecreasing (l : list Z) : Prop :=
  match l with
  | x :: ((y :: _) as l') => x <= y /\ nonDecreasing l'
  | _ => True
  end.

End Calc.

(** ** config.js *)

Module Config.

Definition GRAPHQL_ENDPOINT : string :=
  "https://learn.zone01kisumu.ke/api/graphql-engine/v1/graphql".

Definition SIGNIN_ENDPOINT : string :=
  "https://learn.zone01kisumu.ke/api/auth/signin".

Module ERROR_MESSAGES.
Definition NETWORK_ERROR : string :=
  "Network error occurred. Please check your internet connection and try again.".
Definition INVALID_CREDENTIALS : string := "Invalid username/email or password.".
Definition SESSION_EXPIRED : string := "Your session has expired. Please log in again.".
Definition DATA_FETCH_ERROR : string := "Failed to fetch your data. Please try again later.".
Definition NO_DATA : string := "No data available for this section.".
Definition UNKNOWN_ERROR : string := "An unexpected error occurred. Please try again.".
Definition STORAGE_ERROR : string := "Failed to save your session. Please try again.".
Definition JWT_ERROR : string := "Session token is invalid. Please log in again.".
End ERROR_MESSAGES.

End Config.

(** ** The browser state touched by auth.js and graphql.js *)

Module Browser.

(** [localStorage]: when it is not accessible every call throws. *)
Record Storage : Type := mkStorage {
  accessible : bool;
  jwtToken : option string
}.

(** A page element: [style.display] and its text ([textContent],
    [innerHTML] or [value], whichever the source writes). *)
Record Element : Type := mkElement {
  display : string;
  text : string
}.

(** The elements returned by [getDOMElements]; [None] when
    [document.getElementById] finds nothing. *)
Record Dom : Type := mkDom {
  errorMessageDiv : option Element;
  loginSection : option Element;
  fixedHeaderContainer : option Element;
  profileContentScrollArea : option Element;
  usernameEmailInput : option Element;
  passwordInput : option Element
}.

(** What leaves the page, in order of occurrence. *)
Inductive Event : Type :=
| ConsoleError (label : string)
| Shown (message : string)                  (* text put into the error element *)
| TimerSet (milliseconds : Z)               (* [setTimeout] *)
| Request (url authorization body : string) (* [fetch], method POST *).

Record World : Type := mkWorld {
  storage : Storage;
  dom : Dom;
  events : list Event
}.

Definition emit (e : Event) (w : World) : World :=
  {| storage := storage w; dom := dom w; events := events w ++ [e] |}.

Definition withDom (f : Dom -> Dom) (w : World) : World :=
  {| storage := storage w; dom := f (dom w); events := events w |}.

Definition withStorage (s : Storage) (w : World) : World :=
  {| storage := s; dom := dom w; events := events w |}.

Definition setDisplay (d : string) (e : Element) : Element :=
  {| display := d; text := text e |}.

Definition setText (t : string) (e : Element) : Element :=
  {| display := display e; text := t |}.

(** [localStorage.getItem('jwtToken')]: [None] when the call throws. *)
Definition getItem (s : Storage) : option (option string) :=
  if accessible s then Some (jwtToken s) else None.

(** [localStorage.removeItem('jwtToken')]: [None] when the call throws. *)
Definition removeItem (s : Storage) : option Storage :=
  if accessible s then Some {| accessible := true; jwtToken := None |} else None.

End Browser.

(** ** auth.js *)

Module Auth.
Import Browser Config.

Definition displayErrorMessage (message : string) (w : World) : World :=
  match errorMessageDiv (dom w) with
  | None => w
  | Some div =>
      let w := withDom (fun d =>
        {| errorMessageDiv := Some {| display := "block"; text := message |};
           loginSection := loginSection d;
           fixedHeaderContainer := fixedHeaderContainer d;
           profileContentScrollArea := profileContentScrollArea d;
           usernameEmailInput := usernameEmailInput d;
           passwordInput := passwordInput d |}) w in
      emit (TimerSet 5000) (emit (Shown message) w)
  end.

Definition hideErrorMessage (w : World) : World :=
  withDom (fun d =>
    {| errorMessageDiv := (fun _ => {| display := "none"; text := "" |}) <$> errorMessageDiv d;
       loginSection := loginSection d;
       fixedHeaderContainer := fixedHeaderContainer d;
       profileContentScrollArea := profileContentScrollArea d;
       usernameEmailInput := usernameEmailInput d;
       passwordInput := passwordInput d |}) w.

(** The element updates of [logout], between [removeItem] and
    [hideErrorMessage]. *)
Definition resetPage (d : Dom) : Dom :=
  {| errorMessageDiv := errorMessageDiv d;
     loginSection := setDisplay "flex" <$> loginSection d;
     fixedHeaderContainer :=
       (fun _ => {| display := "none"; text := "" |}) <$> fixedHeaderContainer d;
     profileContentScrollArea :=
       (fun _ => {| display := "none"; text := "" |}) <$> profileContentScrollArea d;
     usernameEmailInput := setText "" <$> usernameEmailInput d;
     passwordInput := setText "" <$> passwordInput d |}.

Definition logout (w : World) : World :=
  match removeItem (storage w) with
  | Some s => hideErrorMessage (withDom resetPage (withStorage s w))
  | None =>
      displayErrorMessage ERROR_MESSAGES.UNKNOWN_ERROR
        (emit (ConsoleError "Logout error:") w)
  end.

End Auth.

(** ** graphql.js *)

Module Graphql.
Import Browser Config Auth.

(** One entry of the [errors] array; [code] is [extensions?.code]. *)
Record GraphQLError : Type := mkGraphQLError {
  message : string;
  code : option string
}.

Section Fetch.

(** The type of the [data] member of a response. *)
Variable Data : Type.

(** What [response.json()] yields. *)
Inductive Body : Type :=
| NotJson                                            (* the promise rejects *)
| Json (errors : option (list GraphQLError)) (data : Data).

(** How the single [fetch] call settles. *)
Inductive Settled : Type :=
| Rejected
| Response (status : Z) (body : Body).

(** [response.ok] *)
Definition ok (status : Z) : bool := (200 <=? status) && (status <=? 299).

Definition isInvalidJWT (errors : list GraphQLError) : bool :=
  existsb (fun err => bool_decide (code err = Some "invalid-jwt")) errors.

(** The request of [fetchGraphQLData]; the body is [JSON.stringify({ query })],
    kept as the query text. *)
Definition request (jwtToken query : string) : Event :=
  Request GRAPHQL_ENDPOINT ("Bearer " +:+ jwtToken) query.

(** The [catch] of the second [try] block. *)
Definition fetchFailed (w : World) : option Data * World :=
  (None, displayErrorMessage ERROR_MESSAGES.NETWORK_ERROR
           (emit (ConsoleError "GraphQL fetch error:") w)).

(** [fetchGraphQLData(query)]: the returned value ([None] for [null]) and
    the browser state it leaves. *)
Definition fetchGraphQLData (network : Settled) (query : string) (w : World)
  : option Data * World :=
  match getItem (storage w) with
  | None =>
      (None, displayErrorMessage ERROR_MESSAGES.STORAGE_ERROR
               (emit (ConsoleError "JWT retrieval error:") w))
  | Some token =>
      match token with
      | None | Some "" =>
          (None, logout (displayErrorMessage ERROR_MESSAGES.SESSION_EXPIRED
                           (emit (ConsoleError "No JWT token found") w)))
      | Some jwtToken =>
          let w := emit (request jwtToken query) w in
          match network with
          | Rejected => fetchFailed w
          | Response status body =>
              if negb (ok status) then
                if (status =? 401) || (status =? 403) then
                  (None, logout (displayErrorMessage ERROR_MESSAGES.SESSION_EXPIRED w))
                else fetchFailed w
              else
                match body with
                | NotJson => fetchFailed w
                | Json (Some errors) _ =>
                    let w := emit (ConsoleError "GraphQL errors:") w in
                    if isInvalidJWT errors then
                      (None, logout (displayErrorMessage ERROR_MESSAGES.JWT_ERROR w))
                    else
                      (None, displayErrorMessage ERROR_MESSAGES.DATA_FETCH_ERROR w)
                | Json None data => (Some data, w)
                end
          end
      end
  end.

End Fetch.

Arguments NotJson {Data}.
Arguments Json {Data} errors data.
Arguments Rejected {Data}.
Arguments Response {Data} status body.
Arguments fetchFailed {Data} w.
Arguments fetchGraphQLData {Data} network query w.

(** The [Shown] messages of a trace, oldest first. *)
Definition shownMessages (es : list Event) : list string :=
  omap (fun e => match e with Shown m => Some m | _ => None end) es.

(** The [Request] events of a trace. *)
Definition requests (es : list Event) : list Event :=
  List.filter (fun e => match e with Request _ _ _ => true | _ => false end) es.

(** What a call of [displayErrorMessage] adds to the shown messages. *)
Definition shownOn (d : Dom) (message : string) : list string :=
  match errorMessageDiv d with Some _ => [message] | None => [] end.

(** The text currently in the error element. *)
Definition messageOnScreen (w : World) : option string :=
  text <$> errorMessageDiv (dom w).

Definition whenPresent (P : Element -> Prop) (e : option Element) : Prop :=
  match e with Some el => P el | None => True end.

(** The logged-out page: login form visible, header and profile area hidden
    and emptied. *)
Definition loggedOutPage (d : Dom) : Prop :=
  whenPresent (fun e => display e = "flex") (loginSection d)
  /\ whenPresent (fun e => display e = "none" /\ text e = "") (fixedHeaderContainer d)
  /\ whenPresent (fun e => display e = "none" /\ text e = "") (profileContentScrollArea d).

(** [!jwtToken] is false. *)
Definition tokenPresent (w : World) : bool :=
  match jwtToken (storage w) with
  | None | Some "" => false
  | Some _ => true
  end.

(** The server refuses the credential: HTTP 401 or 403. *)
Definition refused {Data} (network : Settled Data) : bool :=
  match network with
  | Response status _ => (status =? 401) || (status =? 403)
  | Rejected => false
  end.


End Graphql.

(** ** charts.js *)

Module Charts.
Import Js Config.

(** *** The page tree under a chart container *)

(** An element carries its attributes in the order they were set and, when
    [addTooltip] registered its two listeners on it, the tooltip text. *)
#[warnings="-register-all"]
Inductive Node : Type :=
| TextNode (data : string)
| Elem (tag : string) (attributes : JsObject string)
       (tooltip : option string) (children : list Node).

(** The children of a container element. *)
Definition Container : Type := list Node.

Inductive Completion : Type :=
| Normal
| Throw (error : string).

(** The children an element has after [el.textContent = s]. *)
Definition textContent (s : string) : list Node :=
  if bool_decide (s = "") then [] else [TextNode s].

(** [container.innerHTML = ''] removes every child. *)
Definition clearInnerHTML (container : Container) : Container := [].

(** [container.textContent = s] replaces the children by the text. *)
Definition replaceByText (s : string) (container : Container) : Container :=
  textContent s.

(** [container.appendChild(svg)] *)
Definition appendTo (container : Container) (child : Node) : Container :=
  container ++ [child].

(** [createSVGElement(tag, attributes)] *)
Definition createSVGElement (tag : string) (attributes : JsObject string) : Node :=
  Elem tag (foldl (fun el kv => set el kv.1 kv.2) [] attributes) None [].

Definition setAttribute (key value : string) (n : Node) : Node :=
  match n with
  | Elem tag attrs tip kids => Elem tag (set attrs key value) tip kids
  | TextNode _ => n
  end.

Definition setTextContent (s : string) (n : Node) : Node :=
  match n with
  | Elem tag attrs tip _ => Elem tag attrs tip (textContent s)
  | TextNode _ => n
  end.

Definition appendChild (child : Node) (parent : Node) : Node :=
  match parent with
  | Elem tag attrs tip kids => Elem tag attrs tip (kids ++ [child])
  | TextNode _ => parent
  end.

Definition appendChildren (kids : list Node) (parent : Node) : Node :=
  foldl (fun p k => appendChild k p) parent kids.

(** [addTooltip(element, text, parentGroup)]: nothing is registered for an
    empty text. *)
Definition addTooltip (text : string) (element : Node) : Node :=
  if bool_decide (text = "") then element
  else match element with
       | Elem tag attrs _ kids => Elem tag attrs (Some text) kids
       | TextNode _ => element
       end.

(** The indices [0 .. length - 1] of an array. *)
Definition indices {A} (l : list A) : list Z :=
  Z.of_nat <$> seq 0 (length l).

(** [parts.join(sep)] *)
Definition join (sep : string) (parts : list string) : string :=
  match parts with
  | [] => ""
  | p :: rest => foldl (fun acc q => acc +:+ sep +:+ q) p rest
  end.

(** The texts of the tooltips registered in a drawing, in document order. *)
Fixpoint tooltips (n : Node) : list string :=
  match n with
  | TextNode _ => []
  | Elem _ _ tip kids =>
      match tip with Some t => [t] | None => [] end ++ flat_map tooltips kids
  end.

(** *** Double arithmetic of the host

    Coordinates are computed in doubles and written out with
    [Number::toString]; [Math.cos] and [Math.sin] are approximated by the
    host.  The renderers are transcribed over this interface. *)
Class HostNumber : Type := {
  num : Type;
  ofZ : Z -> num;
  literal : string -> num;           (* a decimal literal of the source *)
  negInfinity : num;
  add : num -> num -> num;
  sub : num -> num -> num;
  mul : num -> num -> num;
  div : num -> num -> num;
  neg : num -> num;
  PI : num;
  cos : num -> num;
  sin : num -> num;
  round : num -> num;                (* [Math.round] *)
  lessThan : num -> num -> bool;     (* [a < b] *)
  toString : num -> string;          (* [String(x)] *)
  toFixed : num -> string            (* [x.toFixed(2)] *)
}.

(** [Math.max(...values)] *)
Definition maxOf {H : HostNumber} (values : list Z) : num :=
  match values with
  | [] => negInfinity
  | v :: rest => ofZ (foldl Z.max v rest)
  end.

(** *** drawSkillsRadarChart *)

Module Radar.

(** A node of [skill_types.nodes]; [None] is a missing [type]. *)
Record SkillNode : Type := mkSkillNode {
  type : option string;
  amount : Z
}.

Record Skill : Type := mkSkill { name : string; value : Z }.

(** [s.replace(pattern, replacement)] with a string pattern: the first
    occurrence only. *)
Fixpoint replace (pattern replacement s : string) : string :=
  if String.prefix pattern s then
    replacement +:+ String.substring (String.length pattern)
                      (String.length s - String.length pattern) s
  else match s with
       | EmptyString => EmptyString
       | String c rest => String c (replace pattern replacement rest)
       end.

(** [item.type?.startsWith('skill_')] *)
Definition isSkill (item : SkillNode) : bool :=
  match type item with
  | Some t => String.prefix "skill_" t
  | None => false
  end.

Definition toSkill (item : SkillNode) : Skill :=
  {| name := replace "-" " " (replace "skill_" "" (default "" (type item)));
     value := amount item |}.

Definition skillsOf (data : list SkillNode) : list Skill :=
  toSkill <$> List.filter isSkill data.

Definition width : Z := 500.
Definition height : Z := 500.
Definition margin : Z := 60.

Definition radius : Z := Z.min (width - margin - margin) (height - margin - margin) / 2.

Definition levels : Z := 5.

Section Drawing.
Context {H : HostNumber}.
Variable skills : list Skill.

Definition numAxes : Z := Z.of_nat (length skills).
Definition angleSlice : num := div (mul PI (ofZ 2)) (ofZ numAxes).

(** [Math.max(...skills.map(s => s.value), 10)] *)
Definition maxValue : Z := foldl Z.max 10 (value <$> skills).

(** [i * angleSlice - Math.PI / 2] *)
Definition angleOf (i : Z) : num :=
  sub (mul (ofZ i) angleSlice) (div PI (ofZ 2)).

Definition pointAt (r : num) (i : Z) : string :=
  toString (mul r (cos (angleOf i))) +:+ "," +:+ toString (mul r (sin (angleOf i))).

Definition levelGroup (level : Z) : Node :=
  let levelFactor := mul (ofZ radius) (div (ofZ level) (ofZ levels)) in
  let polygon := createSVGElement "polygon"
    [("points", join " " (pointAt levelFactor <$> indices skills));
     ("stroke", "#ddd"); ("fill", "none")] in
  let label := createSVGElement "text"
    [("x", "0"); ("y", toString (sub (neg levelFactor) (ofZ 5)));
     ("text-anchor", "middle"); ("fill", "#666"); ("font-size", "10")] in
  let label := setTextContent
    (toString (round (mul (div (ofZ maxValue) (ofZ levels)) (ofZ level)))) label in
  appendChildren [polygon; label] (createSVGElement "g" []).

Definition axis (i : Z) : Node :=
  createSVGElement "line"
    [("x1", "0"); ("y1", "0");
     ("x2", toString (mul (ofZ radius) (cos (angleOf i))));
     ("y2", toString (mul (ofZ radius) (sin (angleOf i))));
     ("stroke", "#999"); ("stroke-width", "1")].

Definition skillLabel (i : Z) (skill : Skill) : Node :=
  let angle := angleOf i in
  let labelRadius := ofZ (radius + 20) in
  let label := createSVGElement "text"
    [("x", toString (mul labelRadius (cos angle)));
     ("y", toString (mul labelRadius (sin angle)));
     ("text-anchor", "middle"); ("fill", "#333"); ("font-size", "12")] in
  let label :=
    if lessThan (div PI (ofZ 2)) angle
       && lessThan angle (div (mul (ofZ 3) PI) (ofZ 2))
    then setAttribute "text-anchor" "end" label else label in
  setTextContent (name skill) label.

Definition scaledValue (skill : Skill) : num :=
  mul (div (ofZ (value skill)) (ofZ maxValue)) (ofZ radius).

Definition radar : Node :=
  createSVGElement "polygon"
    [("points", join " " (zip_with (fun i s => pointAt (scaledValue s) i)
                            (indices skills) skills));
     ("fill", "rgba(75, 192, 192, 0.4)");
     ("stroke", "rgba(75, 192, 192, 1)"); ("stroke-width", "2")].

Definition dot (i : Z) (skill : Skill) : Node :=
  let angle := angleOf i in
  addTooltip (name skill +:+ ": " +:+ pretty (value skill))
    (createSVGElement "circle"
       [("cx", toString (mul (scaledValue skill) (cos angle)));
        ("cy", toString (mul (scaledValue skill) (sin angle)));
        ("r", "4"); ("fill", "rgba(75, 192, 192, 1)");
        ("stroke", "#fff"); ("stroke-width", "1")]).

Definition title : Node :=
  setTextContent "Skills Radar Chart"
    (createSVGElement "text"
       [("x", "0"); ("y", pretty (- radius - margin + 20));
        ("text-anchor", "middle"); ("font-size", "16"); ("fill", "#333")]).

(** The finished drawing: the chart group holds the grid, the axes, the
    labels, the shape, the dots and the title, in that order. *)
Definition svg : Node :=
  let chartGroup := createSVGElement "g"
    [("transform", "translate(" +:+ pretty (width / 2) +:+ ", "
                   +:+ pretty (height / 2) +:+ ")")] in
  let chartGroup := appendChildren
    ((levelGroup <$> [1; 2; 3; 4; 5])
     ++ (axis <$> indices skills)
     ++ zip_with skillLabel (indices skills) skills
     ++ [radar]
     ++ zip_with dot (indices skills) skills
     ++ [title]) chartGroup in
  appendChild chartGroup
    (createSVGElement "svg"
       [("viewBox", "0 0 " +:+ pretty width +:+ " " +:+ pretty height);
        ("preserveAspectRatio", "xMidYMid meet"); ("class", "chart-svg")]).

End Drawing.
End Radar.

(** [drawSkillsRadarChart(container, data = [])]: the container's children
    afterwards ([None] for a missing container) and how the call ended. *)
Definition drawSkillsRadarChart {H : HostNumber}
    (container : option Container) (data : Value Radar.SkillNode)
  : option Container * Completion :=
  match container with
  | None => (None, Normal)
  | Some container =>
      let container := clearInnerHTML container in
      let data := match data with Undefined => Array [] | _ => data end in
      if negb (truthy data)
      then (Some (replaceByText ERROR_MESSAGES.NO_DATA container), Normal)
      else match data with
           | Array [] => (Some (replaceByText ERROR_MESSAGES.NO_DATA container), Normal)
           | Array items =>
               match Radar.skillsOf items with
               | [] => (Some (replaceByText ERROR_MESSAGES.NO_DATA container), Normal)
               | skills => (Some (appendTo container (Radar.svg skills)), Normal)
               end
           | _ => (Some container, Throw "TypeError: data.filter is not a function")
           end
  end.

(** *** Parts drawn alike by the line chart and the bar chart

    Both use a 600 x 300 canvas with [margin.top = 20] and
    [margin.left = 70]. *)

Section Common.
Context {H : HostNumber}.

Definition svgRoot : Node :=
  createSVGElement "svg"
    [("viewBox", "0 0 " +:+ pretty 600 +:+ " " +:+ pretty 300);
     ("preserveAspectRatio", "xMidYMid meet"); ("class", "chart-svg")].

Definition chartGroup : Node :=
  createSVGElement "g"
    [("transform", "translate(" +:+ pretty 70 +:+ ", " +:+ pretty 20 +:+ ")")].

Definition xAxisLine (innerWidth innerHeight : Z) : Node :=
  createSVGElement "line"
    [("x1", "0"); ("y1", pretty innerHeight); ("x2", pretty innerWidth);
     ("y2", pretty innerHeight); ("stroke", "#ccc")].

Definition yAxisLine (innerHeight : Z) : Node :=
  createSVGElement "line"
    [("x1", "0"); ("y1", "0"); ("x2", "0"); ("y2", pretty innerHeight);
     ("stroke", "#ccc")].

(** A label under the x axis, turned by 45 degrees. *)
Definition xAxisLabel (xPos : num) (innerHeight : Z) (label : string) : Node :=
  setTextContent label
    (createSVGElement "text"
       [("x", toString xPos); ("y", pretty (innerHeight + 10));
        ("text-anchor", "end");
        ("transform", "rotate(-45 " +:+ toString xPos +:+ ", "
                      +:+ pretty (innerHeight + 10) +:+ ")");
        ("fill", "#333"); ("font-size", "10")]).

Definition xAxisTitle (innerWidth : Z) (label : string) : Node :=
  setTextContent label
    (createSVGElement "text"
       [("x", pretty (innerWidth / 2)); ("y", pretty (300 - 20 - 5));
        ("text-anchor", "middle"); ("fill", "#333"); ("font-size", "12")]).

(** A label left of the y axis. *)
Definition yAxisLabel (yPos : num) (label : string) : Node :=
  setTextContent label
    (createSVGElement "text"
       [("x", "-5"); ("y", toString (add yPos (ofZ 3))); ("text-anchor", "end");
        ("fill", "#333"); ("font-size", "10")]).

Definition yAxisTitle (innerHeight : Z) (label : string) : Node :=
  setTextContent label
    (createSVGElement "text"
       [("x", pretty (- 70 + 15)); ("y", pretty (innerHeight / 2));
        ("text-anchor", "middle");
        ("transform", "rotate(-90 -" +:+ pretty (70 - 15) +:+ ", "
                      +:+ pretty (innerHeight / 2) +:+ ")");
        ("fill", "#333"); ("font-size", "12")]).

Definition title (label : string) : Node :=
  setTextContent label
    (createSVGElement "text"
       [("x", pretty (600 / 2)); ("y", pretty (20 / 2 + 5));
        ("text-anchor", "middle"); ("font-size", "16"); ("fill", "#333")]).

End Common.

(** *** drawXpProgressLineChart *)

Module LineChart.

Definition innerWidth : Z := 600 - 70 - 30.
Definition innerHeight : Z := 300 - 20 - 60.

Section Drawing.
Context {H : HostNumber}.
Variable data : list Calc.XpPoint.

Definition dataLength : Z := Z.of_nat (length data).

Definition xMax : Z := if 1 <? dataLength then dataLength - 1 else 1.

Definition yMax : num := div (maxOf (Calc.totalXp <$> data)) (ofZ 1000000).

Definition xScale (index : Z) : num :=
  mul (div (ofZ index) (ofZ xMax)) (ofZ innerWidth).

Definition yScale (valueMB : num) : num :=
  sub (ofZ innerHeight) (mul (div valueMB yMax) (ofZ innerHeight)).

(** [d.totalXp / 1000000] *)
Definition megabytes (d : Calc.XpPoint) : num :=
  div (ofZ (Calc.totalXp d)) (ofZ 1000000).

Definition numLabels : Z := Z.min dataLength 5.

(** [Math.floor(i * (data.length - 1) / (numLabels - 1))]; [None] when the
    quotient is not a number. *)
Definition labelIndex (i : Z) : option Z :=
  if numLabels - 1 =? 0 then None
  else Some (i * (dataLength - 1) / (numLabels - 1)).

(** [data[index]] for an integer [index]; [None] for [undefined]. *)
Definition pointAtIndex (index : Z) : option Calc.XpPoint :=
  if 0 <=? index then data !! Z.to_nat index else None.

(** One x-axis label; [None] when reading [data[index].date] throws. *)
Definition dateLabel (i : Z) : option Node :=
  index ← labelIndex i;
  d ← pointAtIndex index;
  Some (xAxisLabel (xScale index) innerHeight (Calc.date d)).

Definition dateLabels : option (list Node) :=
  mapM dateLabel (Z.of_nat <$> seq 0 (Z.to_nat numLabels)).

Definition megabyteLabel (i : Z) : Node :=
  let valueMB := mul (div yMax (ofZ 5)) (ofZ i) in
  yAxisLabel (yScale valueMB) (toFixed valueMB +:+ " MB").

Definition pathData : string :=
  match data with
  | [] => ""
  | d0 :: rest =>
      foldl (fun acc id =>
               acc +:+ " L " +:+ toString (xScale id.1) +:+ ","
                   +:+ toString (yScale (megabytes id.2)))
            ("M " +:+ toString (xScale 0) +:+ ","
                  +:+ toString (yScale (megabytes d0)))
            (zip (Z.of_nat <$> seq 1 (length rest)) rest)
  end.

(** The connecting path, or the single larger dot. *)
Definition line : list Node :=
  if 1 <? dataLength then
    [createSVGElement "path"
       [("d", pathData); ("fill", "none"); ("stroke", "#60a5fa");
        ("stroke-width", "2"); ("class", "chart-line")]]
  else match data with
       | [d0] =>
           [createSVGElement "circle"
              [("cx", toString (xScale 0));
               ("cy", toString (yScale (megabytes d0)));
               ("r", "5"); ("fill", "#60a5fa"); ("stroke", "#fff");
               ("stroke-width", "2")]]
       | _ => []
       end.

Definition circle (i : Z) (d : Calc.XpPoint) : Node :=
  addTooltip
    ("Date: " +:+ Calc.date d +:+ ", XP: " +:+ Calc.totalXpMB d +:+ " MB")
    (createSVGElement "circle"
       [("cx", toString (xScale i)); ("cy", toString (yScale (megabytes d)));
        ("r", "3"); ("fill", "#60a5fa"); ("stroke", "#fff");
        ("stroke-width", "1"); ("class", "chart-point")]).

(** The finished drawing; [None] when an x-axis label throws. *)
Definition svg : option Node :=
  labels ← dateLabels;
  let chartGroup := appendChildren
    ([xAxisLine innerWidth innerHeight; yAxisLine innerHeight]
     ++ labels
     ++ [xAxisTitle innerWidth "Date"]
     ++ (megabyteLabel <$> [0; 1; 2; 3; 4; 5])
     ++ [yAxisTitle innerHeight "Project XP (MB)"]
     ++ line
     ++ zip_with circle (indices data) data) chartGroup in
  Some (appendChildren [chartGroup; title "Project XP Progress Over Time"] svgRoot).

End Drawing.
End LineChart.

(** [drawXpProgressLineChart(container, data = [])] *)
Definition drawXpProgressLineChart {H : HostNumber}
    (container : option Container) (data : Value Calc.XpPoint)
  : option Container * Completion :=
  match container with
  | None => (None, Normal)
  | Some container =>
      let container := clearInnerHTML container in
      let data := match data with Undefined => Array [] | _ => data end in
      if negb (truthy data)
      then (Some (replaceByText ERROR_MESSAGES.NO_DATA container), Normal)
      else match data with
           | Array [] => (Some (replaceByText ERROR_MESSAGES.NO_DATA container), Normal)
           | Array points =>
               match LineChart.svg points with
               | Some svg => (Some (appendTo container svg), Normal)
               | None =>
                   (Some container,
                    Throw "TypeError: Cannot read properties of undefined (reading 'date')")
               end
           | _ => (Some container, Throw "TypeError: data.map is not a function")
           end
  end.

(** *** drawXpByProjectBarChart *)

Module BarChart.

(** The values the [data] parameter takes: missing, [null], or a
    dictionary from project name to XP. *)
Inductive Data : Type :=
| NoArgument
| NullArgument
| Projects (o : JsObject Z).

Definition innerWidth : Z := 600 - 70 - 30.
Definition innerHeight : Z := 300 - 20 - 100.

(** An entry of [displayData]. *)
Record Entry : Type := mkEntry { name : string; xp : Z }.

(** The tooltip text of a bar. *)
Definition tooltipText (d : Entry) : string :=
  name d +:+ ": " +:+ pretty (xp d) +:+ " XP".

Section Drawing.
Context {H : HostNumber}.
Variable data : JsObject Z.

(** [(a, b) => data[b] - data[a]] *)
Definition byXpDescending (a b : string) : option Z :=
  match get data b, get data a with
  | Some vb, Some va => Some (vb - va)
  | _, _ => None
  end.

Definition projects : list string := sort byXpDescending (keys data).

(** [projects.slice(0, 10)] *)
Definition displayProjects : list string := take 10 projects.

(** [data[proj]] for a key of [data]. *)
Definition xpOf (proj : string) : Z := default 0 (get data proj).

Definition displayData : list Entry :=
  (fun proj => {| name := proj; xp := xpOf proj |}) <$> displayProjects.

Definition xBandWidth : num :=
  div (ofZ innerWidth) (ofZ (Z.max (Z.of_nat (length displayProjects)) 1)).

Definition yMax : num := maxOf (xp <$> displayData).

Definition xScale (index : Z) : num := mul (ofZ index) xBandWidth.

Definition yScale (v : num) : num :=
  sub (ofZ innerHeight) (mul (div v yMax) (ofZ innerHeight)).

(** The bar of one project followed by its value label. *)
Definition bar (i : Z) (d : Entry) : list Node :=
  let barHeight := sub (ofZ innerHeight) (yScale (ofZ (xp d))) in
  let bar := createSVGElement "rect"
    [("x", toString (add (xScale i) (mul xBandWidth (literal "0.1"))));
     ("y", toString (yScale (ofZ (xp d))));
     ("width", toString (mul xBandWidth (literal "0.8")));
     ("height", toString barHeight);
     ("fill", "#4ade80"); ("rx", "3"); ("ry", "3"); ("class", "chart-bar")] in
  let bar := addTooltip (tooltipText d) bar in
  let text := createSVGElement "text"
    [("x", toString (add (xScale i) (div xBandWidth (ofZ 2))));
     ("y", toString (sub (yScale (ofZ (xp d))) (ofZ 5)));
     ("text-anchor", "middle"); ("fill", "#333"); ("font-size", "10")] in
  [bar; setTextContent (pretty (xp d)) text].

Definition projectLabel (i : Z) (proj : string) : Node :=
  xAxisLabel (add (xScale i) (div xBandWidth (ofZ 2))) innerHeight proj.

Definition xpLabel (i : Z) : Node :=
  let v := mul (div yMax (ofZ 5)) (ofZ i) in
  yAxisLabel (yScale v) (toString (round v)).

Definition svg : Node :=
  let chartGroup := appendChildren
    (concat (zip_with bar (indices displayData) displayData)
     ++ [xAxisLine innerWidth innerHeight]
     ++ zip_with projectLabel (indices displayProjects) displayProjects
     ++ [xAxisTitle innerWidth "Project"; yAxisLine innerHeight]
     ++ (xpLabel <$> [0; 1; 2; 3; 4; 5])
     ++ [yAxisTitle innerHeight "XP Amount"]) chartGroup in
  appendChildren [chartGroup; title "XP Earned by Project (Top 10)"] svgRoot.

End Drawing.
End BarChart.

(** [drawXpByProjectBarChart(container, data = {})] *)
Definition drawXpByProjectBarChart {H : HostNumber}
    (container : option Container) (data : BarChart.Data)
  : option Container * Completion :=
  match container with
  | None => (None, Normal)
  | Some container =>
      let container := clearInnerHTML container in
      let data :=
        match data with BarChart.NoArgument => BarChart.Projects [] | _ => data end in
      match data with
      | BarChart.Projects o =>
          match BarChart.projects o with
          | [] => (Some (replaceByText ERROR_MESSAGES.NO_DATA container), Normal)
          | _ => (Some (appendTo container (BarChart.svg o)), Normal)
          end
      | _ =>
          (Some container, Throw "TypeError: Cannot convert undefined or null to object")
      end
  end.

(** *** drawXpByProjectBarChart on what calculateXpByProject returns

    The mapping may hold strings among its numbers.  Subtraction, division
    and [Math.max] turn such a string into [NaN], and a template or
    [textContent] takes it as it is. *)

Class HostObject {H : HostNumber} : Type := {
  NaN : num;
  prototypeText : string -> string   (* [String(Object.prototype[member])] *)
}.

Module XpBars.
Import Calc.

Record Entry : Type := mkEntry { name : string; xp : XpValue }.

Section Drawing.
Context {H : HostNumber} {O : HostObject}.
Variable data : JsObject XpValue.

(** [String(v)] *)
Definition textOf (v : XpValue) : string :=
  match v with
  | XpNumber n => pretty n
  | XpString member amounts =>
      foldl (fun text amount => text +:+ pretty amount) (prototypeText member) amounts
  end.

(** [ToNumber(v)] *)
Definition numberOf (v : XpValue) : num :=
  match v with
  | XpNumber n => ofZ n
  | XpString _ _ => NaN
  end.

(** [(a, b) => data[b] - data[a]].  With a string among the values the
    function is not consistent and the order of [sort] is the engine's;
    the order of [Js.sort] stands for it. *)
Definition byXpDescending (a b : string) : option Z :=
  match get data b, get data a with
  | Some (XpNumber vb), Some (XpNumber va) => Some (vb - va)
  | _, _ => None
  end.

Definition projects : list string := sort byXpDescending (keys data).

Definition displayProjects : list string := take 10 projects.

(** [data[proj]] for a key of [data]. *)
Definition xpOf (proj : string) : XpValue := default (XpNumber 0) (get data proj).

Definition displayData : list Entry :=
  (fun proj => {| name := proj; xp := xpOf proj |}) <$> displayProjects.

Definition xBandWidth : num :=
  div (ofZ BarChart.innerWidth) (ofZ (Z.max (Z.of_nat (length displayProjects)) 1)).

(** [Math.max(...displayData.map(d => d.xp))] *)
Definition yMax : num :=
  match numbers ((fun d => (name d, xp d)) <$> displayData) with
  | Some shown => maxOf shown.*2
  | None => NaN
  end.

Definition xScale (index : Z) : num := mul (ofZ index) xBandWidth.

Definition yScale (v : num) : num :=
  sub (ofZ BarChart.innerHeight) (mul (div v yMax) (ofZ BarChart.innerHeight)).

Definition tooltipText (d : Entry) : string :=
  name d +:+ ": " +:+ textOf (xp d) +:+ " XP".

(** The bar of one project followed by its value label. *)
Definition bar (i : Z) (d : Entry) : list Node :=
  let barHeight := sub (ofZ BarChart.innerHeight) (yScale (numberOf (xp d))) in
  let bar := createSVGElement "rect"
    [("x", toString (add (xScale i) (mul xBandWidth (literal "0.1"))));
     ("y", toString (yScale (numberOf (xp d))));
     ("width", toString (mul xBandWidth (literal "0.8")));
     ("height", toString barHeight);
     ("fill", "#4ade80"); ("rx", "3"); ("ry", "3"); ("class", "chart-bar")] in
  let bar := addTooltip (tooltipText d) bar in
  let text := createSVGElement "text"
    [("x", toString (add (xScale i) (div xBandWidth (ofZ 2))));
     ("y", toString (sub (yScale (numberOf (xp d))) (ofZ 5)));
     ("text-anchor", "middle"); ("fill", "#333"); ("font-size", "10")] in
  [bar; setTextContent (textOf (xp d)) text].

Definition projectLabel (i : Z) (proj : string) : Node :=
  xAxisLabel (add (xScale i) (div xBandWidth (ofZ 2))) BarChart.innerHeight proj.

Definition xpLabel (i : Z) : Node :=
  let v := mul (div yMax (ofZ 5)) (ofZ i) in
  yAxisLabel (yScale v) (toString (round v)).

Definition svg : Node :=
  let chartGroup := appendChildren
    (concat (zip_with bar (indices displayData) displayData)
     ++ [xAxisLine BarChart.innerWidth BarChart.innerHeight]
     ++ zip_with projectLabel (indices displayProjects) displayProjects
     ++ [xAxisTitle BarChart.innerWidth "Project"; yAxisLine BarChart.innerHeight]
     ++ (xpLabel <$> [0; 1; 2; 3; 4; 5])
     ++ [yAxisTitle BarChart.innerHeight "XP Amount"]) chartGroup in
  appendChildren [chartGroup; title "XP Earned by Project (Top 10)"] svgRoot.

End Drawing.
End XpBars.

(** [drawXpByProjectBarChart(container, xpByProjectData)]: a mapping of
    numbers is drawn as above. *)
Definition drawXpByProject {H : HostNumber} {O : HostObject}
    (container : option Container) (data : JsObject Calc.XpValue)
  : option Container * Completion :=
  match Calc.numbers data with
  | Some projectXp => drawXpByProjectBarChart container (BarChart.Projects projectXp)
  | None =>
      match container with
      | None => (None, Normal)
      | Some container =>
          let container := clearInnerHTML container in
          match XpBars.projects data with
          | [] => (Some (replaceByText ERROR_MESSAGES.NO_DATA container), Normal)
          | _ => (Some (appendTo container (XpBars.svg data)), Normal)
          end
      end
  end.

End Charts.

(** ** Sample inputs *)

Module Samples.
Import Js Calc.

Definition projectTx (name : string) (xpAmount : Z) (at_ : Z) : Transaction :=
  {| amount := xpAmount; type := "xp"; createdAt := Some at_; eventId := 75;
     object := Some {| obj_name := Some name; obj_type := "project" |} |}.

(** 2024-01-01T00:00:00Z and 2024-01-02T00:00:00Z *)
Definition jan1 : Z := 1704067200000.
Definition jan2 : Z := 1704153600000.

Definition twoProjects : list Transaction :=
  [projectTx "P1" 1000000 jan1; projectTx "P2" 2000000 jan2].

(** A correction of -3 XP booked after a grant of 5 XP. *)
Definition withNegativeAmount : list Transaction :=
  [projectTx "P1" 5 jan1; projectTx "P1" (-3) jan2].

(** A project named like the accessor every object inherits. *)
Definition withInheritedName : list Transaction :=
  [projectTx "__proto__" 5 jan1; projectTx "P" 1 jan2].

Definition hostUS : Host := {| locale := en_US; utcOffsetMinutes := 0 |}.

(** A signed-in page showing a profile. *)
Definition signedIn : Browser.World :=
  {| Browser.storage := {| Browser.accessible := true; Browser.jwtToken := Some "header.payload.signature" |};
     Browser.dom :=
       {| Browser.errorMessageDiv := Some {| Browser.display := "none"; Browser.text := "" |};
          Browser.loginSection := Some {| Browser.display := "none"; Browser.text := "" |};
          Browser.fixedHeaderContainer :=
            Some {| Browser.display := "flex"; Browser.text := "<header class='profile-header'>" |};
          Browser.profileContentScrollArea :=
            Some {| Browser.display := "flex"; Browser.text := "<section class='profile-summary'>" |};
          Browser.usernameEmailInput := Some {| Browser.display := ""; Browser.text := "student" |};
          Browser.passwordInput := Some {| Browser.display := ""; Browser.text := "secret" |} |};
     Browser.events := [] |}.

(** The same page after the token was removed from storage. *)
Definition tokenLost : Browser.World :=
  Browser.withStorage {| Browser.accessible := true; Browser.jwtToken := None |} signedIn.

(** Fifteen projects with distinct XP sums, in the order they were first
    met. *)
Definition fifteenProjects : JsObject Z :=
  [ ("go-reloaded", 6125); ("ascii-art", 9800); ("ascii-art-web", 7350);
    ("groupie-tracker", 14700); ("lem-in", 24500); ("forum", 61250);
    ("net-cat", 19600); ("real-time-forum", 36750); ("make-your-game", 73500);
    ("graphql", 30625); ("social-network", 147000); ("mini-framework", 85750);
    ("bomberman-dom", 122500); ("tetris-optimizer", 12250); ("push-swap", 17150) ].



End Samples.

(** ** Readings of the transforms' inputs and outputs *)

Module CalcReading.
Import Js Calc.

(** A tested result with grade exactly 1. *)
Definition isPassed (res : Result) : bool :=
  isTested res && match res_grade res with Some g => Qeq_bool g 1 | None => false end.

(** A tested result with a grade in [0, 1). *)
Definition isFailed (res : Result) : bool :=
  isTested res
  && match res_grade res with
     | Some g => negb (Qeq_bool g 1) && negb (Qle_bool 1 g) && Qle_bool 0 g
     | None => false
     end.

(** A tested result with a grade below 0 or above 1. *)
Definition isOutOfRange (res : Result) : bool :=
  isTested res
  && match res_grade res with
     | Some g => negb (Qle_bool 0 g) || (Qle_bool 1 g && negb (Qeq_bool g 1))
     | None => false
     end.

Definition count {A} (f : A -> bool) (l : list A) : Z := Z.of_nat (length (List.filter f l)).

(** The time value of a record's date, 0 for an Invalid Date. *)
Definition timeOf (tx : Transaction) : Z := default 0 (newDate (createdAt tx)).

(** The date of the record is a valid date. *)
Definition hasValidDate (tx : Transaction) : bool :=
  match newDate (createdAt tx) with Some _ => true | None => false end.

(** No qualifying record is booked under a name that a plain object
    inherits from [Object.prototype]. *)
Definition plainNames (txs : list Transaction) : Prop :=
  Forall (fun tx => isProjectXp tx = true -> projectName tx ∉ prototypeMembers) txs.

(** The doubles of the source add the qualifying amounts exactly, in
    whatever order: their absolute values add up to at most 2^53. *)
Definition addsExactly (txs : list Transaction) : Prop :=
  foldr Z.add 0 ((fun tx => Z.abs (amount tx)) <$> List.filter isProjectXp txs) <= 2 ^ 53.

(** The reduce of [calculateXpByProject] on a dictionary of numbers that
    inherits nothing: what the accumulator holds under [plainNames]. *)
Definition ownXp (acc : JsObject Z) (name : string) : Z :=
  match get acc name with
  | Some v => if v =? 0 then 0 else v
  | None => 0
  end.

Definition addToOwn (acc : JsObject Z) (tx : Transaction) : JsObject Z :=
  set acc (projectName tx) (ownXp acc (projectName tx) + amount tx).

Definition sumsByProject (txs : list Transaction) : JsObject Z :=
  foldl addToOwn [] (List.filter isProjectXp txs).

(** A dictionary of numbers as a dictionary of values. *)
Definition asValues (o : JsObject Z) : JsObject XpValue :=
  (fun kv => (kv.1, XpNumber kv.2)) <$> o.

End CalcReading.

(** ** Readings of the session state *)

Module SessionReading.
Import Browser Config Auth Graphql.

(** The token handed to [fetch] as bearer credential. *)
Definition storedToken (w : World) : string := default "" (jwtToken (storage w)).

(** The payload carries an error list with the invalid-jwt code. *)
Definition tokenInvalid {Data} (network : Settled Data) : bool :=
  match network with
  | Response status (Json (Some errors) _) => ok status && isInvalidJWT errors
  | _ => false
  end.

(** The cases in which [fetchGraphQLData] calls [logout]. *)
Definition sessionRejected {Data} (network : Settled Data) (w : World) : bool :=
  negb (tokenPresent w) || refused network || tokenInvalid network.

(** The request fails below the GraphQL level: no response, an HTTP error
    other than 401 and 403, or a body that is not JSON. *)
Definition transportFailed {Data} (network : Settled Data) : bool :=
  match network with
  | Rejected => true
  | Response status body =>
      if ok status then match body with NotJson => true | Json _ _ => false end
      else negb ((status =? 401) || (status =? 403))
  end.

(** The parts of the page that [logout] resets. *)
Definition pageOf (w : World)
  : option Element * option Element * option Element * option Element * option Element :=
  (loginSection (dom w), fixedHeaderContainer (dom w), profileContentScrollArea (dom w),
   usernameEmailInput (dom w), passwordInput (dom w)).

(** The events a step added to the trace. *)
Definition newEvents (before after : World) : list Event :=
  drop (length (events before)) (events after).

(** A page on which no element was found. *)
Definition blankPage : World :=
  {| storage := {| accessible := true; jwtToken := None |};
     dom := {| errorMessageDiv := None; loginSection := None;
               fixedHeaderContainer := None; profileContentScrollArea := None;
               usernameEmailInput := None; passwordInput := None |};
     events := [] |}.

(** The signed-in sample page in a browser that denies access to storage. *)
Definition storageDenied : World :=
  withStorage {| accessible := false; jwtToken := Some "header.payload.signature" |}
    Samples.signedIn.

End SessionReading.

(** ** Readings of the chart inputs *)

Module ChartReading.

(** The character occurs in the string. *)
Fixpoint mentions (c : ascii) (s : string) : bool :=
  match s with
  | EmptyString => false
  | String c' rest => Ascii.eqb c c' || mentions c rest
  end.

(** The tooltip text of a dot of the radar chart. *)
Definition skillTooltip (s : Charts.Radar.Skill) : string :=
  Charts.Radar.name s +:+ ": " +:+ pretty (Charts.Radar.value s).

(** The tooltip text of a point of the line chart. *)
Definition pointTooltip (d : Calc.XpPoint) : string :=
  "Date: " +:+ Calc.date d +:+ ", XP: " +:+ Calc.totalXpMB d +:+ " MB".

End ChartReading.

(** ** profile.js *)

Module Profile.
Import Js Calc Browser Config Auth Graphql Charts.

(** The double quote and the line feed, for the texts of the source that
    hold them. *)
Definition dq : string := String (Ascii.ascii_of_nat 34) EmptyString.
Definition nl : string := String (Ascii.ascii_of_nat 10) EmptyString.

Definition USER_PROFILE_QUERY : string :=
  nl
  +:+ "query UserProfile {" +:+ nl
  +:+ "  user {" +:+ nl
  +:+ "    id" +:+ nl
  +:+ "    login" +:+ nl
  +:+ "    email" +:+ nl
  +:+ "    auditRatio" +:+ nl
  +:+ "    totalXp: transactions_aggregate(where: {_and: [{type: {_eq: " +:+ dq +:+ "xp" +:+ dq +:+ "}}, {eventId: {_eq: 75}}]}) {" +:+ nl
  +:+ "      aggregate { sum { amount } }" +:+ nl
  +:+ "    }" +:+ nl
  +:+ "    averageProgressGrade: progresses_aggregate(where: {_and: [{grade: {_neq: 0}}, {eventId: {_eq: 75}}]}) {" +:+ nl
  +:+ "      aggregate { avg { grade } }" +:+ nl
  +:+ "    }" +:+ nl
  +:+ "    averageResultGrade: results_aggregate(where: {_and: [{grade: {_neq: 0}}, {eventId: {_eq: 75}}]}) {" +:+ nl
  +:+ "      aggregate { avg { grade } }" +:+ nl
  +:+ "    }" +:+ nl
  +:+ "    transactions(where: {eventId: {_eq: 75}}, order_by: {createdAt: asc}) {" +:+ nl
  +:+ "      amount" +:+ nl
  +:+ "      type" +:+ nl
  +:+ "      createdAt" +:+ nl
  +:+ "      eventId" +:+ nl
  +:+ "      object { name type }" +:+ nl
  +:+ "    }" +:+ nl
  +:+ "    results(where: {eventId: {_eq: 75}}, order_by: {createdAt: asc}) {" +:+ nl
  +:+ "      grade" +:+ nl
  +:+ "      type" +:+ nl
  +:+ "      path" +:+ nl
  +:+ "      createdAt" +:+ nl
  +:+ "      object { name }" +:+ nl
  +:+ "    }" +:+ nl
  +:+ "    skill_types: transactions_aggregate(" +:+ nl
  +:+ "      distinct_on: [type]" +:+ nl
  +:+ "      where: {_and: [{type: {_nin: [" +:+ dq +:+ "xp" +:+ dq +:+ ", " +:+ dq +:+ "level" +:+ dq +:+ ", " +:+ dq +:+ "up" +:+ dq +:+ ", " +:+ dq +:+ "down" +:+ dq +:+ "]}}, {eventId: {_eq: 75}}]}" +:+ nl
  +:+ "      order_by: [{type: asc}, {amount: desc}]" +:+ nl
  +:+ "    ) {" +:+ nl
  +:+ "      nodes { type amount }" +:+ nl
  +:+ "    }" +:+ nl
  +:+ "    progresses(where: {_and: [{grade: {_neq: 0}}, {eventId: {_eq: 75}}]}) {" +:+ nl
  +:+ "      grade" +:+ nl
  +:+ "      path" +:+ nl
  +:+ "      createdAt" +:+ nl
  +:+ "      object { name }" +:+ nl
  +:+ "    }" +:+ nl
  +:+ "  }" +:+ nl
  +:+ "  event(where: {path: {_eq: " +:+ dq +:+ "/kisumu/module" +:+ dq +:+ "}}) {" +:+ nl
  +:+ "    startAt" +:+ nl
  +:+ "    endAt" +:+ nl
  +:+ "  }" +:+ nl
  +:+ "}" +:+ nl.

(** The error view of [loadProfilePage]. *)
Definition errorView : string :=
  nl
  +:+ "            <p class=" +:+ dq +:+ "error-message" +:+ dq +:+ ">" +:+ ERROR_MESSAGES.DATA_FETCH_ERROR +:+ "</p>" +:+ nl
  +:+ "            <button class=" +:+ dq +:+ "retry-button" +:+ dq +:+ ">Try Again</button>" +:+ nl
  +:+ "        ".

(** The header of [renderProfile]. *)
Definition headerHtml (login : string) : string :=
  nl
  +:+ "        <header class=" +:+ dq +:+ "profile-header" +:+ dq +:+ ">" +:+ nl
  +:+ "            <h1 class=" +:+ dq +:+ "profile-title" +:+ dq +:+ ">Welcome, " +:+ login +:+ "!</h1>" +:+ nl
  +:+ "            <button id=" +:+ dq +:+ "logout-button" +:+ dq +:+ " class=" +:+ dq +:+ "logout-button" +:+ dq +:+ ">Logout</button>" +:+ nl
  +:+ "        </header>" +:+ nl
  +:+ "    ".

(** The profile content of [renderProfile]: four summary cards and the
    three chart canvases. *)
Definition profileHtml (totalXpMB projectXpMB avgGrade auditRatio : string) : string :=
  nl
  +:+ "        <section class=" +:+ dq +:+ "profile-summary" +:+ dq +:+ ">" +:+ nl
  +:+ "            <div class=" +:+ dq +:+ "summary-card" +:+ dq +:+ ">" +:+ nl
  +:+ "                <h3>Total XP</h3>" +:+ nl
  +:+ "                <p>" +:+ totalXpMB +:+ " MB</p>" +:+ nl
  +:+ "                <small>All activities</small>" +:+ nl
  +:+ "            </div>" +:+ nl
  +:+ "            <div class=" +:+ dq +:+ "summary-card" +:+ dq +:+ ">" +:+ nl
  +:+ "                <h3>Project XP</h3>" +:+ nl
  +:+ "                <p>" +:+ projectXpMB +:+ " MB</p>" +:+ nl
  +:+ "                <small>Projects only</small>" +:+ nl
  +:+ "            </div>" +:+ nl
  +:+ "            <div class=" +:+ dq +:+ "summary-card" +:+ dq +:+ ">" +:+ nl
  +:+ "                <h3>Average Grade</h3>" +:+ nl
  +:+ "                <p>" +:+ avgGrade +:+ "</p>" +:+ nl
  +:+ "            </div>" +:+ nl
  +:+ "            <div class=" +:+ dq +:+ "summary-card" +:+ dq +:+ ">" +:+ nl
  +:+ "                <h3>Audit Ratio</h3>" +:+ nl
  +:+ "                <p>" +:+ auditRatio +:+ "</p>" +:+ nl
  +:+ "            </div>" +:+ nl
  +:+ "        </section>" +:+ nl
  +:+ nl
  +:+ "        <section class=" +:+ dq +:+ "statistics-section" +:+ dq +:+ ">" +:+ nl
  +:+ "            <h2>Your Journey in Numbers</h2>" +:+ nl
  +:+ "            <div class=" +:+ dq +:+ "chart-container" +:+ dq +:+ ">" +:+ nl
  +:+ "                <div class=" +:+ dq +:+ "chart-box" +:+ dq +:+ ">" +:+ nl
  +:+ "                    <div id=" +:+ dq +:+ "xp-progress-chart" +:+ dq +:+ " class=" +:+ dq +:+ "chart-canvas" +:+ dq +:+ "></div>" +:+ nl
  +:+ "                </div>" +:+ nl
  +:+ "                <div class=" +:+ dq +:+ "chart-box" +:+ dq +:+ ">" +:+ nl
  +:+ "                    <div id=" +:+ dq +:+ "xp-by-project-chart" +:+ dq +:+ " class=" +:+ dq +:+ "chart-canvas" +:+ dq +:+ "></div>" +:+ nl
  +:+ "                </div>" +:+ nl
  +:+ "                <div class=" +:+ dq +:+ "chart-box" +:+ dq +:+ ">" +:+ nl
  +:+ "                    <h3>Skills</h3>" +:+ nl
  +:+ "                    <div id=" +:+ dq +:+ "skills-radar-chart" +:+ dq +:+ " class=" +:+ dq +:+ "chart-canvas" +:+ dq +:+ "></div>" +:+ nl
  +:+ "                </div>" +:+ nl
  +:+ "            </div>" +:+ nl
  +:+ "        </section>" +:+ nl
  +:+ "    ".

(** The text shown while the query runs. *)
Definition loadingView : string :=
  "<div class=" +:+ dq +:+ "loading-spinner" +:+ dq +:+ "></div><p>Loading profile...</p>".

(** *** [Number.prototype.toFixed(1)] *)

(** The integer [n] for which [n / 10 - m * 2^e] is closest to zero, the
    larger one on a tie. *)
Definition nearest_tenth (m : positive) (e : Z) : Z :=
  if 0 <=? e then Z.pos m * 2 ^ e * 10
  else (2 * (Z.pos m * 10) + 2 ^ (- e)) / 2 ^ (- e + 1).

Definition fixed1_digits (n : Z) : string :=
  pretty (n / 10) +:+ "." +:+ pretty (n mod 10).

(** [x.toFixed(1)], below 10^21. *)
Definition toFixed1 (x : spec_float) : string :=
  match x with
  | S754_nan => "NaN"
  | S754_infinity false => "Infinity"
  | S754_infinity true => "-Infinity"
  | S754_zero _ => "0.0"
  | S754_finite s m e =>
      (if s then "-" else "") +:+ fixed1_digits (nearest_tenth m e)
  end.

(** [ToBoolean] of a number. *)
Definition truthyNumber (x : spec_float) : bool :=
  match x with
  | S754_zero _ | S754_nan => false
  | _ => true
  end.

(** *** The query result *)

(** An entry of [data.user].  An optional number is [None] where the
    chain [a?.b?.c] ends in [undefined] or [null]; [login] is a string
    without markup; [skill_nodes] is [user.skill_types?.nodes]. *)
Record User : Type := mkUser {
  login : string;
  auditRatio : option spec_float;
  totalXp : option Z;
  averageProgressGrade : option spec_float;
  averageResultGrade : option spec_float;
  transactions : Value Transaction;
  skill_nodes : Value Radar.SkillNode
}.

(** The [user] member of the [data] of a response. *)
Definition Payload : Type := Value User.

(** *** What a call leaves on the page besides the texts *)

Inductive Listener : Type :=
| LogoutOnClick         (* [logoutButton.addEventListener('click', logout)] *)
| RetryOnClick          (* [retryButton.addEventListener('click', loadProfilePage)] *)
| LoginOnSubmit         (* [loginForm.addEventListener('submit', handleLogin)] *).

(** The children of the three chart canvases of the profile content. *)
Record Canvases : Type := mkCanvases {
  xpProgressChart : Container;
  xpByProjectChart : Container;
  skillsRadarChart : Container
}.

(** The listeners a call registered, in order, and the chart canvases it
    leaves in the profile area ([None] when the area holds another
    text). *)
Record Outcome : Type := mkOutcome {
  listeners : list Listener;
  canvases : option Canvases
}.

Definition nothing : Outcome := {| listeners := []; canvases := None |}.

Definition onLoginSection (f : Element -> Element) (d : Dom) : Dom :=
  {| errorMessageDiv := errorMessageDiv d;
     loginSection := f <$> loginSection d;
     fixedHeaderContainer := fixedHeaderContainer d;
     profileContentScrollArea := profileContentScrollArea d;
     usernameEmailInput := usernameEmailInput d;
     passwordInput := passwordInput d |}.

Definition onHeader (f : Element -> Element) (d : Dom) : Dom :=
  {| errorMessageDiv := errorMessageDiv d;
     loginSection := loginSection d;
     fixedHeaderContainer := f <$> fixedHeaderContainer d;
     profileContentScrollArea := profileContentScrollArea d;
     usernameEmailInput := usernameEmailInput d;
     passwordInput := passwordInput d |}.

Definition onProfileArea (f : Element -> Element) (d : Dom) : Dom :=
  {| errorMessageDiv := errorMessageDiv d;
     loginSection := loginSection d;
     fixedHeaderContainer := fixedHeaderContainer d;
     profileContentScrollArea := f <$> profileContentScrollArea d;
     usernameEmailInput := usernameEmailInput d;
     passwordInput := passwordInput d |}.

(** *** renderProfile *)

(** [user.totalXp?.aggregate?.sum?.amount || 0] *)
Definition totalXpOf (user : User) : Z := default 0 (totalXp user).

(** [(x / 1000000).toFixed(2)] *)
Definition megabytes (x : Z) : string :=
  toFixed2 (divide (toDouble x) (toDouble 1000000)).

(** [projectXpTransactions.reduce((sum, t) => sum + t.amount, 0)] *)
Definition totalProjectXp (txs : list Transaction) : Z :=
  foldl (fun sum t => sum + amount t) 0 (List.filter isProjectXp txs).

(** [user.auditRatio?.toFixed(1) || '0.0'] *)
Definition auditRatioText (user : User) : string :=
  match auditRatio user with
  | Some x => toFixed1 x
  | None => "0.0"
  end.

(** [(progress || result)?.toFixed(2) || 'N/A'] *)
Definition avgGradeText (user : User) : string :=
  let grade :=
    match averageProgressGrade user with
    | Some x => if truthyNumber x then Some x else averageResultGrade user
    | None => averageResultGrade user
    end in
  match grade with
  | Some x => toFixed2 x
  | None => "N/A"
  end.

Section Rendering.
Context {H : HostNumber} {O : HostObject}.
Variable h : Host.

(** The three chart calls at the end of [renderProfile], each on its fresh
    canvas; a call that throws ends the sequence. *)
Definition drawCharts (user : User) : Canvases * Completion :=
  let xpProgressData := calculateXpProgress h (transactions user) in
  let xpByProjectData := calculateXpByProject (transactions user) in
  let '(line, completion) := drawXpProgressLineChart (Some []) (Array xpProgressData) in
  let line := default [] line in
  match completion with
  | Throw e =>
      ({| xpProgressChart := line; xpByProjectChart := []; skillsRadarChart := [] |}, Throw e)
  | Normal =>
      let '(bars, completion) := drawXpByProject (Some []) xpByProjectData in
      let bars := default [] bars in
      match completion with
      | Throw e =>
          ({| xpProgressChart := line; xpByProjectChart := bars; skillsRadarChart := [] |},
           Throw e)
      | Normal =>
          if truthy (skill_nodes user) then
            let '(radar, completion) := drawSkillsRadarChart (Some []) (skill_nodes user) in
            ({| xpProgressChart := line; xpByProjectChart := bars;
                skillsRadarChart := default [] radar |}, completion)
          else
            ({| xpProgressChart := line; xpByProjectChart := bars; skillsRadarChart := [] |},
             Normal)
      end
  end.

(** [renderProfile(user)]: [user.transactions.filter] throws unless
    [transactions] is an array; the two containers are written next, the
    logout button gets its listener, and the charts are drawn last. *)
Definition renderProfile (user : User) (w : World) : World * Outcome * Completion :=
  match transactions user with
  | Array txs =>
      match fixedHeaderContainer (dom w) with
      | None =>
          (w, nothing, Throw "TypeError: Cannot set properties of null (setting 'innerHTML')")
      | Some _ =>
          let w := withDom (onHeader (setText (headerHtml (login user)))) w in
          match profileContentScrollArea (dom w) with
          | None =>
              (w, nothing,
               Throw "TypeError: Cannot set properties of null (setting 'innerHTML')")
          | Some _ =>
              let content :=
                profileHtml (megabytes (totalXpOf user)) (megabytes (totalProjectXp txs))
                  (avgGradeText user) (auditRatioText user) in
              let w := withDom (onProfileArea (setText content)) w in
              let '(charts, completion) := drawCharts user in
              (w, {| listeners := [LogoutOnClick]; canvases := Some charts |}, completion)
          end
      end
  | _ => (w, nothing, Throw "TypeError: user.transactions.filter is not a function")
  end.

(** *** loadProfilePage *)

(** The [catch] block: the error view replaces the profile content and its
    retry button calls [loadProfilePage] again. *)
Definition showError (w : World) (registered : list Listener) : World * Outcome :=
  let w := emit (ConsoleError "Profile load error:") w in
  let w := withDom (onProfileArea (setText errorView)) w in
  (w, {| listeners := registered ++ [RetryOnClick]; canvases := None |}).

(** The page while the query runs. *)
Definition showLoading (d : Dom) : Dom :=
  onProfileArea (fun _ => {| display := "flex"; text := loadingView |})
    (onHeader (setDisplay "flex") (onLoginSection (setDisplay "none") d)).

(** [loadProfilePage()]: the page and the outcome once the call has
    settled. *)
Definition loadProfilePage (network : Settled Payload) (w : World) : World * Outcome :=
  match loginSection (dom w), fixedHeaderContainer (dom w),
        profileContentScrollArea (dom w) with
  | Some _, Some _, Some _ =>
      let w := withDom showLoading w in
      let '(data, w) := fetchGraphQLData network USER_PROFILE_QUERY w in
      match data with
      | Some (Array (user :: _)) =>
          match renderProfile user w with
          | (w, outcome, Normal) => (w, outcome)
          | (w, outcome, Throw _) => showError w (listeners outcome)
          end
      | _ => showError w []
      end
  | _, _, _ => (emit (ConsoleError "Required DOM elements not found") w, nothing)
  end.

End Rendering.

End Profile.

(** ** auth.js: handleLogin *)

Module Login.
Import Js Browser Config Auth Graphql Charts Profile.

(** *** [String.prototype.trim]

    White space and line terminators, as they stand in UTF-8: U+0009 to
    U+000D and U+0020 in one character of the [string]; U+00A0 in two;
    U+1680, U+2000 to U+200A, U+2028, U+2029, U+202F, U+205F, U+3000 and
    U+FEFF in three. *)

Definition byteOf (c : ascii) : Z := Z.of_nat (nat_of_ascii c).

Definition isWhiteSpace1 (a : ascii) : bool :=
  (9 <=? byteOf a) && (byteOf a <=? 13) || (byteOf a =? 32).

Definition isWhiteSpace2 (a b : ascii) : bool :=
  (byteOf a =? 194) && (byteOf b =? 160).

Definition isWhiteSpace3 (a b c : ascii) : bool :=
  (byteOf a =? 225) && (byteOf b =? 154) && (byteOf c =? 128)
  || (byteOf a =? 226) && (byteOf b =? 128)
     && ((128 <=? byteOf c) && (byteOf c <=? 138)
         || (byteOf c =? 168) || (byteOf c =? 169) || (byteOf c =? 175))
  || (byteOf a =? 226) && (byteOf b =? 129) && (byteOf c =? 159)
  || (byteOf a =? 227) && (byteOf b =? 128) && (byteOf c =? 128)
  || (byteOf a =? 239) && (byteOf b =? 187) && (byteOf c =? 191).

Fixpoint trimStart (s : string) : string :=
  match s with
  | EmptyString => EmptyString
  | String a rest =>
      if isWhiteSpace1 a then trimStart rest
      else match rest with
           | EmptyString => s
           | String b rest' =>
               if isWhiteSpace2 a b then trimStart rest'
               else match rest' with
                    | EmptyString => s
                    | String c rest'' =>
                        if isWhiteSpace3 a b c then trimStart rest'' else s
                    end
           end
  end.

(** [trimStart] from the other end: the characters come in reverse. *)
Fixpoint trimReversed (s : string) : string :=
  match s with
  | EmptyString => EmptyString
  | String a rest =>
      if isWhiteSpace1 a then trimReversed rest
      else match rest with
           | EmptyString => s
           | String b rest' =>
               if isWhiteSpace2 b a then trimReversed rest'
               else match rest' with
                    | EmptyString => s
                    | String c rest'' =>
                        if isWhiteSpace3 c b a then trimReversed rest'' else s
                    end
           end
  end.

(** [s.trim()] *)
Definition trim (s : string) : string :=
  String.rev (trimReversed (String.rev (trimStart s))).

(** *** [btoa] *)

Definition base64Alphabet : string :=
  "ABCDEFGHIJKLMNOPQRSTUVWXYZabcdefghijklmnopqrstuvwxyz0123456789+/".

Definition base64Digit (n : nat) : ascii :=
  default "="%char (String.get n base64Alphabet).

Fixpoint base64 (bytes : list nat) : string :=
  match bytes with
  | [] => EmptyString
  | [a] =>
      String (base64Digit (a / 4))
        (String (base64Digit (a mod 4 * 16)) "==")
  | [a; b] =>
      String (base64Digit (a / 4))
        (String (base64Digit (a mod 4 * 16 + b / 16))
           (String (base64Digit (b mod 16 * 4)) "="))
  | a :: b :: c :: rest =>
      String (base64Digit (a / 4))
        (String (base64Digit (a mod 4 * 16 + b / 16))
           (String (base64Digit (b mod 16 * 4 + c / 64))
              (String (base64Digit (c mod 64)) (base64 rest))))
  end%nat.

(** The code units of a text whose characters are all below U+0100;
    [None] when one is not. *)
Fixpoint latin1 (s : string) : option (list nat) :=
  match s with
  | EmptyString => Some []
  | String a rest =>
      if byteOf a <? 128 then cons (nat_of_ascii a) <$> latin1 rest
      else match rest with
           | EmptyString => None
           | String b rest' =>
               if ((byteOf a =? 194) || (byteOf a =? 195))
                  && (128 <=? byteOf b) && (byteOf b <? 192)
               then cons ((nat_of_ascii a - 192) * 64 + (nat_of_ascii b - 128))%nat
                      <$> latin1 rest'
               else None
           end
  end.

(** [btoa(s)]: [None] when the call throws [InvalidCharacterError], which
    it does for a character above U+00FF. *)
Definition btoa (s : string) : option string := base64 <$> latin1 s.

(** *** [jwtToken.replace(/^"|"$/g, '')] *)

Definition isQuote (c : ascii) : bool := (nat_of_ascii c =? 34)%nat.

Definition stripLeadingQuote (s : string) : string :=
  match s with
  | String c rest => if isQuote c then rest else s
  | EmptyString => EmptyString
  end.

Fixpoint stripTrailingQuote (s : string) : string :=
  match s with
  | EmptyString => EmptyString
  | String c EmptyString => if isQuote c then EmptyString else s
  | String c rest => String c (stripTrailingQuote rest)
  end.

(** The first alternative can only match at the start and the second only
    at the end of what is left. *)
Definition unquote (s : string) : string := stripTrailingQuote (stripLeadingQuote s).

(** [localStorage.setItem('jwtToken', v)]: [None] when the call throws. *)
Definition setItem (v : string) (s : Storage) : option Storage :=
  if accessible s then Some {| accessible := true; jwtToken := Some v |} else None.

(** How the sign-in request settles; [text] is [None] when
    [response.text()] rejects. *)
Inductive Signin : Type :=
| SigninRejected
| SigninResponse (status : Z) (text : option string).

(** The request of [handleLogin]. *)
Definition signinRequest (credentials : string) : Event :=
  Request SIGNIN_ENDPOINT ("Basic " +:+ credentials) "{}".

(** The outer [catch] of [handleLogin]. *)
Definition loginFailed (w : World) : World * Outcome * Completion :=
  (displayErrorMessage ERROR_MESSAGES.NETWORK_ERROR (emit (ConsoleError "Login error:") w),
   nothing, Normal).

Section Submitting.
Context {H : HostNumber} {O : HostObject}.
Variable h : Host.

(** [handleLogin(event)]: the page once the call, and the
    [loadProfilePage] it starts, have settled. *)
Definition handleLogin (signin : Signin) (network : Settled Payload) (w : World)
  : World * Outcome * Completion :=
  let w := hideErrorMessage w in
  match usernameEmailInput (dom w) with
  | None => (w, nothing, Throw "TypeError: Cannot read properties of null (reading 'value')")
  | Some usernameEmailInput =>
      match passwordInput (dom w) with
      | None =>
          (w, nothing, Throw "TypeError: Cannot read properties of null (reading 'value')")
      | Some passwordInput =>
          let usernameEmail := trim (text usernameEmailInput) in
          let password := text passwordInput in
          if bool_decide (usernameEmail = "") || bool_decide (password = "") then
            (displayErrorMessage "Please enter both username/email and password." w,
             nothing, Normal)
          else
            match btoa (usernameEmail +:+ ":" +:+ password) with
            | None => loginFailed w
            | Some credentials =>
                let w := emit (signinRequest credentials) w in
                match signin with
                | SigninRejected => loginFailed w
                | SigninResponse _ None => loginFailed w
                | SigninResponse status (Some body) =>
                    if negb (ok status) then
                      let w := emit (ConsoleError "Login failed:") w in
                      if (status =? 401) || (status =? 403) then
                        (displayErrorMessage ERROR_MESSAGES.INVALID_CREDENTIALS w, nothing, Normal)
                      else
                        (displayErrorMessage
                           (ERROR_MESSAGES.NETWORK_ERROR +:+ " (Status: " +:+ pretty status +:+ ")")
                           w, nothing, Normal)
                    else
                      let jwtToken := unquote body in
                      if bool_decide (jwtToken = "") then
                        (displayErrorMessage ERROR_MESSAGES.JWT_ERROR w, nothing, Normal)
                      else
                        match setItem jwtToken (storage w) with
                        | Some s =>
                            let '(w, outcome) := loadProfilePage h network (withStorage s w) in
                            (w, outcome, Normal)
                        | None =>
                            (displayErrorMessage ERROR_MESSAGES.STORAGE_ERROR
                               (emit (ConsoleError "Storage error:") w), nothing, Normal)
                        end
                end
            end
      end
  end.

End Submitting.

End Login.

(** ** script.js *)

Module App.
Import Js Browser Config Auth Graphql Charts Profile Login.

(** The page without a session. *)
Definition showLogin (d : Dom) : Dom :=
  onProfileArea (setDisplay "none")
    (onHeader (setDisplay "none") (onLoginSection (setDisplay "flex") d)).

Section Starting.
Context {H : HostNumber} {O : HostObject}.
Variable h : Host.

(** The [DOMContentLoaded] listener; [loginForm] tells whether the form
    was found.  The two [console.log] lines are not part of the trace. *)
Definition init (loginForm : bool) (network : Settled Payload) (w : World)
  : World * Outcome :=
  let submit := if loginForm then [LoginOnSubmit] else [] in
  match getItem (storage w) with
  | None =>
      (withDom (onLoginSection (setDisplay "flex"))
         (emit (ConsoleError "Initialization error:") w),
       {| listeners := submit; canvases := None |})
  | Some storedJwtToken =>
      match storedJwtToken with
      | None | Some "" =>
          (withDom showLogin w, {| listeners := submit; canvases := None |})
      | Some _ =>
          let '(w, outcome) := loadProfilePage h network w in
          (w, {| listeners := submit ++ listeners outcome; canvases := canvases outcome |})
      end
  end.

End Starting.

End App.

(** ** Readings of the profile page and the login form *)

Module ProfileReading.
Import Js Calc Browser Config Auth Graphql Charts Profile Login.

(** The three elements [loadProfilePage] requires. *)
Definition elementsPresent (w : World) : bool :=
  match loginSection (dom w), fixedHeaderContainer (dom w),
        profileContentScrollArea (dom w) with
  | Some _, Some _, Some _ => true
  | _, _, _ => false
  end.

(** [data.user[0]] where [loadProfilePage] goes on to render it. *)
Definition userOf (data : option Payload) : option User :=
  match data with
  | Some (Array (user :: _)) => Some user
  | _ => None
  end.

(** The query result that [renderProfile] and the three renderers get
    through without an exception. *)
Definition rendersCharts (user : User) : bool :=
  match transactions user with
  | Array txs =>
      negb (length (List.filter isProjectXp txs) =? 1)%nat
      && (negb (truthy (skill_nodes user)) || isArray (skill_nodes user))
  | _ => false
  end.

(** The visible text of an element. *)
Definition textOf (e : option Element) : option string := text <$> e.
Definition displayOf (e : option Element) : option string := display <$> e.

(** The credential [handleLogin] sends, when it sends one: both inputs
    are on the page and not empty, and [btoa] takes what they hold. *)
Definition credentialsEntered (w : World) : option string :=
  match usernameEmailInput (dom w), passwordInput (dom w) with
  | Some u, Some p =>
      if bool_decide (trim (text u) = "") || bool_decide (text p = "") then None
      else btoa (trim (text u) +:+ ":" +:+ text p)
  | _, _ => None
  end.

(** The token a sign-in response carries. *)
Definition tokenIssued (signin : Signin) : option string :=
  match signin with
  | SigninResponse status (Some body) =>
      if ok status && negb (bool_decide (unquote body = "")) then Some (unquote body)
      else None
  | _ => None
  end.

Definition startsWithQuote (s : string) : bool :=
  match s with
  | String c _ => isQuote c
  | EmptyString => false
  end.

Fixpoint endsWithQuote (s : string) : bool :=
  match s with
  | EmptyString => false
  | String c EmptyString => isQuote c
  | String _ rest => endsWithQuote rest
  end.

(** The string neither starts nor ends with a double quote. *)
Definition bare (s : string) : bool :=
  negb (startsWithQuote s) && negb (endsWithQuote s).

End ProfileReading.

(** ** Sample pages *)

Module SamplePages.
Import Js Calc Browser Config Auth Graphql Charts Profile Login Samples.

(** A coarse host that computes in integers; it serves to run the
    renderers on the samples. *)
Definition integerHost : HostNumber :=
  {| num := Z; ofZ := fun z => z; literal := fun _ => 0; negInfinity := 0;
     add := Z.add; sub := Z.sub; mul := Z.mul; div := Z.div; neg := Z.opp;
     PI := 3; cos := fun _ => 1; sin := fun _ => 0; round := fun z => z;
     lessThan := Z.ltb; toString := pretty; toFixed := pretty |}.

(** [String] of a built-in function as V8 prints it. *)
Definition integerObject : HostObject (H := integerHost) :=
  {| NaN := (0 : Z) : num (HostNumber := integerHost);
     prototypeText := fun member =>
       if bool_decide (member = "__proto__") then "[object Object]"
       else "function " +:+ (if bool_decide (member = "constructor") then "Object" else member)
            +:+ "() { [native code] }" |}.

Definition student : User :=
  {| login := "student";
     auditRatio := Some (divide (toDouble 12) (toDouble 10));
     totalXp := Some 3000000;
     averageProgressGrade := None;
     averageResultGrade := Some (toDouble 1);
     transactions := Array twoProjects;
     skill_nodes := Array [Radar.mkSkillNode (Some "skill_go") 40;
                           Radar.mkSkillNode (Some "skill_front-end") 35] |}.

(** A student who has finished one project. *)
Definition beginner : User :=
  {| login := "beginner";
     auditRatio := None;
     totalXp := Some 1000000;
     averageProgressGrade := None;
     averageResultGrade := None;
     transactions := Array [projectTx "P1" 1000000 jan1];
     skill_nodes := Undefined |}.

(** The login page with the form filled in and no session. *)
Definition loginPage : World :=
  {| storage := {| accessible := true; jwtToken := None |};
     dom :=
       {| errorMessageDiv := Some {| display := "none"; text := "" |};
          loginSection := Some {| display := "flex"; text := "" |};
          fixedHeaderContainer := Some {| display := "none"; text := "" |};
          profileContentScrollArea := Some {| display := "none"; text := "" |};
          usernameEmailInput := Some {| display := ""; text := " student " |};
          passwordInput := Some {| display := ""; text := "secret" |} |};
     events := [] |}.

(** The login page with a password that [btoa] refuses (U+20AC). *)
Definition euroPassword : World :=
  {| storage := {| accessible := true; jwtToken := None |};
     dom :=
       {| errorMessageDiv := Some {| display := "none"; text := "" |};
          loginSection := Some {| display := "flex"; text := "" |};
          fixedHeaderContainer := Some {| display := "none"; text := "" |};
          profileContentScrollArea := Some {| display := "none"; text := "" |};
          usernameEmailInput := Some {| display := ""; text := "student" |};
          passwordInput :=
            Some {| display := "";
                    text := String (Ascii.ascii_of_nat 226)
                              (String (Ascii.ascii_of_nat 130)
                                 (String (Ascii.ascii_of_nat 172) "100")) |} |};
     events := [] |}.

(** The login page with a user name of blanks. *)
Definition blankForm : World :=
  {| storage := {| accessible := true; jwtToken := None |};
     dom :=
       {| errorMessageDiv := Some {| display := "none"; text := "" |};
          loginSection := Some {| display := "flex"; text := "" |};
          fixedHeaderContainer := Some {| display := "none"; text := "" |};
          profileContentScrollArea := Some {| display := "none"; text := "" |};
          usernameEmailInput := Some {| display := ""; text := "   " |};
          passwordInput := Some {| display := ""; text := "secret" |} |};
     events := [] |}.

End SamplePages.

(** * Properties *)

(** ** Sorting and dictionaries *)

Section JsFacts.
Import Js.

Lemma insert_by_Permutation {A} (cmp : A -> A -> option Z) x l :
  insert_by cmp x l ≡ₚ x :: l.
Proof.
  induction l as [|y l IH]; simpl; [done|].
  destruct (positive_result (cmp x y)); [|done].
  rewrite IH. apply Permutation_swap.
Qed.

Lemma sort_Permutation {A} (cmp : A -> A -> option Z) l : sort cmp l ≡ₚ l.
Proof.
  induction l as [|x l IH]; simpl; [done|].
  rewrite insert_by_Permutation. by rewrite IH.
Qed.

Lemma sort_length {A} (cmp : A -> A -> option Z) l : length (sort cmp l) = length l.
Proof. by rewrite sort_Permutation. Qed.

Lemma get_set_eq {V} (o : JsObject V) k v : get (set o k v) k = Some v.
Proof.
  induction o as [|[k' v'] o IH]; simpl.
  - by rewrite bool_decide_eq_true_2.
  - case_bool_decide; simpl.
    + by rewrite bool_decide_eq_true_2.
    + by rewrite bool_decide_eq_false_2.
Qed.

Lemma get_set_ne {V} (o : JsObject V) k k' v :
  k ≠ k' -> get (set o k v) k' = get o k'.
Proof.
  intros Hne. induction o as [|[k0 v0] o IH]; simpl.
  - by rewrite bool_decide_eq_false_2.
  - case_bool_decide as Hk; simpl.
    + subst k0. by rewrite !bool_decide_eq_false_2.
    + by rewrite IH.
Qed.

End JsFacts.

(** ** calculations.js *)

Section CalcFacts.
Import Js Calc CalcReading.

Lemma accumulate_length h c txs : length (accumulate h c txs) = length txs.
Proof. revert c. induction txs as [|tx txs IH]; intros c; simpl; [done|]. by rewrite IH. Qed.

Lemma accumulate_nonDecreasing h c txs :
  Forall (fun tx => 0 <= amount tx) txs ->
  nonDecreasing (c :: (totalXp <$> accumulate h c txs)).
Proof.
  intros Hall. revert c.
  induction Hall as [|tx txs Hpos _ IH]; intros c; [done|].
  split; [simpl; lia|]. apply IH.
Qed.

Lemma nonDecreasing_tail x l : nonDecreasing (x :: l) -> nonDecreasing l.
Proof. destruct l as [|y l]; [done|]. by intros [_ ?]. Qed.

Lemma accumulate_last h c txs :
  totalXp <$> last (accumulate h c txs) =
  match txs with [] => None | _ => Some (c + sumAmounts txs) end.
Proof.
  revert c. induction txs as [|tx txs IH]; intros c; [done|].
  change (accumulate h c (tx :: txs)) with
    ({| date := toLocaleDateString h (newDate (createdAt tx));
        totalXp := c + amount tx;
        totalXpMB := toFixed2 (divide (toDouble (c + amount tx)) (toDouble 1000000)) |}
     :: accumulate h (c + amount tx) txs).
  destruct txs as [|tx' txs].
  - simpl. unfold sumAmounts. simpl. f_equal. lia.
  - rewrite last_cons. specialize (IH (c + amount tx)).
    destruct (last (accumulate h (c + amount tx) (tx' :: txs))) as [p|] eqn:Hl.
    + simpl in *. rewrite IH. f_equal. unfold sumAmounts. simpl. lia.
    + simpl in IH. discriminate.
Qed.

Lemma sumAmounts_Permutation l1 l2 : l1 ≡ₚ l2 -> sumAmounts l1 = sumAmounts l2.
Proof.
  unfold sumAmounts. induction 1; csimpl in *; lia.
Qed.

Lemma ownXp_set acc k v : ownXp (set acc k v) k = v.
Proof.
  unfold ownXp. rewrite get_set_eq.
  destruct (v =? 0) eqn:Hv; [|done]. apply Z.eqb_eq in Hv. lia.
Qed.

Lemma ownXp_set_ne acc k k' v : k ≠ k' -> ownXp (set acc k v) k' = ownXp acc k'.
Proof. intros Hne. unfold ownXp. by rewrite get_set_ne. Qed.

Lemma sumValues_set acc k a :
  sumValues (set acc k (ownXp acc k + a)) = sumValues acc + a.
Proof.
  unfold sumValues, ownXp.
  induction acc as [|[k' v'] acc IH]; csimpl.
  - lia.
  - case_bool_decide as Hk; csimpl.
    + destruct (v' =? 0) eqn:Hv; [apply Z.eqb_eq in Hv|]; lia.
    + lia.
Qed.

Lemma elem_of_set_keys {V} (acc : JsObject V) k v k' :
  k' ∈ (set acc k v).*1 <-> k' = k \/ k' ∈ acc.*1.
Proof.
  induction acc as [|[k0 v0] acc IH]; csimpl.
  - rewrite list_elem_of_singleton, elem_of_nil. tauto.
  - case_bool_decide as Hk; csimpl; rewrite !elem_of_cons.
    + subst k0. tauto.
    + rewrite IH. tauto.
Qed.

Lemma NoDup_set_keys {V} (acc : JsObject V) k v :
  NoDup acc.*1 -> NoDup (set acc k v).*1.
Proof.
  induction acc as [|[k0 v0] acc IH]; csimpl; intros Hnd.
  - apply NoDup_singleton.
  - apply NoDup_cons in Hnd as [Hnotin Hnd].
    case_bool_decide as Hk; csimpl.
    + subst k0. by apply NoDup_cons.
    + apply NoDup_cons. split; [|by apply IH].
      rewrite elem_of_set_keys. intros [->|?]; done.
Qed.

Lemma NoDup_foldl_keys acc txs :
  NoDup acc.*1 -> NoDup (foldl addToOwn acc txs).*1.
Proof.
  revert acc. induction txs as [|tx txs IH]; intros acc Hnd; simpl; [done|].
  apply IH. by apply NoDup_set_keys.
Qed.

Lemma get_foldl acc txs k :
  get (foldl addToOwn acc txs) k =
  match List.filter (fun tx => bool_decide (projectName tx = k)) txs with
  | [] => get acc k
  | g => Some (ownXp acc k + sumAmounts g)
  end.
Proof.
  revert acc. induction txs as [|tx txs IH]; intros acc; simpl; [done|].
  rewrite IH. unfold addToOwn.
  case_bool_decide as Hk.
  - subst k. rewrite ownXp_set, get_set_eq.
    destruct (List.filter _ txs) as [|tx' g]; f_equal; unfold sumAmounts; csimpl; lia.
  - by rewrite ownXp_set_ne, get_set_ne.
Qed.

Lemma filter_filter {A} (f g : A -> bool) l :
  List.filter g (List.filter f l) = List.filter (fun x => f x && g x) l.
Proof.
  induction l as [|x l IH]; simpl; [done|].
  destruct (f x); simpl; [|done]. destruct (g x); by rewrite IH.
Qed.

Lemma sumValues_foldl acc txs :
  sumValues (foldl addToOwn acc txs) = sumValues acc + sumAmounts txs.
Proof.
  revert acc. induction txs as [|tx txs IH]; intros acc; simpl.
  - unfold sumAmounts. simpl. lia.
  - rewrite IH. unfold addToOwn. rewrite sumValues_set.
    unfold sumAmounts. csimpl. lia.
Qed.

Lemma get_asValues (o : JsObject Z) k : get (asValues o) k = XpNumber <$> get o k.
Proof.
  unfold asValues. induction o as [|[k0 v0] o IH]; csimpl; [done|].
  by case_bool_decide.
Qed.

Lemma set_asValues (o : JsObject Z) k v :
  set (asValues o) k (XpNumber v) = asValues (set o k v).
Proof.
  unfold asValues. induction o as [|[k0 v0] o IH]; csimpl; [done|].
  case_bool_decide; csimpl; [done|]. by rewrite IH.
Qed.

Lemma numbers_asValues (o : JsObject Z) : numbers (asValues o) = Some o.
Proof.
  unfold numbers, asValues. induction o as [|[k0 v0] o IH]; [done|].
  rewrite fmap_cons. cbn [mapM]. by rewrite IH.
Qed.

(** Under a name that is not inherited the callback is the one of the
    plain dictionary. *)
Lemma addToProject_asValues (acc : JsObject Z) (tx : Transaction) :
  projectName tx ∉ prototypeMembers ->
  addToProject (asValues acc) tx = asValues (addToOwn acc tx).
Proof.
  intros Hplain. unfold addToProject, assign, currentXp, addToOwn, ownXp.
  assert (Hproto : projectName tx <> "__proto__").
  { intros Heq. apply Hplain. rewrite Heq. compute_done. }
  rewrite (bool_decide_eq_false_2 _ Hproto), get_asValues.
  destruct (get acc (projectName tx)) as [v|]; simpl.
  - by rewrite set_asValues.
  - rewrite (bool_decide_eq_false_2 _ Hplain). by rewrite set_asValues.
Qed.

Lemma foldl_addToProject_asValues (acc : JsObject Z) (txs : list Transaction) :
  Forall (fun tx => projectName tx ∉ prototypeMembers) txs ->
  foldl addToProject (asValues acc) txs = asValues (foldl addToOwn acc txs).
Proof.
  intros Hplain. revert acc.
  induction Hplain as [|tx txs Htx _ IH]; intros acc; simpl; [done|].
  by rewrite addToProject_asValues, IH.
Qed.

Lemma plainNames_filter (txs : list Transaction) :
  plainNames txs ->
  Forall (fun tx => projectName tx ∉ prototypeMembers) (List.filter isProjectXp txs).
Proof.
  induction 1 as [|tx txs Htx _ IH]; simpl; [done|].
  destruct (isProjectXp tx) eqn:Hq; [|done]. constructor; [by apply Htx|done].
Qed.

(** Without inherited names [calculateXpByProject] returns the sums of the
    plain dictionary. *)
Lemma calculateXpByProject_plain (txs : list Transaction) :
  plainNames txs ->
  calculateXpByProject (Array txs) = asValues (sumsByProject txs).
Proof.
  intros Hplain. unfold calculateXpByProject, sumsByProject. simpl.
  by apply (foldl_addToProject_asValues []), plainNames_filter.
Qed.

End CalcFacts.

Section CalcClaims.
Import Js Calc CalcReading Samples.

(** The end-to-end example of the specification. *)
Example twoProjects_progress :
  totalXp <$> calculateXpProgress hostUS (Array twoProjects) = [1000000; 3000000]
  /\ totalXpMB <$> calculateXpProgress hostUS (Array twoProjects) = ["1.00"; "3.00"]
  /\ calculateXpByProject (Array twoProjects)
     = [("P1", XpNumber 1000000); ("P2", XpNumber 2000000)].
Proof. by vm_compute. Qed.

(** The sign of an amount is not checked: outside the data model, a record
    of -3 XP after a grant of 5 XP takes the running total from 5 down
    to 2. *)
Lemma progress_decreases_after_negative_amount :
  totalXp <$> calculateXpProgress hostUS (Array withNegativeAmount) = [5; 2]
  /\ ~ (nonDecreasing (totalXp <$> calculateXpProgress hostUS (Array withNegativeAmount))
        /\ length (calculateXpProgress hostUS (Array withNegativeAmount))
           = length (List.filter isProjectXp withNegativeAmount)).
Proof.
  split; [by vm_compute|].
  intros [Hmono _]. vm_compute in Hmono. destruct Hmono as [Hle _]. by apply Hle.
Qed.

(** C1: for every list of transactions [calculateXpProgress] returns one
    point per record with type "xp" and object type "project"; and when
    these records have the non-negative amounts of the data model, the
    [totalXp] values never decrease from one point to the next. *)
Theorem progress_nonDecreasing_and_complete (h : Host) (transactions : list Transaction) :
  length (calculateXpProgress h (Array transactions))
  = length (List.filter isProjectXp transactions)
  /\ (Forall (fun tx => isProjectXp tx = true -> 0 <= amount tx) transactions ->
      nonDecreasing (totalXp <$> calculateXpProgress h (Array transactions))).
Proof.
  unfold calculateXpProgress, xpTransactions. simpl. split.
  - by rewrite accumulate_length, sort_length.
  - intros Hpos. apply (nonDecreasing_tail 0), accumulate_nonDecreasing.
    rewrite sort_Permutation.
    induction Hpos as [|tx txs Htx _ IH]; simpl; [done|].
    destruct (isProjectXp tx) eqn:Hq; [|done].
    constructor; [by apply Htx|done].
Qed.

Lemma progress_nonDecreasing_and_complete_witness :
  Forall (fun tx => isProjectXp tx = true -> 0 <= amount tx) twoProjects
  /\ nonDecreasing (totalXp <$> calculateXpProgress hostUS (Array twoProjects))
  /\ length (calculateXpProgress hostUS (Array twoProjects))
     = length (List.filter isProjectXp twoProjects)
  /\ length (calculateXpProgress hostUS (Array withNegativeAmount))
     = length (List.filter isProjectXp withNegativeAmount).
Proof.
  assert (Hpos : Forall (fun tx => isProjectXp tx = true -> 0 <= amount tx) twoProjects).
  { repeat constructor; simpl; lia. }
  split; [exact Hpos|].
  split; [exact (proj2 (progress_nonDecreasing_and_complete hostUS twoProjects) Hpos)|].
  split; [exact (proj1 (progress_nonDecreasing_and_complete hostUS twoProjects))|].
  exact (proj1 (progress_nonDecreasing_and_complete hostUS withNegativeAmount)).
Defined.

(** C2: the XP of a project named [__proto__] is lost.  The accumulator
    [{}] answers [acc["__proto__"]] with [Object.prototype], [+] makes a
    string of it and the amount, and the setter of [__proto__] drops the
    string: of 6 XP the mapping keeps 1.  Under the name of an inherited
    function, such as [constructor], the value is a string to which the
    amounts are appended as digits. *)
Theorem xpByProject_loses_inherited_name :
  calculateXpByProject (Array withInheritedName) = [("P", XpNumber 1)]
  /\ sumValues <$> numbers (calculateXpByProject (Array withInheritedName)) = Some 1
  /\ sumAmounts (List.filter isProjectXp withInheritedName) = 6
  /\ calculateXpByProject
       (Array [projectTx "constructor" 5 jan1; projectTx "constructor" 7 jan2])
     = [("constructor", XpString "constructor" [5; 7])].
Proof. by vm_compute. Qed.

(** Where no project bears an inherited name the mapping holds numbers
    only: the values add up to the sum of [amount] over the records with
    type "xp" and object type "project"; each key holds the sum of the
    records booked under it and occurs once; a record without
    [object.name] is booked under "Unknown Project". *)
Lemma xpByProject_conserves_xp (transactions : list Transaction) :
  plainNames transactions ->
  numbers (calculateXpByProject (Array transactions)) = Some (sumsByProject transactions)
  /\ sumValues (sumsByProject transactions)
     = sumAmounts (List.filter isProjectXp transactions)
  /\ (forall k,
        get (calculateXpByProject (Array transactions)) k
        = match projectGroup k transactions with
          | [] => None
          | g => Some (XpNumber (sumAmounts g))
          end)
  /\ NoDup (calculateXpByProject (Array transactions)).*1
  /\ (forall a t c e ty,
        projectName (mkTransaction a t c e (Some (mkTxObject None ty)))
        = "Unknown Project").
Proof.
  intros Hplain. rewrite (calculateXpByProject_plain _ Hplain).
  unfold sumsByProject. split; [apply numbers_asValues|]. split; [|split; [|split]].
  - by rewrite sumValues_foldl.
  - intros k. rewrite get_asValues, get_foldl, filter_filter. unfold projectGroup.
    by destruct (List.filter _ transactions).
  - unfold asValues. rewrite <- list_fmap_compose.
    apply (NoDup_foldl_keys []). constructor.
  - done.
Qed.

(** C10: on the same list the last point of [calculateXpProgress] counts
    the 5 XP of the project named [__proto__] and the mapping of
    [calculateXpByProject] does not: the series ends at 6, the values of
    the mapping add up to 1. *)
Theorem progress_endpoint_exceeds_project_total :
  totalXp <$> last (calculateXpProgress hostUS (Array withInheritedName)) = Some 6
  /\ sumValues <$> numbers (calculateXpByProject (Array withInheritedName)) = Some 1.
Proof. by vm_compute. Qed.

(** Where no project bears an inherited name, and as soon as one record
    has type "xp" and object type "project", the [totalXp] of the last
    point of [calculateXpProgress] is the sum of the values of
    [calculateXpByProject] on the same list. *)
Lemma progress_endpoint_is_project_total (h : Host) (transactions : list Transaction) :
  plainNames transactions ->
  List.filter isProjectXp transactions <> [] ->
  totalXp <$> last (calculateXpProgress h (Array transactions))
  = sumValues <$> numbers (calculateXpByProject (Array transactions)).
Proof.
  intros Hplain Hne. rewrite (calculateXpByProject_plain _ Hplain), numbers_asValues.
  unfold calculateXpProgress, sumsByProject, xpTransactions. simpl.
  rewrite accumulate_last, sumValues_foldl.
  rewrite (sumAmounts_Permutation _ _ (sort_Permutation byCreatedAt _)).
  destruct (sort byCreatedAt (List.filter isProjectXp transactions)) as [|tx txs] eqn:Hs.
  - exfalso. apply Hne, length_zero_iff_nil.
    by rewrite <- (sort_length byCreatedAt), Hs.
  - done.
Qed.

(** The three facts above do not depend on how [sort] arranges records
    whose dates compare as [NaN] or as equal: they hold for the running
    sums over any arrangement of the qualifying records. *)
Lemma progress_in_any_order (h : Host) (transactions arranged : list Transaction) :
  arranged ≡ₚ List.filter isProjectXp transactions ->
  length (accumulate h 0 arranged) = length (List.filter isProjectXp transactions)
  /\ (Forall (fun tx => 0 <= amount tx) (List.filter isProjectXp transactions) ->
      nonDecreasing (totalXp <$> accumulate h 0 arranged))
  /\ (arranged <> [] ->
      totalXp <$> last (accumulate h 0 arranged)
      = Some (sumAmounts (List.filter isProjectXp transactions))).
Proof.
  intros Hperm. split; [|split].
  - by rewrite accumulate_length, Hperm.
  - intros Hpos. apply (nonDecreasing_tail 0), accumulate_nonDecreasing.
    by rewrite Hperm.
  - intros Hne. rewrite accumulate_last, (sumAmounts_Permutation _ _ Hperm).
    by destruct arranged.
Qed.

End CalcClaims.

Section CalcInputsAndHost.
Import Js Calc Samples.

(** C6: on an input that is missing, not an array, or an empty array,
    [calculateXpByProject] returns the empty mapping, [calculateXpProgress]
    the empty sequence and [calculatePassFailCounts] zero counts; each
    returns normally. *)
Theorem transforms_empty_on_missing_input
    (h : Host) (transactions : Value Transaction) (results : Value Result) :
  missingOrEmpty transactions = true ->
  missingOrEmpty results = true ->
  calculateXpByProject transactions = []
  /\ calculateXpProgress h transactions = []
  /\ calculatePassFailCounts results = {| passed := 0; failed := 0; total := 0 |}.
Proof.
  intros Ht Hr. unfold calculateXpByProject, calculateXpProgress, calculatePassFailCounts.
  repeat split.
  - destruct transactions as [| |b|n|s| |[|tx l]]; try discriminate; simpl;
      by repeat case_match.
  - destruct transactions as [| |b|n|s| |[|tx l]]; try discriminate; simpl;
      by repeat case_match.
  - destruct results as [| |b|n|s| |[|r l]]; try discriminate; simpl;
      by repeat case_match.
Qed.

Lemma transforms_empty_on_missing_input_witness :
  missingOrEmpty (@Undefined Transaction) = true
  /\ missingOrEmpty (@PlainObject Result) = true
  /\ calculateXpByProject Undefined = []
  /\ calculateXpProgress hostUS Undefined = []
  /\ calculatePassFailCounts PlainObject = {| passed := 0; failed := 0; total := 0 |}.
Proof.
  split; [reflexivity|]. split; [reflexivity|].
  exact (transforms_empty_on_missing_input hostUS Undefined PlainObject eq_refl eq_refl).
Defined.

(** The three inputs named by the specification. *)
Example xpByProject_of_object_undefined_empty :
  calculateXpByProject PlainObject = []
  /\ calculateXpByProject Undefined = []
  /\ calculateXpByProject (Array []) = []
  /\ calculateXpProgress hostUS PlainObject = []
  /\ calculateXpProgress hostUS Undefined = []
  /\ calculateXpProgress hostUS (Array []) = [].
Proof. by repeat split. Qed.








End CalcInputsAndHost.

(** ** auth.js and graphql.js *)

Section SessionFacts.
Import Browser Config Auth Graphql.

Lemma shownMessages_app es1 es2 :
  shownMessages (es1 ++ es2) = shownMessages es1 ++ shownMessages es2.
Proof. unfold shownMessages. apply omap_app. Qed.

Lemma requests_app es1 es2 : requests (es1 ++ es2) = requests es1 ++ requests es2.
Proof. unfold requests. apply List.filter_app. Qed.

Lemma displayErrorMessage_storage m w : storage (displayErrorMessage m w) = storage w.
Proof. unfold displayErrorMessage. by destruct (errorMessageDiv (dom w)). Qed.

Lemma displayErrorMessage_shown m w :
  shownMessages (events (displayErrorMessage m w))
  = shownMessages (events w) ++ shownOn (dom w) m.
Proof.
  unfold displayErrorMessage, shownOn.
  destruct (errorMessageDiv (dom w)); simpl.
  - by rewrite !shownMessages_app, app_nil_r.
  - by rewrite app_nil_r.
Qed.

Lemma displayErrorMessage_requests m w :
  requests (events (displayErrorMessage m w)) = requests (events w).
Proof.
  unfold displayErrorMessage.
  destruct (errorMessageDiv (dom w)); simpl; [|done].
  by rewrite !requests_app, !app_nil_r.
Qed.

(** The page parts that [logout] resets are not touched by
    [displayErrorMessage]. *)
Lemma displayErrorMessage_page m w :
  loginSection (dom (displayErrorMessage m w)) = loginSection (dom w)
  /\ fixedHeaderContainer (dom (displayErrorMessage m w)) = fixedHeaderContainer (dom w)
  /\ profileContentScrollArea (dom (displayErrorMessage m w))
     = profileContentScrollArea (dom w).
Proof. unfold displayErrorMessage. by destruct (errorMessageDiv (dom w)). Qed.

(** [logout] with a working storage: the token is gone, the page is the
    logged-out page, the error element is hidden and nothing is emitted. *)
Lemma logout_accessible w :
  accessible (storage w) = true ->
  jwtToken (storage (logout w)) = None
  /\ loggedOutPage (dom (logout w))
  /\ events (logout w) = events w
  /\ whenPresent (fun e => display e = "none" /\ text e = "") (errorMessageDiv (dom (logout w))).
Proof.
  intros Hacc. unfold logout, removeItem. rewrite Hacc. simpl.
  unfold loggedOutPage. simpl.
  destruct (dom w) as [err login header profile user pass]; simpl.
  destruct err, login, header, profile; by repeat split.
Qed.

Lemma isInvalidJWT_spec errors :
  isInvalidJWT errors = true <-> exists err, In err errors /\ code err = Some "invalid-jwt".
Proof.
  unfold isInvalidJWT. rewrite existsb_exists.
  split; intros (err & Hin & Hcode); exists err; split; try done.
  - by apply bool_decide_eq_true in Hcode.
  - by apply bool_decide_eq_true.
Qed.

End SessionFacts.

Section SessionClaims.
Import Browser Config Auth Graphql Samples.

(** Showing [m] and logging out, from a state [w] that differs from [w0]
    only in its trace. *)
Lemma shown_then_logged_out (m : string) (w0 w : World) :
  accessible (storage w) = true ->
  dom w = dom w0 ->
  jwtToken (storage (logout (displayErrorMessage m w))) = None
  /\ loggedOutPage (dom (logout (displayErrorMessage m w)))
  /\ shownMessages (events (logout (displayErrorMessage m w)))
     = shownMessages (events w) ++ shownOn (dom w0) m
  /\ requests (events (logout (displayErrorMessage m w))) = requests (events w).
Proof.
  intros Hacc Hdom.
  destruct (logout_accessible (displayErrorMessage m w)) as (Htok & Hpage & Hev & _).
  { by rewrite displayErrorMessage_storage. }
  rewrite Hev, displayErrorMessage_shown, displayErrorMessage_requests, Hdom.
  split; [done|]. split; [done|]. by split.
Qed.

(** After showing [m], [logout] with a working storage leaves the error
    element hidden and empty. *)
Lemma logout_erases_message (m : string) (w : World) :
  accessible (storage w) = true ->
  errorMessageDiv (dom (logout (displayErrorMessage m w)))
  = (fun _ => {| display := "none"; text := "" |}) <$> errorMessageDiv (dom w).
Proof.
  intros Hacc. unfold logout, removeItem. rewrite displayErrorMessage_storage, Hacc.
  unfold displayErrorMessage. by destruct (errorMessageDiv (dom w)) eqn:Hdiv; simpl; rewrite ?Hdiv.
Qed.

(** C3: the session-expired message never stays on the page.  With a
    working storage, [fetchGraphQLData] called without a stored token
    sends no request, and called with a token and answered with HTTP 401 or
    403 sends exactly one; in both cases it returns [null], empties the
    token slot and leaves the logged-out page.  The session-expired string
    is handed to the error element, but [logout], called next, ends in
    [hideErrorMessage]: when the call returns the error element is hidden
    and its text is empty. *)
Theorem fetch_session_expired_message_erased {Data}
    (network : Settled Data) (query : string) (w : World) :
  accessible (storage w) = true ->
  negb (tokenPresent w) || refused network = true ->
  (fetchGraphQLData network query w).1 = None
  /\ jwtToken (storage (fetchGraphQLData network query w).2) = None
  /\ loggedOutPage (dom (fetchGraphQLData network query w).2)
  /\ shownMessages (events (fetchGraphQLData network query w).2)
     = shownMessages (events w) ++ shownOn (dom w) ERROR_MESSAGES.SESSION_EXPIRED
  /\ requests (events (fetchGraphQLData network query w).2)
     = requests (events w)
       ++ (if tokenPresent w
           then [request (default "" (jwtToken (storage w))) query] else [])
  /\ errorMessageDiv (dom (fetchGraphQLData network query w).2)
     = (fun _ => {| display := "none"; text := "" |}) <$> errorMessageDiv (dom w).
Proof.
  intros Hacc Hcase.
  unfold fetchGraphQLData, getItem, tokenPresent in *. rewrite Hacc.
  destruct (jwtToken (storage w)) as [[|c token]|] eqn:Htoken; simpl in Hcase.
  - destruct (shown_then_logged_out ERROR_MESSAGES.SESSION_EXPIRED w
                (emit (ConsoleError "No JWT token found") w))
      as (? & ? & Hshown & Hreq); try done.
    simpl in *. rewrite Hshown, Hreq, shownMessages_app, requests_app. simpl.
    rewrite !app_nil_r. split; [done|]. split; [done|]. split; [done|].
    split; [done|]. split; [done|]. by apply (logout_erases_message _ (emit _ w)).
  - destruct network as [|status body]; [done|]. simpl in Hcase.
    assert (Hok : negb (ok status) = true) by (unfold ok; lia).
    rewrite Hok, Hcase.
    destruct (shown_then_logged_out ERROR_MESSAGES.SESSION_EXPIRED w
                (emit (request (String c token) query) w))
      as (? & ? & Hshown & Hreq); try done.
    simpl in *. rewrite Hshown, Hreq, shownMessages_app, requests_app. simpl.
    rewrite !app_nil_r. split; [done|]. split; [done|]. split; [done|].
    split; [done|]. split; [done|]. by apply (logout_erases_message _ (emit _ w)).
  - destruct (shown_then_logged_out ERROR_MESSAGES.SESSION_EXPIRED w
                (emit (ConsoleError "No JWT token found") w))
      as (? & ? & Hshown & Hreq); try done.
    simpl in *. rewrite Hshown, Hreq, shownMessages_app, requests_app. simpl.
    rewrite !app_nil_r. split; [done|]. split; [done|]. split; [done|].
    split; [done|]. split; [done|]. by apply (logout_erases_message _ (emit _ w)).
Qed.

Lemma fetch_session_expired_message_erased_witness :
  (accessible (storage tokenLost) = true
   /\ negb (tokenPresent tokenLost) || refused (@Rejected unit) = true
   /\ (fetchGraphQLData (@Rejected unit) "query" tokenLost).1 = None
   /\ requests (events (fetchGraphQLData (@Rejected unit) "query" tokenLost).2) = []
   /\ shownMessages (events (fetchGraphQLData (@Rejected unit) "query" tokenLost).2)
      = [ERROR_MESSAGES.SESSION_EXPIRED]
   /\ errorMessageDiv (dom (fetchGraphQLData (@Rejected unit) "query" tokenLost).2)
      = Some {| display := "none"; text := "" |})
  /\ (accessible (storage signedIn) = true
      /\ negb (tokenPresent signedIn) || refused (@Response unit 403 NotJson) = true
      /\ (fetchGraphQLData (@Response unit 403 NotJson) "query" signedIn).1 = None
      /\ requests (events (fetchGraphQLData (@Response unit 403 NotJson) "query" signedIn).2)
         = [request "header.payload.signature" "query"]
      /\ shownMessages
           (events (fetchGraphQLData (@Response unit 403 NotJson) "query" signedIn).2)
         = [ERROR_MESSAGES.SESSION_EXPIRED]
      /\ errorMessageDiv (dom (fetchGraphQLData (@Response unit 403 NotJson) "query" signedIn).2)
         = Some {| display := "none"; text := "" |}).
Proof.
  pose proof (fetch_session_expired_message_erased (@Rejected unit) "query" tokenLost
                eq_refl eq_refl) as (Hnull & _ & _ & Hshown & Hreq & Hdiv).
  pose proof (fetch_session_expired_message_erased (@Response unit 403 NotJson) "query"
                signedIn eq_refl eq_refl) as (Hnull' & _ & _ & Hshown' & Hreq' & Hdiv').
  split; (split; [reflexivity|]); (split; [reflexivity|]);
    (split; [assumption|]); (split; [assumption|]); split; assumption.
Defined.

(** C4, as stated, fails: on HTTP 401 the message handed to the error
    element is the session-expired string, not the invalid-credentials
    string, and [logout] then empties the error element. *)
Lemma fetch_401_message_is_session_expired :
  shownMessages (events (fetchGraphQLData (@Response unit 401 NotJson) "query" signedIn).2)
    = [ERROR_MESSAGES.SESSION_EXPIRED]
  /\ messageOnScreen (fetchGraphQLData (@Response unit 401 NotJson) "query" signedIn).2
     = Some ""
  /\ ~ (jwtToken (storage (fetchGraphQLData (@Response unit 401 NotJson) "query" signedIn).2)
          = None
        /\ loggedOutPage (dom (fetchGraphQLData (@Response unit 401 NotJson) "query" signedIn).2)
        /\ (In ERROR_MESSAGES.INVALID_CREDENTIALS
              (shownMessages
                 (events (fetchGraphQLData (@Response unit 401 NotJson) "query" signedIn).2))
            \/ messageOnScreen (fetchGraphQLData (@Response unit 401 NotJson) "query" signedIn).2
               = Some ERROR_MESSAGES.INVALID_CREDENTIALS)).
Proof.
  split; [by vm_compute|]. split; [by vm_compute|].
  intros (_ & _ & [Hin | Hscreen]).
  - vm_compute in Hin. destruct Hin as [Heq | []]. discriminate.
  - vm_compute in Hscreen. discriminate.
Qed.

(** C4 (amended): when a fetch sent with a stored token is answered with
    HTTP 401, the token is removed from storage, the page is the logged-out
    page (login form visible, header and profile area hidden and emptied),
    [null] is returned, and the message handed to the error element is
    the predefined session-expired string. *)
Theorem fetch_401_logs_out {Data} (body : Body Data) (query : string) (w : World) :
  accessible (storage w) = true ->
  tokenPresent w = true ->
  (fetchGraphQLData (Response 401 body) query w).1 = None
  /\ jwtToken (storage (fetchGraphQLData (Response 401 body) query w).2) = None
  /\ loggedOutPage (dom (fetchGraphQLData (Response 401 body) query w).2)
  /\ shownMessages (events (fetchGraphQLData (Response 401 body) query w).2)
     = shownMessages (events w) ++ shownOn (dom w) ERROR_MESSAGES.SESSION_EXPIRED.
Proof.
  intros Hacc Htoken.
  unfold fetchGraphQLData, getItem, tokenPresent in *. rewrite Hacc.
  destruct (jwtToken (storage w)) as [[|c token]|]; try discriminate. simpl.
  destruct (shown_then_logged_out ERROR_MESSAGES.SESSION_EXPIRED w
              (emit (request (String c token) query) w))
    as (? & ? & Hshown & _); try done.
  simpl in *. rewrite Hshown, shownMessages_app. simpl.
  by rewrite !app_nil_r.
Qed.

Lemma fetch_401_logs_out_witness :
  accessible (storage signedIn) = true
  /\ tokenPresent signedIn = true
  /\ jwtToken (storage (fetchGraphQLData (@Response unit 401 NotJson) "query" signedIn).2)
     = None
  /\ loggedOutPage (dom (fetchGraphQLData (@Response unit 401 NotJson) "query" signedIn).2).
Proof.
  pose proof (fetch_401_logs_out (@NotJson unit) "query" signedIn eq_refl eq_refl)
    as (_ & Htoken & Hpage & _).
  split; [reflexivity|]. split; [reflexivity|]. split; assumption.
Defined.




End SessionClaims.

(** ** charts.js *)

Section ChartFacts.
Import Js Config Charts Charts.BarChart.

Lemma keys_Permutation {V} (o : JsObject V) : keys o ≡ₚ o.*1.
Proof.
  unfold keys. rewrite sort_Permutation.
  induction (o.*1) as [|k ks IH]; [done|].
  unfold index_keys, name_keys in *. csimpl.
  rewrite filter_cons. case_decide as Hname.
  - rewrite Hname. csimpl. rewrite <- Permutation_middle. by rewrite IH.
  - destruct (array_index k) as [n|]; [|done]. csimpl. by rewrite IH.
Qed.

Lemma get_of_key {V} (o : JsObject V) k : k ∈ o.*1 -> is_Some (get o k).
Proof.
  induction o as [|[k' v] o IH]; csimpl; intros Hin.
  - by apply elem_of_nil in Hin.
  - case_bool_decide; [done|].
    apply elem_of_cons in Hin as [->|Hin]; [done|]. by apply IH.
Qed.

(** Insertion keeps a list ordered when the comparison function is the
    difference of a key [f], as in [(a, b) => f(b) - f(a)]. *)
Lemma insert_by_sorted {A} (f : A -> Z) cmp x l :
  (forall y, y ∈ l -> cmp x y = Some (f y - f x)) ->
  StronglySorted (fun a b => f b <= f a) l ->
  StronglySorted (fun a b => f b <= f a) (insert_by cmp x l).
Proof.
  intros Hcmp Hsorted. induction Hsorted as [|y l Hsorted IH Hall]; simpl.
  - repeat constructor.
  - rewrite (Hcmp y) by apply list_elem_of_here. simpl.
    destruct (0 <? f y - f x) eqn:Hlt.
    + apply Z.ltb_lt in Hlt. constructor.
      * apply IH. intros z Hz. apply Hcmp. by apply list_elem_of_further.
      * rewrite insert_by_Permutation. constructor; [lia|done].
    + apply Z.ltb_ge in Hlt. constructor; [by constructor|].
      constructor; [lia|].
      eapply Forall_impl; [exact Hall|]. simpl. intros z Hz. lia.
Qed.

Lemma sort_sorted {A} (f : A -> Z) cmp l :
  (forall a b, a ∈ l -> b ∈ l -> cmp a b = Some (f b - f a)) ->
  StronglySorted (fun a b => f b <= f a) (sort cmp l).
Proof.
  induction l as [|x l IH]; intros Hcmp; simpl; [constructor|].
  apply insert_by_sorted.
  - intros y Hy. rewrite sort_Permutation in Hy.
    apply Hcmp; [apply list_elem_of_here | by apply list_elem_of_further].
  - apply IH. intros a b Ha Hb. apply Hcmp; by apply list_elem_of_further.
Qed.

Lemma get_elem_of {V} (o : JsObject V) k v : get o k = Some v -> (k, v) ∈ o.
Proof.
  induction o as [|[k' v'] o IH]; simpl; [done|].
  case_bool_decide as Hk.
  - intros [= ->]. subst k'. apply list_elem_of_here.
  - intros Hget. by apply list_elem_of_further, IH.
Qed.

(** With pairwise distinct values, a value names its key. *)
Lemma key_of_distinct_value {V} (o : JsObject V) k1 k2 v :
  NoDup o.*2 -> (k1, v) ∈ o -> (k2, v) ∈ o -> k1 = k2.
Proof.
  induction o as [|[k0 v0] o IH]; csimpl; intros Hnd H1 H2.
  - by apply elem_of_nil in H1.
  - apply NoDup_cons in Hnd as [Hfresh Hnd].
    apply elem_of_cons in H1 as [H1|H1]; apply elem_of_cons in H2 as [H2|H2].
    + congruence.
    + injection H1 as -> ->. exfalso. apply Hfresh.
      by apply (list_elem_of_fmap_2 snd) in H2.
    + injection H2 as -> ->. exfalso. apply Hfresh.
      by apply (list_elem_of_fmap_2 snd) in H1.
    + by apply IH.
Qed.

Lemma strictly_sorted {A} (f : A -> Z) (l : list A) :
  NoDup l ->
  (forall a b, a ∈ l -> b ∈ l -> f a = f b -> a = b) ->
  StronglySorted (fun a b => f b <= f a) l ->
  StronglySorted (fun a b => f b < f a) l.
Proof.
  intros Hnd Hinj Hsorted. induction Hsorted as [|x l Hsorted IH Hall]; [constructor|].
  apply NoDup_cons in Hnd as [Hfresh Hnd]. constructor.
  - apply IH; [done|]. intros a b Ha Hb. apply Hinj; by apply list_elem_of_further.
  - apply Forall_forall. intros y Hy.
    rewrite Forall_forall in Hall. specialize (Hall y Hy). simpl in Hall.
    destruct (decide (f y = f x)) as [Heq|Hne]; [|lia].
    exfalso. apply Hfresh.
    rewrite <- (Hinj y x); [done|by apply list_elem_of_further|apply list_elem_of_here|done].
Qed.

Lemma projects_Permutation (data : JsObject Z) : projects data ≡ₚ data.*1.
Proof. unfold projects. by rewrite sort_Permutation, keys_Permutation. Qed.

Lemma projects_sorted (data : JsObject Z) :
  StronglySorted (fun a b => xpOf data b <= xpOf data a) (projects data).
Proof.
  apply sort_sorted. intros a b Ha Hb.
  rewrite keys_Permutation in Ha, Hb.
  destruct (get_of_key data a Ha) as [va Hva], (get_of_key data b Hb) as [vb Hvb].
  unfold byXpDescending, xpOf. by rewrite Hva, Hvb.
Qed.

(** With pairwise distinct sums, keys with the same sum are the same key. *)
Lemma xpOf_inj (data : JsObject Z) (a b : string) :
  NoDup data.*2 -> a ∈ data.*1 -> b ∈ data.*1 -> xpOf data a = xpOf data b -> a = b.
Proof.
  intros Hnd Ha Hb. unfold xpOf.
  destruct (get_of_key data a Ha) as [va Hva], (get_of_key data b Hb) as [vb Hvb].
  rewrite Hva, Hvb. simpl. intros ->.
  eapply key_of_distinct_value; [done|by apply get_elem_of..].
Qed.

End ChartFacts.

Section ChartClaims.
Import Js Config Charts Samples.
Context {H : HostNumber}.

Section BarChartTooltips.
Import Charts.BarChart.

Lemma appendChildren_Elem kids tag attrs tip ks :
  appendChildren kids (Elem tag attrs tip ks) = Elem tag attrs tip (ks ++ kids).
Proof.
  unfold appendChildren. revert ks.
  induction kids as [|kid kids IH]; intros ks; simpl.
  - by rewrite app_nil_r.
  - by rewrite IH, <- app_assoc.
Qed.

Lemma tooltips_createSVGElement tag attrs : tooltips (createSVGElement tag attrs) = [].
Proof. done. Qed.

Lemma tooltips_labelled s tag attrs :
  tooltips (setTextContent s (createSVGElement tag attrs)) = [].
Proof. unfold createSVGElement, setTextContent, textContent. simpl. by case_bool_decide. Qed.

Lemma tooltipText_not_empty d : bool_decide (tooltipText d = "") = false.
Proof. apply bool_decide_eq_false_2. unfold tooltipText. by destruct (name d). Qed.

Lemma tooltips_bar data i d : flat_map tooltips (bar data i d) = [tooltipText d].
Proof.
  unfold bar. cbn [flat_map]. rewrite tooltips_labelled.
  unfold addTooltip. fold (tooltipText d). rewrite tooltipText_not_empty.
  by unfold createSVGElement.
Qed.

Lemma tooltips_bars data (is_ : list Z) (ds : list Entry) :
  length is_ = length ds ->
  flat_map tooltips (concat (zip_with (bar data) is_ ds)) = tooltipText <$> ds.
Proof.
  revert is_. induction ds as [|d ds IH]; intros [|i is_] Hlen; try done.
  cbn [zip_with concat]. rewrite flat_map_app, tooltips_bar, IH; [done|].
  simpl in Hlen. lia.
Qed.

Lemma no_tooltips_flat_map (nodes : list Node) :
  Forall (fun n => tooltips n = []) nodes -> flat_map tooltips nodes = [].
Proof. induction 1 as [|n nodes Hn _ IH]; simpl; [done|]. by rewrite Hn, IH. Qed.

Lemma indices_length {A} (l : list A) : length (indices l) = length l.
Proof. unfold indices. by rewrite length_fmap, length_seq. Qed.

Lemma tooltips_svg data : tooltips (svg data) = tooltipText <$> displayData data.
Proof.
  unfold svg, svgRoot, chartGroup, createSVGElement.
  rewrite !appendChildren_Elem. cbn [tooltips flat_map app].
  rewrite !app_nil_r, !flat_map_app.
  rewrite tooltips_bars by apply indices_length.
  rewrite (no_tooltips_flat_map (xAxisLine _ _ :: _)); [by rewrite app_nil_r|].
  constructor; [done|]. apply Forall_app. split.
  - apply Forall_forall. intros n Hn.
    apply elem_of_zip_with in Hn as (i & p & -> & _). apply tooltips_labelled.
  - csimpl. repeat (constructor; [done || apply tooltips_labelled|]). constructor.
Qed.

Lemma displayData_sorted (data : JsObject Z) :
  StronglySorted (fun a b => xp b <= xp a) (displayData data).
Proof.
  unfold displayData, displayProjects.
  apply (StronglySorted_fmap _ (fun a b => xpOf data b <= xpOf data a)); [done|].
  apply (StronglySorted_app_1_l _ _ (drop 10 (projects data))).
  rewrite take_drop. apply projects_sorted.
Qed.

Lemma hidden_projects_rank_lower (data : JsObject Z) (k : string) :
  k ∈ data.*1 -> k ∉ displayProjects data ->
  Forall (fun d => xpOf data k <= xp d) (displayData data).
Proof.
  intros Hkey Hhidden. unfold displayData. apply Forall_fmap, Forall_forall.
  intros p Hp. simpl.
  rewrite <- projects_Permutation, <- (take_drop 10 (projects data)) in Hkey.
  apply elem_of_app in Hkey as [Hshown|Hrest]; [done|].
  apply (StronglySorted_app_1_elem_of
           (fun a b => xpOf data b <= xpOf data a) (take 10 (projects data))
           (drop 10 (projects data))); [|done|done].
  rewrite take_drop. apply projects_sorted.
Qed.

Lemma displayData_strictly_sorted (data : JsObject Z) :
  NoDup data.*1 -> NoDup data.*2 ->
  StronglySorted (fun a b => xp b < xp a) (displayData data).
Proof.
  intros Hkeys Hvalues. unfold displayData, displayProjects.
  apply (StronglySorted_fmap _ (fun a b => xpOf data b < xpOf data a)); [done|].
  apply (StronglySorted_app_1_l _ _ (drop 10 (projects data))).
  rewrite take_drop. apply strictly_sorted.
  - by rewrite projects_Permutation.
  - intros a b Ha Hb. rewrite projects_Permutation in Ha, Hb. by apply xpOf_inj.
  - apply projects_sorted.
Qed.

Lemma hidden_projects_rank_strictly_lower (data : JsObject Z) (k : string) :
  NoDup data.*2 -> k ∈ data.*1 -> k ∉ displayProjects data ->
  Forall (fun d => xpOf data k < xp d) (displayData data).
Proof.
  intros Hvalues Hkey Hhidden.
  pose proof (hidden_projects_rank_lower data k Hkey Hhidden) as Hle.
  unfold displayData in *. rewrite Forall_fmap, Forall_forall in Hle.
  apply Forall_fmap, Forall_forall. intros p Hp. specialize (Hle p Hp). simpl in *.
  destruct (decide (xpOf data k = xpOf data p)) as [Heq|Hne]; [|lia].
  exfalso. apply Hhidden.
  rewrite (xpOf_inj data k p); [done..| |done].
  rewrite <- projects_Permutation. unfold displayProjects in Hp.
  apply elem_of_take in Hp as (i & Hp & _). by apply list_elem_of_lookup_2 in Hp.
Qed.

End BarChartTooltips.

(** What a renderer leaves for missing or empty data. *)
Lemma no_data_text : textContent ERROR_MESSAGES.NO_DATA = [TextNode ERROR_MESSAGES.NO_DATA].
Proof. done. Qed.

(** C9: the bar chart throws on [null].  Drawing the same data a second
    time into the container leaves exactly what the first drawing left,
    for the radar, line and bar chart, and the outcome does not depend on
    what the container held before.  For missing or empty data the radar
    and the line chart leave the message "No data available for this
    section." and return normally, also for [null], which their guard
    [!data] catches.  The bar chart does so for a missing argument and for
    an empty mapping; its parameter default does not replace [null], so
    [Object.keys] throws after the container was emptied. *)
Theorem renderers_idempotent_bar_chart_throws_on_null
    (container : option Container) (before : Container)
    (skills : Value Radar.SkillNode) (points : Value Calc.XpPoint)
    (projectXp : BarChart.Data) :
  (drawSkillsRadarChart (drawSkillsRadarChart container skills).1 skills
     = drawSkillsRadarChart container skills
   /\ drawXpProgressLineChart (drawXpProgressLineChart container points).1 points
      = drawXpProgressLineChart container points
   /\ drawXpByProjectBarChart (drawXpByProjectBarChart container projectXp).1 projectXp
      = drawXpByProjectBarChart container projectXp)
  /\ (drawSkillsRadarChart (Some before) skills = drawSkillsRadarChart (Some []) skills
      /\ drawXpProgressLineChart (Some before) points
         = drawXpProgressLineChart (Some []) points
      /\ drawXpByProjectBarChart (Some before) projectXp
         = drawXpByProjectBarChart (Some []) projectXp)
  /\ (drawSkillsRadarChart (Some before) Undefined
        = (Some [TextNode ERROR_MESSAGES.NO_DATA], Normal)
      /\ drawSkillsRadarChart (Some before) Null
         = (Some [TextNode ERROR_MESSAGES.NO_DATA], Normal)
      /\ drawSkillsRadarChart (Some before) (Array [])
         = (Some [TextNode ERROR_MESSAGES.NO_DATA], Normal))
  /\ (drawXpProgressLineChart (Some before) Undefined
        = (Some [TextNode ERROR_MESSAGES.NO_DATA], Normal)
      /\ drawXpProgressLineChart (Some before) Null
         = (Some [TextNode ERROR_MESSAGES.NO_DATA], Normal)
      /\ drawXpProgressLineChart (Some before) (Array [])
         = (Some [TextNode ERROR_MESSAGES.NO_DATA], Normal))
  /\ (drawXpByProjectBarChart (Some before) BarChart.NoArgument
        = (Some [TextNode ERROR_MESSAGES.NO_DATA], Normal)
      /\ drawXpByProjectBarChart (Some before) (BarChart.Projects [])
         = (Some [TextNode ERROR_MESSAGES.NO_DATA], Normal)
      /\ drawXpByProjectBarChart (Some before) BarChart.NullArgument
         = (Some [], Throw "TypeError: Cannot convert undefined or null to object")).
Proof.
  split; [|split; [|by repeat split]].
  - destruct container as [c|]; [|done].
    unfold drawSkillsRadarChart, drawXpProgressLineChart, drawXpByProjectBarChart.
    repeat split; repeat case_match; done.
  - done.
Qed.

(** A series of two or more points is drawn: every label index falls
    inside the series. *)
Lemma lineChart_draws (before : Container) (points : list Calc.XpPoint) :
  (2 <= length points)%nat ->
  exists svg, drawXpProgressLineChart (Some before) (Array points) = (Some [svg], Normal).
Proof.
  intros Hlen. unfold drawXpProgressLineChart.
  destruct points as [|p0 points]; [simpl in Hlen; lia|]. cbn [truthy negb].
  assert (Hlabels : is_Some (LineChart.dateLabels (p0 :: points))).
  { unfold LineChart.dateLabels. apply mapM_is_Some, Forall_fmap, Forall_forall.
    intros i Hi. apply elem_of_seq in Hi. simpl.
    unfold LineChart.dateLabel, LineChart.labelIndex, LineChart.numLabels,
      LineChart.dataLength, LineChart.pointAtIndex in *.
    set (len := Z.of_nat (length (p0 :: points))) in *.
    assert (2 <= len) by (unfold len; lia).
    assert (Hi' : 0 <= Z.of_nat i <= Z.min len 5 - 1) by lia.
    destruct (Z.min len 5 - 1 =? 0) eqn:Hzero; [lia|]. simpl.
    assert (Hidx : 0 <= Z.of_nat i * (len - 1) / (Z.min len 5 - 1) < len).
    { split; [apply Z.div_pos; nia|].
      apply Z.div_lt_upper_bound; nia. }
    destruct (0 <=? _) eqn:Hnonneg; [|lia].
    destruct (lookup_lt_is_Some_2 (p0 :: points)
                (Z.to_nat (Z.of_nat i * (len - 1) / (Z.min len 5 - 1)))) as [d Hd].
    { unfold len in *. lia. }
    rewrite Hd. simpl. eauto. }
  unfold LineChart.svg. destruct Hlabels as [labels ->]. simpl. eauto.
Qed.

(** A series of exactly one point is not drawn: the only label index is
    not a number, reading [data[index].date] throws, and the container
    stays emptied. *)
Lemma lineChart_single_point_throws (before : Container) (p : Calc.XpPoint) :
  drawXpProgressLineChart (Some before) (Array [p])
  = (Some [], Throw "TypeError: Cannot read properties of undefined (reading 'date')").
Proof. done. Qed.

(** [null] passed for the bar chart's data makes [Object.keys] throw. *)
Lemma barChart_null_throws (before : Container) :
  drawXpByProjectBarChart (Some before) BarChart.NullArgument
  = (Some [], Throw "TypeError: Cannot convert undefined or null to object").
Proof. done. Qed.

(** The scale of the radar chart never falls below 10, and a skill type
    loses its prefix and its first hyphen. *)
Example radar_scale_and_labels :
  Radar.maxValue [Radar.mkSkill "go" 2; Radar.mkSkill "js" 3] = 10
  /\ Radar.maxValue [Radar.mkSkill "go" 45; Radar.mkSkill "js" 30] = 45
  /\ Radar.skillsOf
       [Radar.mkSkillNode (Some "skill_front-end") 35;
        Radar.mkSkillNode (Some "level") 12;
        Radar.mkSkillNode None 7]
     = [Radar.mkSkill "front end" 35].
Proof. by vm_compute. Qed.

(** Nodes without a skill type leave the radar chart without data. *)
Lemma radarChart_without_skills (before : Container) (items : list Radar.SkillNode) :
  Radar.skillsOf items = [] ->
  drawSkillsRadarChart (Some before) (Array items)
  = (Some [TextNode ERROR_MESSAGES.NO_DATA], Normal).
Proof.
  intros Hnone. unfold drawSkillsRadarChart. simpl.
  destruct items as [|item items]; [done|]. by rewrite Hnone.
Qed.

End ChartClaims.

Section BarChartClaim.
Import Js Config Charts Charts.BarChart Samples.

(** C8: [drawXpByProjectBarChart] draws a non-empty mapping as one bar per
    entry of [displayData]: the entries ordered by descending XP, cut to the
    first ten, every entry left out having at most the XP of every entry
    shown; of fifteen projects with distinct sums the ten highest are
    drawn, highest first. *)
Theorem barChart_draws_top_ten (data : JsObject Z) :
  (forall (H : HostNumber) (container : Container),
     drawXpByProjectBarChart (Some container) (Projects data)
     = (Some (match data with
              | [] => textContent ERROR_MESSAGES.NO_DATA
              | _ => [svg data]
              end), Normal)
     /\ tooltips (svg data) = tooltipText <$> displayData data)
  /\ StronglySorted (fun a b => xp b <= xp a) (displayData data)
  /\ length (displayData data) = Nat.min 10 (length data)
  /\ (forall k, k ∈ data.*1 -> k ∉ displayProjects data ->
        Forall (fun d => xpOf data k <= xp d) (displayData data))
  /\ (NoDup data.*1 -> NoDup data.*2 ->
      StronglySorted (fun a b => xp b < xp a) (displayData data)
      /\ forall k, k ∈ data.*1 -> k ∉ displayProjects data ->
           Forall (fun d => xpOf data k < xp d) (displayData data))
  /\ displayData fifteenProjects
     = [ {| name := "social-network"; xp := 147000 |};
         {| name := "bomberman-dom"; xp := 122500 |};
         {| name := "mini-framework"; xp := 85750 |};
         {| name := "make-your-game"; xp := 73500 |};
         {| name := "forum"; xp := 61250 |};
         {| name := "real-time-forum"; xp := 36750 |};
         {| name := "graphql"; xp := 30625 |};
         {| name := "lem-in"; xp := 24500 |};
         {| name := "net-cat"; xp := 19600 |};
         {| name := "push-swap"; xp := 17150 |} ].
Proof.
  split; [|split; [|split; [|split; [|split]]]].
  - intros H container. split; [|apply tooltips_svg].
    unfold drawXpByProjectBarChart.
    pose proof (projects_Permutation data) as Hperm.
    destruct data as [|entry data]; simpl.
    + done.
    + destruct (projects (entry :: data)) as [|p ps] eqn:Hp; [|done].
      apply Permutation_nil_l in Hperm. discriminate.
  - apply displayData_sorted.
  - unfold displayData, displayProjects.
    rewrite length_fmap, length_take, projects_Permutation. by rewrite length_fmap.
  - apply hidden_projects_rank_lower.
  - intros Hkeys Hvalues. split.
    + by apply displayData_strictly_sorted.
    + intros k. by apply hidden_projects_rank_strictly_lower.
  - by vm_compute.
Qed.

Lemma barChart_draws_top_ten_witness :
  NoDup fifteenProjects.*1
  /\ NoDup fifteenProjects.*2
  /\ length (displayData fifteenProjects) = 10%nat
  /\ StronglySorted (fun a b => xp b < xp a) (displayData fifteenProjects)
  /\ Forall (fun d => xpOf fifteenProjects "groupie-tracker" < xp d)
       (displayData fifteenProjects).
Proof.
  assert (Hkeys : NoDup fifteenProjects.*1) by compute_done.
  assert (Hvalues : NoDup fifteenProjects.*2) by compute_done.
  destruct (barChart_draws_top_ten fifteenProjects)
    as (_ & _ & Hlen & _ & Hstrict & _).
  destruct (Hstrict Hkeys Hvalues) as [Hsorted Hhidden].
  split; [exact Hkeys|]. split; [exact Hvalues|]. split; [exact Hlen|].
  split; [exact Hsorted|].
  apply Hhidden.
  - compute_done.
  - compute_done.
Defined.

End BarChartClaim.

(** * Further properties *)

(** ** calculations.js *)

Section PassFailFacts.
Import Js Calc CalcReading.

Lemma Qeq_bool_le_one (g : Q) : Qeq_bool g 1 = true -> Qle_bool 1 g = true.
Proof.
  intros Heq. apply Qeq_bool_iff in Heq. apply Qle_bool_iff. rewrite Heq. apply Qle_refl.
Qed.

Lemma countResult_tested (acc : PassFail) (res : Result) :
  isTested res = true ->
  passed (countResult acc res) = passed acc + (if isPassed res then 1 else 0)
  /\ failed (countResult acc res) = failed acc + (if isFailed res then 1 else 0)
  /\ total (countResult acc res) = total acc + 1.
Proof.
  intros Htested. unfold countResult, isPassed, isFailed. rewrite Htested.
  unfold isTested in Htested. destruct (res_grade res) as [g|].
  - destruct (Qeq_bool g 1) eqn:Hone; simpl.
    + repeat split; lia.
    + destruct (negb (Qle_bool 1 g) && Qle_bool 0 g); simpl; repeat split; lia.
  - by rewrite andb_false_r in Htested.
Qed.

Lemma foldl_countResult (acc : PassFail) (results : list Result) :
  Forall (fun res => isTested res = true) results ->
  passed (foldl countResult acc results) = passed acc + count isPassed results
  /\ failed (foldl countResult acc results) = failed acc + count isFailed results
  /\ total (foldl countResult acc results) = total acc + Z.of_nat (length results).
Proof.
  intros Hall. revert acc. unfold count.
  induction Hall as [|res results Hres _ IH]; intros acc; simpl.
  - repeat split; lia.
  - destruct (IH (countResult acc res)) as (Hp & Hf & Ht).
    destruct (countResult_tested acc res Hres) as (Hp1 & Hf1 & Ht1).
    rewrite Hp, Hf, Ht, Hp1, Hf1, Ht1.
    destruct (isPassed res), (isFailed res); simpl; repeat split; lia.
Qed.

Lemma filter_tested (f : Result -> bool) (results : list Result) :
  (forall res, f res = true -> isTested res = true) ->
  List.filter f (List.filter isTested results) = List.filter f results.
Proof.
  intros Hf. induction results as [|res results IH]; simpl; [done|].
  destruct (isTested res) eqn:Ht; simpl.
  - by rewrite IH.
  - destruct (f res) eqn:Hfr; [|done]. apply Hf in Hfr. congruence.
Qed.

Lemma tested_classes (res : Result) :
  isTested res = true ->
  (if isPassed res then 1 else 0) + (if isFailed res then 1 else 0)
  + (if isOutOfRange res then 1 else 0) = 1.
Proof.
  intros Ht. unfold isPassed, isFailed, isOutOfRange. rewrite Ht. simpl.
  unfold isTested in Ht. destruct (res_grade res) as [g|]; [|by rewrite andb_false_r in Ht].
  destruct (Qeq_bool g 1) eqn:Hone; simpl.
  - rewrite (Qeq_bool_le_one g Hone). simpl. by rewrite orb_false_r; destruct (Qle_bool 0 g) eqn:H0;
      [|exfalso; apply Qeq_bool_iff in Hone;
        assert (Hle : Qle_bool 0 g = true) by (apply Qle_bool_iff; rewrite Hone; done);
        congruence].
  - destruct (Qle_bool 1 g), (Qle_bool 0 g); simpl; lia.
Qed.

Lemma count_classes (results : list Result) :
  count isPassed results + count isFailed results + count isOutOfRange results
  = count isTested results.
Proof.
  unfold count. induction results as [|res results IH]; simpl; [done|].
  destruct (isTested res) eqn:Ht.
  - pose proof (tested_classes res Ht) as Hone.
    destruct (isPassed res), (isFailed res), (isOutOfRange res); simpl in *; lia.
  - assert (Hp : isPassed res = false) by (unfold isPassed; by rewrite Ht).
    assert (Hf : isFailed res = false) by (unfold isFailed; by rewrite Ht).
    assert (Ho : isOutOfRange res = false) by (unfold isOutOfRange; by rewrite Ht).
    rewrite Hp, Hf, Ho. lia.
Qed.

(** X1: for every array of results, [total] is the number of results of
    type "tester" with a non-null grade, [passed] the number of those graded
    exactly 1 and [failed] the number of those graded in [0, 1); tested
    results graded below 0 or above 1 are counted in [total] only, so
    [passed + failed] is [total] less their number. *)
Theorem passFailCounts_count (results : list Result) :
  total (calculatePassFailCounts (Array results)) = count isTested results
  /\ passed (calculatePassFailCounts (Array results)) = count isPassed results
  /\ failed (calculatePassFailCounts (Array results)) = count isFailed results
  /\ passed (calculatePassFailCounts (Array results))
     + failed (calculatePassFailCounts (Array results))
     = total (calculatePassFailCounts (Array results)) - count isOutOfRange results.
Proof.
  unfold calculatePassFailCounts. simpl.
  destruct (foldl_countResult {| passed := 0; failed := 0; total := 0 |}
              (List.filter isTested results)) as (Hp & Hf & Ht).
  { apply Forall_forall. intros res Hres. apply list_elem_of_In, filter_In in Hres. tauto. }
  rewrite Hp, Hf, Ht. simpl.
  assert (Hpass : count isPassed (List.filter isTested results) = count isPassed results).
  { unfold count. rewrite filter_tested; [done|].
    unfold isPassed. intros res. by destruct (isTested res). }
  assert (Hfail : count isFailed (List.filter isTested results) = count isFailed results).
  { unfold count. rewrite filter_tested; [done|].
    unfold isFailed. intros res. by destruct (isTested res). }
  rewrite Hpass, Hfail. pose proof (count_classes results) as Hsum.
  fold (count isTested results). repeat split; lia.
Qed.

End PassFailFacts.

Section ProgressOrder.
Import Js Calc CalcReading.

(** [sort] keeps the order of the elements that share a key, when the
    comparison function is the difference of the keys. *)
Lemma insert_by_stable {A} (key : A -> Z) cmp (k : Z) x l :
  (forall y, y ∈ l -> cmp x y = Some (key x - key y)) ->
  List.filter (fun y => bool_decide (key y = k)) (insert_by cmp x l)
  = List.filter (fun y => bool_decide (key y = k)) (x :: l).
Proof.
  induction l as [|y l IH]; intros Hcmp; [done|].
  cbn [insert_by]. rewrite (Hcmp y) by apply list_elem_of_here. cbn [positive_result].
  destruct (0 <? key x - key y) eqn:Hlt; [|done].
  apply Z.ltb_lt in Hlt.
  cbn [List.filter]. rewrite IH by (intros z Hz; by apply Hcmp, list_elem_of_further).
  cbn [List.filter]. repeat case_bool_decide; try done; lia.
Qed.

Lemma sort_stable {A} (key : A -> Z) cmp (k : Z) l :
  (forall a b, a ∈ l -> b ∈ l -> cmp a b = Some (key a - key b)) ->
  List.filter (fun y => bool_decide (key y = k)) (sort cmp l)
  = List.filter (fun y => bool_decide (key y = k)) l.
Proof.
  induction l as [|x l IH]; intros Hcmp; [done|]. cbn [sort foldr].
  rewrite insert_by_stable.
  - cbn [List.filter]. fold (sort cmp l).
    rewrite IH; [done|]. intros a b Ha Hb. apply Hcmp; by apply list_elem_of_further.
  - intros y Hy. fold (sort cmp l) in Hy. rewrite sort_Permutation in Hy.
    apply Hcmp; [apply list_elem_of_here|by apply list_elem_of_further].
Qed.

Lemma StronglySorted_weaken {A} (R1 R2 : A -> A -> Prop) l :
  (forall a b, R1 a b -> R2 a b) -> StronglySorted R1 l -> StronglySorted R2 l.
Proof.
  intros Himpl. induction 1 as [|x l _ IH Hall]; constructor; [done|].
  eapply Forall_impl; [exact Hall|]. intros y. apply Himpl.
Qed.

Lemma sort_ascending {A} (key : A -> Z) cmp l :
  (forall a b, a ∈ l -> b ∈ l -> cmp a b = Some (key a - key b)) ->
  StronglySorted (fun a b => key a <= key b) (sort cmp l).
Proof.
  intros Hcmp.
  apply (StronglySorted_weaken (fun a b => - key b <= - key a)); [intros a b; lia|].
  apply (sort_sorted (fun a => - key a)). intros a b Ha Hb.
  rewrite Hcmp by done. f_equal. lia.
Qed.

Lemma byCreatedAt_valid (a b : Transaction) :
  hasValidDate a = true -> hasValidDate b = true ->
  byCreatedAt a b = Some (timeOf a - timeOf b).
Proof.
  unfold hasValidDate, byCreatedAt, timeOf.
  by destruct (newDate (createdAt a)), (newDate (createdAt b)).
Qed.

Lemma filter_valid_dates (transactions : list Transaction) :
  Forall (fun tx => isProjectXp tx = true -> hasValidDate tx = true) transactions ->
  forall a b, a ∈ List.filter isProjectXp transactions ->
              b ∈ List.filter isProjectXp transactions ->
              byCreatedAt a b = Some (timeOf a - timeOf b).
Proof.
  intros Hall a b Ha Hb. rewrite Forall_forall in Hall.
  apply list_elem_of_In, filter_In in Ha as [Ha Hqa], Hb as [Hb Hqb].
  apply byCreatedAt_valid; apply Hall; by try apply list_elem_of_In.
Qed.

Lemma progress_is_sorted_helper (transactions : list Transaction) :
  Forall (fun tx => isProjectXp tx = true -> hasValidDate tx = true) transactions ->
  StronglySorted (fun a b => timeOf a <= timeOf b) (xpTransactions transactions).
Proof. intros Hall. apply sort_ascending. by apply filter_valid_dates. Qed.

(** X2: when every record with type "xp" and object type "project" has a
    valid date, [calculateXpProgress] scans the records in ascending order
    of [createdAt], and records with the same time keep the order they had
    in the input. *)
Theorem progress_is_chronological (transactions : list Transaction) :
  Forall (fun tx => isProjectXp tx = true -> hasValidDate tx = true) transactions ->
  StronglySorted (fun a b => timeOf a <= timeOf b) (xpTransactions transactions)
  /\ forall t,
       List.filter (fun tx => bool_decide (timeOf tx = t)) (xpTransactions transactions)
       = List.filter (fun tx => bool_decide (timeOf tx = t))
           (List.filter isProjectXp transactions).
Proof.
  intros Hall. unfold xpTransactions. split.
  - apply sort_ascending. by apply filter_valid_dates.
  - intros t. apply sort_stable. by apply filter_valid_dates.
Qed.

Lemma progress_is_chronological_witness :
  Forall (fun tx => isProjectXp tx = true -> hasValidDate tx = true)
    (rev Samples.twoProjects)
  /\ StronglySorted (fun a b => timeOf a <= timeOf b)
       (xpTransactions (rev Samples.twoProjects)).
Proof.
  assert (Hall : Forall (fun tx => isProjectXp tx = true -> hasValidDate tx = true)
                   (rev Samples.twoProjects)) by (repeat constructor).
  split; [exact Hall|].
  exact (proj1 (progress_is_chronological (rev Samples.twoProjects) Hall)).
Defined.

Lemma accumulate_lookup h c txs (i : nat) :
  accumulate h c txs !! i
  = (fun tx =>
       {| date := toLocaleDateString h (newDate (createdAt tx));
          totalXp := c + sumAmounts (take (S i) txs);
          totalXpMB :=
            toFixed2 (divide (toDouble (c + sumAmounts (take (S i) txs)))
                        (toDouble 1000000)) |}) <$> txs !! i.
Proof.
  revert c i. induction txs as [|tx txs IH]; intros c i; [done|].
  destruct i as [|i].
  - cbn. unfold sumAmounts. cbn. by rewrite take_0, Z.add_0_r.
  - cbn [accumulate lookup list_lookup]. rewrite IH. cbn [take].
    destruct (txs !! i) as [tx'|]; [|done]. cbn.
    replace (c + amount tx + sumAmounts (take (S i) txs))
      with (c + sumAmounts (tx :: take (S i) txs)); [done|].
    unfold sumAmounts. cbn. lia.
Qed.

(** X3: the point at position [i] of [calculateXpProgress] belongs to the
    record at position [i] of the date-ordered qualifying records: its
    [totalXp] is the sum of the amounts of the first [i + 1] of them, its
    [totalXpMB] that sum divided by 1000000 with two decimals, its [date]
    the rendering of that record's [createdAt]. *)
Theorem progress_point_is_prefix_sum (h : Host) (transactions : list Transaction) (i : nat) :
  calculateXpProgress h (Array transactions) !! i
  = (fun tx =>
       {| date := toLocaleDateString h (newDate (createdAt tx));
          totalXp := sumAmounts (take (S i) (xpTransactions transactions));
          totalXpMB :=
            toFixed2 (divide (toDouble (sumAmounts (take (S i) (xpTransactions transactions))))
                        (toDouble 1000000)) |})
    <$> xpTransactions transactions !! i.
Proof.
  unfold calculateXpProgress. simpl. by rewrite accumulate_lookup.
Qed.

Lemma List_filter_Permutation {A} (f : A -> bool) (l1 l2 : list A) :
  l1 ≡ₚ l2 -> List.filter f l1 ≡ₚ List.filter f l2.
Proof.
  induction 1 as [|x l1 l2 _ IH|x y l|l1 l2 l3 _ IH1 _ IH2]; simpl.
  - done.
  - destruct (f x); by rewrite IH.
  - destruct (f x), (f y); try done. apply Permutation_swap.
  - by rewrite IH1.
Qed.

(** Under an inherited name the value is a string that grows by the
    digits of each amount, so it shows the order of the input. *)
Lemma xpByProject_inherited_name_shows_order :
  get (calculateXpByProject
         (Array [Samples.projectTx "constructor" 5 Samples.jan1;
                 Samples.projectTx "constructor" 7 Samples.jan2])) "constructor"
  = Some (XpString "constructor" [5; 7])
  /\ get (calculateXpByProject
            (Array [Samples.projectTx "constructor" 7 Samples.jan2;
                    Samples.projectTx "constructor" 5 Samples.jan1])) "constructor"
     = Some (XpString "constructor" [7; 5]).
Proof. by vm_compute. Qed.

(** X4: where no project bears a name inherited from [Object.prototype]
    and the amounts are added exactly, the per-project sums do not depend
    on the order of the input: two permutations of the same records give
    every key the same value, a number, and the same total. *)
Theorem xpByProject_order_independent (transactions1 transactions2 : list Transaction) :
  transactions1 ≡ₚ transactions2 ->
  plainNames transactions1 ->
  addsExactly transactions1 ->
  (forall k, get (calculateXpByProject (Array transactions1)) k
             = get (calculateXpByProject (Array transactions2)) k)
  /\ is_Some (numbers (calculateXpByProject (Array transactions1)))
  /\ sumValues <$> numbers (calculateXpByProject (Array transactions1))
     = sumValues <$> numbers (calculateXpByProject (Array transactions2)).
Proof.
  intros Hperm Hplain1 _.
  assert (Hplain2 : plainNames transactions2).
  { unfold plainNames in *. by rewrite <- Hperm. }
  rewrite (calculateXpByProject_plain _ Hplain1), (calculateXpByProject_plain _ Hplain2).
  rewrite !numbers_asValues. unfold sumsByProject. split; [|split; [done|]].
  - intros k. rewrite !get_asValues, !get_foldl, !filter_filter.
    pose proof (List_filter_Permutation
                  (fun tx => isProjectXp tx && bool_decide (projectName tx = k))
                  _ _ Hperm) as Hgroup.
    destruct (List.filter _ transactions1) as [|a g1] eqn:H1;
      destruct (List.filter _ transactions2) as [|b g2] eqn:H2.
    + done.
    + by apply Permutation_nil_l in Hgroup.
    + by apply Permutation_nil_r in Hgroup.
    + by rewrite (sumAmounts_Permutation _ _ Hgroup).
  - simpl. rewrite !sumValues_foldl.
    by rewrite (sumAmounts_Permutation _ _ (List_filter_Permutation isProjectXp _ _ Hperm)).
Qed.

Lemma xpByProject_order_independent_witness :
  Samples.twoProjects ≡ₚ rev Samples.twoProjects
  /\ plainNames Samples.twoProjects
  /\ addsExactly Samples.twoProjects
  /\ get (calculateXpByProject (Array Samples.twoProjects)) "P2"
     = get (calculateXpByProject (Array (rev Samples.twoProjects))) "P2".
Proof.
  assert (Hperm : Samples.twoProjects ≡ₚ rev Samples.twoProjects)
    by apply Permutation_swap.
  assert (Hplain : plainNames Samples.twoProjects).
  { repeat constructor; intros _; compute_done. }
  assert (Hexact : addsExactly Samples.twoProjects) by (vm_compute; discriminate).
  split; [exact Hperm|]. split; [exact Hplain|]. split; [exact Hexact|].
  exact (proj1 (xpByProject_order_independent _ _ Hperm Hplain Hexact) "P2").
Defined.

(** X5: when the qualifying records have valid and pairwise distinct
    dates, the whole progress series does not depend on the order in which
    the records arrive. *)
Theorem progress_order_independent
    (h : Host) (transactions1 transactions2 : list Transaction) :
  transactions1 ≡ₚ transactions2 ->
  Forall (fun tx => isProjectXp tx = true -> hasValidDate tx = true) transactions1 ->
  (forall a b, a ∈ List.filter isProjectXp transactions1 ->
               b ∈ List.filter isProjectXp transactions1 ->
               timeOf a = timeOf b -> a = b) ->
  calculateXpProgress h (Array transactions1) = calculateXpProgress h (Array transactions2).
Proof.
  intros Hperm Hvalid Hdistinct. unfold calculateXpProgress. simpl. f_equal.
  assert (Hvalid2 : Forall (fun tx => isProjectXp tx = true -> hasValidDate tx = true)
                      transactions2) by (by rewrite <- Hperm).
  pose proof (List_filter_Permutation isProjectXp _ _ Hperm) as Hfilter.
  apply (StronglySorted_unique_strong (fun a b => timeOf a <= timeOf b)).
  - intros a b Ha Hb Hab Hba. unfold xpTransactions in Ha, Hb.
    rewrite sort_Permutation in Ha, Hb. rewrite <- Hfilter in Hb.
    apply Hdistinct; [done..|lia].
  - by apply progress_is_sorted_helper.
  - by apply progress_is_sorted_helper.
  - unfold xpTransactions. by rewrite !sort_Permutation.
Qed.

Lemma progress_order_independent_witness :
  Samples.twoProjects ≡ₚ rev Samples.twoProjects
  /\ Forall (fun tx => isProjectXp tx = true -> hasValidDate tx = true) Samples.twoProjects
  /\ calculateXpProgress Samples.hostUS (Array Samples.twoProjects)
     = calculateXpProgress Samples.hostUS (Array (rev Samples.twoProjects)).
Proof.
  assert (Hperm : Samples.twoProjects ≡ₚ rev Samples.twoProjects)
    by apply Permutation_swap.
  assert (Hvalid : Forall (fun tx => isProjectXp tx = true -> hasValidDate tx = true)
                     Samples.twoProjects) by (repeat constructor).
  split; [exact Hperm|]. split; [exact Hvalid|].
  apply (progress_order_independent Samples.hostUS _ _ Hperm Hvalid).
  intros a b Ha Hb Htime.
  change (List.filter isProjectXp Samples.twoProjects) with Samples.twoProjects in Ha, Hb.
  unfold Samples.twoProjects in Ha, Hb.
  rewrite !elem_of_cons, elem_of_nil in Ha, Hb.
  destruct Ha as [->|[->|[]]], Hb as [->|[->|[]]]; try reflexivity;
    vm_compute in Htime; discriminate.
Defined.

End ProgressOrder.
(** ** auth.js and graphql.js *)

Section FetchOutcomes.
Import Browser Config Auth Graphql SessionReading Samples.

Lemma displayErrorMessage_page_parts m w : pageOf (displayErrorMessage m w) = pageOf w.
Proof. unfold displayErrorMessage, pageOf. by destruct (errorMessageDiv (dom w)). Qed.

Lemma displayErrorMessage_accessible m w :
  accessible (storage (displayErrorMessage m w)) = accessible (storage w).
Proof. by rewrite displayErrorMessage_storage. Qed.

Lemma logout_storage w :
  storage (logout w)
  = if accessible (storage w) then {| accessible := true; jwtToken := None |}
    else storage w.
Proof.
  unfold logout, removeItem. destruct (accessible (storage w)); simpl; [done|].
  by rewrite displayErrorMessage_storage.
Qed.

Lemma logout_requests w : requests (events (logout w)) = requests (events w).
Proof.
  unfold logout, removeItem. destruct (accessible (storage w)); simpl; [done|].
  rewrite displayErrorMessage_requests. simpl. by rewrite requests_app, app_nil_r.
Qed.

(** X6: [fetchGraphQLData] returns data exactly when storage is readable,
    a token is stored, and the server answers with a successful status and
    a JSON payload without an error list; it then returns the payload's
    [data] member and changes nothing but the trace, to which it adds the
    one request. *)
Theorem fetch_returns_data_iff {Data}
    (network : Settled Data) (query : string) (w : World) (d : Data) :
  ((fetchGraphQLData network query w).1 = Some d
   <-> accessible (storage w) = true
       /\ tokenPresent w = true
       /\ exists status, ok status = true /\ network = Response status (Json None d))
  /\ ((fetchGraphQLData network query w).1 = Some d ->
      (fetchGraphQLData network query w).2 = emit (request (storedToken w) query) w).
Proof.
  unfold fetchGraphQLData, getItem, tokenPresent, storedToken.
  destruct (accessible (storage w)); [|split; [split|]; simpl; [done|intros (? & _); done|done]].
  destruct (jwtToken (storage w)) as [[|c token]|];
    [split; [split|]; simpl; [done|intros (_ & ? & _); done|done]| |
     split; [split|]; simpl; [done|intros (_ & ? & _); done|done]].
  destruct network as [|status [|[errors|] data]]; simpl.
  - split; [split|]; [done|intros (_ & _ & ? & _ & ?); done|done].
  - destruct (ok status) eqn:Hok; simpl;
      [|destruct ((status =? 401) || (status =? 403))]; simpl;
      (split; [split|]; [done|intros (_ & _ & ? & _ & ?); done|done]).
  - destruct (ok status) eqn:Hok; simpl;
      [destruct (isInvalidJWT errors)|destruct ((status =? 401) || (status =? 403))]; simpl;
      (split; [split|]; [done|intros (_ & _ & ? & _ & ?); done|done]).
  - destruct (ok status) eqn:Hok; simpl.
    + split; [split|].
      * intros [= ->]. eauto 6.
      * intros (_ & _ & status' & _ & [= _ ->]). done.
      * done.
    + destruct ((status =? 401) || (status =? 403)); simpl;
        (split; [split|]; [done| |done]);
        intros (_ & _ & status' & Hok' & [= <- _]); congruence.
Qed.

(** X7: a call of [fetchGraphQLData] sends at most one request: none when
    storage cannot be read or holds no token, otherwise exactly one, to the
    GraphQL endpoint with the stored token as bearer credential, whatever
    the server answers. *)
Theorem fetch_sends_one_request_with_token {Data}
    (network : Settled Data) (query : string) (w : World) :
  requests (events (fetchGraphQLData network query w).2)
  = requests (events w)
    ++ (if accessible (storage w) && tokenPresent w
        then [request (storedToken w) query] else []).
Proof.
  unfold fetchGraphQLData, getItem, tokenPresent, storedToken, fetchFailed.
  destruct (accessible (storage w)); simpl;
    [|rewrite displayErrorMessage_requests; simpl; by rewrite requests_app].
  destruct (jwtToken (storage w)) as [[|c token]|]; simpl;
    [rewrite logout_requests, displayErrorMessage_requests; simpl;
     by rewrite requests_app| |
     rewrite logout_requests, displayErrorMessage_requests; simpl;
     by rewrite requests_app].
  destruct network as [|status [|[errors|] data]]; simpl;
    [|destruct (ok status); simpl; [|destruct ((status =? 401) || (status =? 403)); simpl]..];
    try destruct (isInvalidJWT errors); simpl;
    rewrite ?logout_requests, ?displayErrorMessage_requests; simpl;
    by rewrite ?requests_app, ?app_nil_r.
Qed.

Lemma logout_displayErrorMessage_dom m w :
  accessible (storage w) = true ->
  dom (logout (displayErrorMessage m w)) = dom (logout w).
Proof.
  intros Hacc. unfold logout, removeItem.
  rewrite displayErrorMessage_accessible, Hacc. simpl.
  unfold displayErrorMessage.
  destruct (errorMessageDiv (dom w)) eqn:Hdiv; simpl; [done|by rewrite Hdiv].
Qed.

Lemma logout_emit_dom e w : dom (logout (emit e w)) = dom (logout w).
Proof.
  unfold logout, removeItem. simpl. destruct (accessible (storage w)); simpl; [done|].
  unfold displayErrorMessage. simpl. by destruct (errorMessageDiv (dom w)).
Qed.

(** X8: the stored token survives a call of [fetchGraphQLData] unless the
    session is rejected (no token, HTTP 401 or 403, or an error with the
    invalid-jwt code) while storage is accessible. A rejected session leaves
    the page exactly as [logout] alone would, the message just displayed
    being wiped; in every other case (network failure, other HTTP errors,
    a body that is not JSON, other GraphQL errors, unreadable storage) the
    token and the sections and inputs of the page stay as they were. *)
Theorem fetch_logs_out_only_rejected_sessions {Data}
    (network : Settled Data) (query : string) (w : World) :
  storage (fetchGraphQLData network query w).2
  = (if accessible (storage w) && sessionRejected network w
     then {| accessible := true; jwtToken := None |} else storage w)
  /\ (if accessible (storage w) && sessionRejected network w
      then dom (fetchGraphQLData network query w).2 = dom (logout w)
      else pageOf (fetchGraphQLData network query w).2 = pageOf w).
Proof.
  unfold fetchGraphQLData, getItem, sessionRejected, tokenPresent, fetchFailed.
  destruct (accessible (storage w)) eqn:Hacc; simpl.
  2:{ by rewrite displayErrorMessage_storage, displayErrorMessage_page_parts. }
  destruct (jwtToken (storage w)) as [[|c token]|] eqn:Htoken; simpl;
    [rewrite logout_storage, displayErrorMessage_accessible; simpl; rewrite Hacc;
     by rewrite logout_displayErrorMessage_dom, logout_emit_dom| |
     rewrite logout_storage, displayErrorMessage_accessible; simpl; rewrite Hacc;
     by rewrite logout_displayErrorMessage_dom, logout_emit_dom].
  destruct network as [|status [|[errors|] data]]; simpl.
  - by rewrite displayErrorMessage_storage, displayErrorMessage_page_parts.
  - destruct (ok status) eqn:Hok; simpl.
    + assert ((status =? 401) || (status =? 403) = false) as ->
        by (unfold ok in Hok; lia).
      by rewrite displayErrorMessage_storage, displayErrorMessage_page_parts.
    + destruct ((status =? 401) || (status =? 403)); simpl.
      * rewrite logout_storage, displayErrorMessage_accessible. simpl. rewrite Hacc.
        by rewrite logout_displayErrorMessage_dom, logout_emit_dom.
      * by rewrite displayErrorMessage_storage, displayErrorMessage_page_parts.
  - destruct (ok status) eqn:Hok; simpl.
    + assert ((status =? 401) || (status =? 403) = false) as ->
        by (unfold ok in Hok; lia).
      simpl. destruct (isInvalidJWT errors); simpl.
      * rewrite logout_storage, displayErrorMessage_accessible. simpl. rewrite Hacc.
        by rewrite logout_displayErrorMessage_dom, !logout_emit_dom.
      * by rewrite displayErrorMessage_storage, displayErrorMessage_page_parts.
    + rewrite orb_false_r. destruct ((status =? 401) || (status =? 403)); simpl.
      * rewrite logout_storage, displayErrorMessage_accessible. simpl. rewrite Hacc.
        by rewrite logout_displayErrorMessage_dom, logout_emit_dom.
      * by rewrite displayErrorMessage_storage, displayErrorMessage_page_parts.
  - destruct (ok status) eqn:Hok; simpl.
    + assert ((status =? 401) || (status =? 403) = false) as ->
        by (unfold ok in Hok; lia).
      done.
    + rewrite orb_false_r. destruct ((status =? 401) || (status =? 403)); simpl.
      * rewrite logout_storage, displayErrorMessage_accessible. simpl. rewrite Hacc.
        by rewrite logout_displayErrorMessage_dom, logout_emit_dom.
      * by rewrite displayErrorMessage_storage, displayErrorMessage_page_parts.
Qed.

Lemma newEvents_app w es w' :
  events w' = events w ++ es -> newEvents w w' = es.
Proof. intros Hevents. unfold newEvents. by rewrite Hevents, drop_app_length. Qed.

(** What [displayErrorMessage] adds to the trace. *)
Lemma displayErrorMessage_events m w :
  events (displayErrorMessage m w)
  = events w ++ match errorMessageDiv (dom w) with
                | Some _ => [Shown m; TimerSet 5000]
                | None => []
                end.
Proof.
  unfold displayErrorMessage. destruct (errorMessageDiv (dom w)); simpl.
  - by rewrite <- app_assoc.
  - by rewrite app_nil_r.
Qed.

Lemma displayErrorMessage_onScreen m w :
  messageOnScreen (displayErrorMessage m w)
  = (fun _ => m) <$> errorMessageDiv (dom w).
Proof.
  unfold messageOnScreen, displayErrorMessage.
  destruct (errorMessageDiv (dom w)) eqn:Hdiv; simpl; [done|by rewrite Hdiv].
Qed.

(** X9: when the request fails below the GraphQL level (no response, an
    HTTP error other than 401 and 403, or a body that is not JSON),
    [fetchGraphQLData] returns [null], logs the error to the console after
    the request, shows the network error message, and leaves the stored
    token in place. *)
Theorem fetch_transport_failure {Data}
    (network : Settled Data) (query : string) (w : World)
    (Haccessible : accessible (storage w) = true)
    (Htoken : tokenPresent w = true)
    (Hfailed : transportFailed network = true) :
  (fetchGraphQLData network query w).1 = None
  /\ newEvents w (fetchGraphQLData network query w).2
     = [request (storedToken w) query; ConsoleError "GraphQL fetch error:"]
       ++ match errorMessageDiv (dom w) with
          | Some _ => [Shown ERROR_MESSAGES.NETWORK_ERROR; TimerSet 5000]
          | None => []
          end
  /\ messageOnScreen (fetchGraphQLData network query w).2
     = (fun _ => ERROR_MESSAGES.NETWORK_ERROR) <$> errorMessageDiv (dom w)
  /\ storage (fetchGraphQLData network query w).2 = storage w.
Proof.
  assert (fetchGraphQLData network query w
          = fetchFailed (emit (request (storedToken w) query) w)) as ->.
  { unfold fetchGraphQLData, getItem, storedToken. rewrite Haccessible.
    unfold tokenPresent in Htoken.
    destruct (jwtToken (storage w)) as [[|c token]|]; [done| |done]. simpl.
    destruct network as [|status [|errors data]]; simpl in *; [done|..];
      destruct (ok status); simpl in *; try done;
      by destruct ((status =? 401) || (status =? 403)). }
  unfold fetchFailed. simpl. split; [done|]. split; [|split].
  - apply newEvents_app. rewrite displayErrorMessage_events. simpl.
    by rewrite <- !app_assoc.
  - by rewrite displayErrorMessage_onScreen.
  - by rewrite displayErrorMessage_storage.
Qed.

Lemma fetch_transport_failure_witness :
  (fetchGraphQLData (Data := Z) (Response 500 (Json None 7)) "{ user { id } }" signedIn).1
  = None.
Proof.
  apply (fetch_transport_failure (Response 500 (Json None 7)) "{ user { id } }" signedIn);
    reflexivity.
Defined.

(** X10: when [localStorage] cannot be read, [fetchGraphQLData] returns
    [null] without sending a request and without logging out: it logs the
    error, shows the storage error message, and leaves storage and the
    sections and inputs of the page as they were. *)
Theorem fetch_storage_failure {Data}
    (network : Settled Data) (query : string) (w : World)
    (Hdenied : accessible (storage w) = false) :
  (fetchGraphQLData network query w).1 = None
  /\ newEvents w (fetchGraphQLData network query w).2
     = [ConsoleError "JWT retrieval error:"]
       ++ match errorMessageDiv (dom w) with
          | Some _ => [Shown ERROR_MESSAGES.STORAGE_ERROR; TimerSet 5000]
          | None => []
          end
  /\ storage (fetchGraphQLData network query w).2 = storage w
  /\ pageOf (fetchGraphQLData network query w).2 = pageOf w.
Proof.
  unfold fetchGraphQLData, getItem. rewrite Hdenied. simpl.
  split; [done|]. split; [|split].
  - apply newEvents_app. rewrite displayErrorMessage_events. simpl.
    by rewrite <- !app_assoc.
  - by rewrite displayErrorMessage_storage.
  - by rewrite displayErrorMessage_page_parts.
Qed.

Lemma fetch_storage_failure_witness :
  (fetchGraphQLData (Data := Z) (Response 200 (Json None 7)) "{ user { id } }"
     storageDenied).1 = None.
Proof.
  apply (fetch_storage_failure (Response 200 (Json None 7)) "{ user { id } }" storageDenied).
  reflexivity.
Defined.

End FetchOutcomes.

Section LogoutAndMessages.
Import Browser Config Auth Graphql SessionReading Samples.

Lemma fmap_const_idemp {A} (x : A) (o : option A) :
  (fun _ => x) <$> ((fun _ => x) <$> o) = (fun _ => x) <$> o.
Proof. by destruct o. Qed.

Lemma setDisplay_idemp d (o : option Element) :
  setDisplay d <$> (setDisplay d <$> o) = setDisplay d <$> o.
Proof. by destruct o. Qed.

Lemma setText_idemp t (o : option Element) :
  setText t <$> (setText t <$> o) = setText t <$> o.
Proof. by destruct o. Qed.

(** X11: with accessible storage [logout] removes the token, empties both
    inputs of the login form, hides and empties the error element, shows
    the login section in place of header and profile, adds nothing to the
    trace, and is idempotent. *)
Theorem logout_resets_session (w : World)
    (Haccessible : accessible (storage w) = true) :
  jwtToken (storage (logout w)) = None
  /\ loggedOutPage (dom (logout w))
  /\ whenPresent (fun e => text e = "") (usernameEmailInput (dom (logout w)))
  /\ whenPresent (fun e => text e = "") (passwordInput (dom (logout w)))
  /\ whenPresent (fun e => display e = "none" /\ text e = "")
       (errorMessageDiv (dom (logout w)))
  /\ events (logout w) = events w
  /\ logout (logout w) = logout w.
Proof.
  unfold logout, removeItem. rewrite Haccessible. simpl.
  split; [done|]. split.
  { unfold loggedOutPage. simpl.
    by destruct (loginSection (dom w)), (fixedHeaderContainer (dom w)),
      (profileContentScrollArea (dom w)). }
  split; [by destruct (usernameEmailInput (dom w))|].
  split; [by destruct (passwordInput (dom w))|].
  split; [by destruct (errorMessageDiv (dom w))|].
  split; [done|].
  unfold hideErrorMessage, withDom, withStorage, resetPage. simpl.
  by rewrite !fmap_const_idemp, setDisplay_idemp, !setText_idemp.
Qed.

Lemma logout_resets_session_witness : logout (logout signedIn) = logout signedIn.
Proof. apply (logout_resets_session signedIn). reflexivity. Defined.

(** X12: when removing the token throws, [logout] resets nothing: the
    stored token, the sections of the page and the form inputs stay as they
    were; the error is logged and the unknown-error message is shown. *)
Theorem logout_storage_failure (w : World)
    (Hdenied : accessible (storage w) = false) :
  storage (logout w) = storage w
  /\ pageOf (logout w) = pageOf w
  /\ newEvents w (logout w)
     = [ConsoleError "Logout error:"]
       ++ match errorMessageDiv (dom w) with
          | Some _ => [Shown ERROR_MESSAGES.UNKNOWN_ERROR; TimerSet 5000]
          | None => []
          end
  /\ messageOnScreen (logout w)
     = (fun _ => ERROR_MESSAGES.UNKNOWN_ERROR) <$> errorMessageDiv (dom w).
Proof.
  unfold logout, removeItem. rewrite Hdenied.
  split; [by rewrite displayErrorMessage_storage|].
  split; [by rewrite displayErrorMessage_page_parts|].
  split.
  - apply newEvents_app. rewrite displayErrorMessage_events. simpl.
    by rewrite <- !app_assoc.
  - by rewrite displayErrorMessage_onScreen.
Qed.

Lemma logout_storage_failure_witness :
  storage (logout storageDenied) = storage storageDenied.
Proof. apply (logout_storage_failure storageDenied). reflexivity. Defined.

(** X13: [displayErrorMessage] does nothing at all on a page without the
    error element; on a page with it, the element is made visible with the
    message as its text, a later message replaces an earlier one, each call
    sets one five-second timer, and [hideErrorMessage] leaves the page as if
    nothing had been displayed. *)
Theorem displayErrorMessage_replaces_and_hides (m1 m2 : string) (w : World) :
  (errorMessageDiv (dom w) = None -> displayErrorMessage m1 w = w)
  /\ errorMessageDiv (dom (displayErrorMessage m1 w))
     = (fun _ => {| display := "block"; text := m1 |}) <$> errorMessageDiv (dom w)
  /\ dom (displayErrorMessage m2 (displayErrorMessage m1 w))
     = dom (displayErrorMessage m2 w)
  /\ newEvents w (displayErrorMessage m2 (displayErrorMessage m1 w))
     = match errorMessageDiv (dom w) with
       | Some _ => [Shown m1; TimerSet 5000; Shown m2; TimerSet 5000]
       | None => []
       end
  /\ dom (hideErrorMessage (displayErrorMessage m1 w)) = dom (hideErrorMessage w).
Proof.
  split; [|split; [|split; [|split]]].
  - intros Hdiv. unfold displayErrorMessage. by rewrite Hdiv.
  - unfold displayErrorMessage.
    destruct (errorMessageDiv (dom w)) eqn:Hdiv; simpl; [done|by rewrite Hdiv].
  - unfold displayErrorMessage.
    destruct (errorMessageDiv (dom w)) eqn:Hdiv; simpl; [done|by rewrite Hdiv].
  - apply newEvents_app. rewrite !displayErrorMessage_events.
    unfold displayErrorMessage.
    destruct (errorMessageDiv (dom w)) eqn:Hdiv; simpl.
    + by rewrite <- !app_assoc.
    + by rewrite Hdiv, !app_nil_r.
  - unfold displayErrorMessage, hideErrorMessage.
    destruct (errorMessageDiv (dom w)) eqn:Hdiv; simpl; by rewrite ?Hdiv.
Qed.

End LogoutAndMessages.

(** ** charts.js *)

Section LineChartOutcomes.
Import Js Config Charts ChartReading Samples.
Context {H : HostNumber}.

(** The tooltip text of a data point of the line chart. *)
Lemma tooltips_circle data i d :
  tooltips (LineChart.circle data i d)
  = [pointTooltip d].
Proof. done. Qed.

Lemma tooltips_circles data (is_ : list Z) (ds : list Calc.XpPoint) :
  length is_ = length ds ->
  flat_map tooltips (zip_with (LineChart.circle data) is_ ds)
  = pointTooltip <$> ds.
Proof.
  revert is_. induction ds as [|d ds IH]; intros [|i is_] Hlen; try done.
  cbn [zip_with flat_map]. rewrite tooltips_circle, IH; [done|].
  simpl in Hlen. lia.
Qed.

Lemma tooltips_dateLabel data i label :
  LineChart.dateLabel data i = Some label -> tooltips label = [].
Proof.
  unfold LineChart.dateLabel. intros Hlabel.
  destruct (LineChart.labelIndex data i) as [index|]; [|done]. simpl in Hlabel.
  destruct (LineChart.pointAtIndex data index) as [d|]; [|done]. simpl in Hlabel.
  injection Hlabel as <-. apply tooltips_labelled.
Qed.

Lemma tooltips_dateLabels data labels :
  LineChart.dateLabels data = Some labels -> Forall (fun n => tooltips n = []) labels.
Proof.
  unfold LineChart.dateLabels. intros Hlabels. apply mapM_Some_1 in Hlabels.
  apply Forall_forall. intros label Hlabel.
  apply list_elem_of_lookup in Hlabel as [k Hk].
  destruct (Forall2_lookup_r _ _ _ _ _ Hlabels Hk) as (i & _ & Hi).
  by apply tooltips_dateLabel in Hi.
Qed.

Lemma tooltips_line data : Forall (fun n => tooltips n = []) (LineChart.line data).
Proof.
  unfold LineChart.line. destruct (1 <? _); [by repeat constructor|].
  destruct data as [|d0 [|d1 rest]]; by repeat constructor.
Qed.

Lemma tooltips_lineChart data svg :
  LineChart.svg data = Some svg ->
  tooltips svg
  = pointTooltip <$> data.
Proof.
  unfold LineChart.svg. destruct (LineChart.dateLabels data) as [labels|] eqn:Hlabels; [|done].
  simpl. intros [= <-].
  unfold svgRoot, chartGroup, createSVGElement.
  rewrite !appendChildren_Elem. cbn [tooltips flat_map app foldl].
  rewrite !app_nil_r, !flat_map_app. cbn [flat_map]. rewrite flat_map_app.
  rewrite tooltips_circles by apply indices_length.
  rewrite (no_tooltips_flat_map labels) by (by apply (tooltips_dateLabels data)).
  rewrite (no_tooltips_flat_map (LineChart.line data)) by apply tooltips_line.
  unfold xAxisLine, yAxisLine, xAxisTitle, LineChart.megabyteLabel, yAxisLabel, yAxisTitle.
  by rewrite !tooltips_labelled, !tooltips_createSVGElement.
Qed.

(** X14: what [drawXpProgressLineChart] leaves in its container is decided
    by the length of the series: the no-data text for an empty series; for
    exactly one point a [TypeError], the container left empty; for two or
    more points one drawing, with one tooltip per point, in the order of
    the series, reading "Date: <date>, XP: <totalXpMB> MB". *)
Theorem lineChart_outcome_by_length (before : Container) (points : list Calc.XpPoint) :
  (points = [] ->
   drawXpProgressLineChart (Some before) (Array points)
   = (Some [TextNode ERROR_MESSAGES.NO_DATA], Normal))
  /\ (length points = 1%nat ->
      drawXpProgressLineChart (Some before) (Array points)
      = (Some [], Throw "TypeError: Cannot read properties of undefined (reading 'date')"))
  /\ ((2 <= length points)%nat ->
      exists svg,
        drawXpProgressLineChart (Some before) (Array points) = (Some [svg], Normal)
        /\ LineChart.svg points = Some svg
        /\ tooltips svg = pointTooltip <$> points).
Proof.
  split; [by intros ->|]. split.
  - intros Hone. by destruct points as [|p [|q rest]].
  - intros Hlen. destruct (lineChart_draws before points Hlen) as [svg Hsvg].
    exists svg. split; [done|].
    assert (Hdrawn : LineChart.svg points = Some svg).
    { unfold drawXpProgressLineChart in Hsvg.
      destruct points as [|p0 rest]; [simpl in Hlen; lia|]. cbn [truthy negb] in Hsvg.
      destruct (LineChart.svg (p0 :: rest)) as [svg'|]; [|done].
      by injection Hsvg as ->. }
    split; [done|]. by apply tooltips_lineChart.
Qed.

End LineChartOutcomes.

Section LineChartLabels.
Import Js Config Charts Charts.LineChart Samples.

(** X15: for a series of two or more points the x axis gets
    [min (length, 5)] date labels; the first is the date of the first point,
    the last the date of the last point, and the labelled positions lie
    inside the series and increase strictly from label to label. *)
Theorem lineChart_labels_span_series (points : list Calc.XpPoint) :
  (2 <= length points)%nat ->
  numLabels points = Z.min (Z.of_nat (length points)) 5
  /\ labelIndex points 0 = Some 0
  /\ labelIndex points (numLabels points - 1) = Some (Z.of_nat (length points) - 1)
  /\ forall i, 0 <= i < numLabels points ->
       exists index,
         labelIndex points i = Some index
         /\ is_Some (pointAtIndex points index)
         /\ forall j index', i < j < numLabels points ->
              labelIndex points j = Some index' -> index < index'.
Proof.
  intros Hlen. unfold labelIndex, pointAtIndex, numLabels, dataLength.
  set (len := Z.of_nat (length points)).
  assert (2 <= len) by (unfold len; lia).
  assert (Hzero : (Z.min len 5 - 1 =? 0) = false) by lia. rewrite Hzero.
  split; [done|]. split; [done|]. split.
  { f_equal. rewrite Z.mul_comm. apply Z.div_mul. lia. }
  intros i Hi. eexists. split; [done|].
  assert (Hidx : 0 <= i * (len - 1) / (Z.min len 5 - 1) < len).
  { split; [apply Z.div_pos; nia|]. apply Z.div_lt_upper_bound; nia. }
  split.
  - destruct (0 <=? _) eqn:Hnonneg; [|lia].
    apply lookup_lt_is_Some_2. unfold len in *. lia.
  - intros j index' Hj [= <-].
    apply Z.lt_le_trans with ((i * (len - 1) + (Z.min len 5 - 1)) / (Z.min len 5 - 1)).
    + replace (i * (len - 1) + (Z.min len 5 - 1))
        with (i * (len - 1) + 1 * (Z.min len 5 - 1)) by lia.
      rewrite Z.div_add by lia. lia.
    + apply Z.div_le_mono; [lia|]. nia.
Qed.

Lemma lineChart_labels_span_series_witness :
  labelIndex (Calc.calculateXpProgress hostUS (Array twoProjects)) 0 = Some 0.
Proof.
  apply (lineChart_labels_span_series (Calc.calculateXpProgress hostUS (Array twoProjects))).
  vm_compute. lia.
Defined.

End LineChartLabels.

Section RadarOutcomes.
Import Js Config Charts ChartReading Samples.

Lemma foldl_max_le (a : Z) (l : list Z) :
  a <= foldl Z.max a l /\ Forall (fun v => v <= foldl Z.max a l) l.
Proof.
  revert a. induction l as [|v l IH]; intros a; simpl; [by split; [lia|constructor]|].
  destruct (IH (Z.max a v)) as [Hacc Hall]. split; [lia|].
  constructor; [lia|done].
Qed.

Lemma foldl_max_attained (a : Z) (l : list Z) :
  foldl Z.max a l = a \/ foldl Z.max a l ∈ l.
Proof.
  revert a. induction l as [|v l IH]; intros a; simpl; [by left|].
  destruct (IH (Z.max a v)) as [Hacc|Hin].
  - rewrite Hacc. destruct (Z.max_spec a v) as [[_ ->]|[_ ->]]; [right; left|by left].
  - right. by right.
Qed.

(** X16: the scale of the radar chart is the largest skill value, but never
    less than 10: it is at least 10 and at least every value, and it is
    either 10 or the value of one of the skills. *)
Theorem radar_maxValue_bounds (skills : list Radar.Skill) :
  10 <= Radar.maxValue skills
  /\ Forall (fun s => Radar.value s <= Radar.maxValue skills) skills
  /\ (Radar.maxValue skills = 10
      \/ exists s, s ∈ skills /\ Radar.value s = Radar.maxValue skills).
Proof.
  unfold Radar.maxValue.
  destruct (foldl_max_le 10 (Radar.value <$> skills)) as [Hten Hall].
  split; [done|]. split.
  { apply Forall_forall. intros s Hs. rewrite Forall_forall in Hall.
    apply Hall, list_elem_of_fmap. eauto. }
  destruct (foldl_max_attained 10 (Radar.value <$> skills)) as [Heq|Hin]; [by left|].
  right. apply list_elem_of_fmap in Hin as (s & Hs & Hin). eauto.
Qed.

Lemma substring_all (s : string) : String.substring 0 (String.length s) s = s.
Proof. induction s as [|c s IH]; simpl; [done|by rewrite IH]. Qed.

Lemma replace_unfold (pattern replacement s : string) :
  Radar.replace pattern replacement s
  = if String.prefix pattern s
    then replacement +:+ String.substring (String.length pattern)
                           (String.length s - String.length pattern) s
    else match s with
         | EmptyString => EmptyString
         | String c rest => String c (Radar.replace pattern replacement rest)
         end.
Proof. by destruct s. Qed.

Lemma replace_skill_prefix (rest : string) :
  Radar.replace "skill_" "" ("skill_" +:+ rest) = rest.
Proof.
  rewrite replace_unfold. simpl. change ("" +:+ rest) with rest.
  rewrite Nat.sub_0_r, substring_all. by destruct rest.
Qed.

Lemma replace_absent (c : ascii) (replacement s : string) :
  mentions c s = false -> Radar.replace (String c "") replacement s = s.
Proof.
  induction s as [|c' s IH]; simpl; [done|].
  intros Habsent. apply orb_false_elim in Habsent as [Hc Hs].
  destruct (ascii_dec c c') as [->|Hne]; [by rewrite Ascii.eqb_refl in Hc|].
  by rewrite IH.
Qed.

Lemma replace_first (c : ascii) (replacement a b : string) :
  mentions c a = false ->
  Radar.replace (String c "") replacement (a +:+ String c b) = a +:+ replacement +:+ b.
Proof.
  induction a as [|c' a IH]; simpl.
  - intros _. rewrite replace_unfold. simpl.
    destruct (ascii_dec c c) as [_|Hne]; [|done].
    change ("" +:+ b) with b. rewrite Nat.sub_0_r, substring_all. by destruct b.
  - intros Habsent. apply orb_false_elim in Habsent as [Hc Ha].
    destruct (ascii_dec c c') as [->|Hne]; [by rewrite Ascii.eqb_refl in Hc|].
    by rewrite IH.
Qed.

(** X18: the name of a skill is its type without the prefix "skill_" and
    with the first hyphen, and only the first, turned into a space. *)
Theorem skill_name_loses_first_hyphen (a b : string) (n : Z) :
  mentions "-" a = false ->
  Radar.name (Radar.toSkill (Radar.mkSkillNode (Some ("skill_" +:+ a)) n)) = a
  /\ Radar.name (Radar.toSkill (Radar.mkSkillNode (Some ("skill_" +:+ a +:+ "-" +:+ b)) n))
     = a +:+ " " +:+ b.
Proof.
  intros Habsent. unfold Radar.toSkill. cbn [Radar.type Radar.name default from_option id].
  rewrite !replace_skill_prefix. split.
  - by apply replace_absent.
  - by apply (replace_first "-" " " a b).
Qed.

Lemma skill_name_loses_first_hyphen_witness :
  Radar.name (Radar.toSkill (Radar.mkSkillNode (Some ("skill_" +:+ "front" +:+ "-" +:+ "end-dev")) 35))
  = "front" +:+ " " +:+ "end-dev".
Proof. apply (skill_name_loses_first_hyphen "front" "end-dev" 35). reflexivity. Defined.

End RadarOutcomes.

Section RadarDrawing.
Import Js Config Charts ChartReading Samples.
Context {H : HostNumber}.

Lemma tooltips_dot skills i s : tooltips (Radar.dot skills i s) = [skillTooltip s].
Proof.
  unfold Radar.dot, addTooltip. fold (skillTooltip s).
  assert (bool_decide (skillTooltip s = "") = false) as ->.
  { apply bool_decide_eq_false_2. unfold skillTooltip. by destruct (Radar.name s). }
  by unfold createSVGElement.
Qed.

Lemma tooltips_dots skills (is_ : list Z) (ss : list Radar.Skill) :
  length is_ = length ss ->
  flat_map tooltips (zip_with (Radar.dot skills) is_ ss) = skillTooltip <$> ss.
Proof.
  revert is_. induction ss as [|s ss IH]; intros [|i is_] Hlen; try done.
  cbn [zip_with flat_map]. rewrite tooltips_dot, IH; [done|].
  simpl in Hlen. lia.
Qed.

Lemma tooltips_skillLabel skills i s : tooltips (Radar.skillLabel skills i s) = [].
Proof.
  unfold Radar.skillLabel. destruct (_ && _); [|apply tooltips_labelled].
  unfold createSVGElement, setAttribute, setTextContent, textContent. simpl.
  by case_bool_decide.
Qed.

Lemma tooltips_levelGroup skills level : tooltips (Radar.levelGroup skills level) = [].
Proof.
  unfold Radar.levelGroup. unfold createSVGElement at 3.
  rewrite appendChildren_Elem. cbn [tooltips flat_map app foldl].
  by rewrite tooltips_labelled, tooltips_createSVGElement.
Qed.

Lemma tooltips_radar skills : tooltips (Radar.svg skills) = skillTooltip <$> skills.
Proof.
  unfold Radar.svg. unfold createSVGElement at 1 2.
  rewrite appendChildren_Elem. cbn [appendChild tooltips flat_map app foldl].
  rewrite ?app_nil_r, ?flat_map_app. cbn [flat_map]. rewrite flat_map_app.
  rewrite tooltips_dots by apply indices_length.
  rewrite !no_tooltips_flat_map; [by rewrite app_nil_r|..].
  - by repeat constructor.
  - apply Forall_forall. intros n Hn.
    apply elem_of_zip_with in Hn as (i & s & -> & _). apply tooltips_skillLabel.
  - apply Forall_forall. intros n Hn.
    apply list_elem_of_fmap in Hn as (i & -> & _). by unfold Radar.axis.
  - apply Forall_forall. intros n Hn.
    apply list_elem_of_fmap in Hn as (i & -> & _). apply tooltips_levelGroup.
Qed.

(** X17: [drawSkillsRadarChart] draws the nodes whose type starts with
    "skill_", in their order in the input, and leaves the no-data text when
    there is none; the drawing carries one tooltip per skill, in that
    order, reading "<name>: <value>". *)
Theorem radarChart_draws_skills (before : Container) (items : list Radar.SkillNode) :
  drawSkillsRadarChart (Some before) (Array items)
  = (Some (match Radar.skillsOf items with
           | [] => [TextNode ERROR_MESSAGES.NO_DATA]
           | skills => [Radar.svg skills]
           end), Normal)
  /\ Radar.value <$> Radar.skillsOf items
     = Radar.amount <$> List.filter Radar.isSkill items
  /\ tooltips (Radar.svg (Radar.skillsOf items)) = skillTooltip <$> Radar.skillsOf items.
Proof.
  split; [|split].
  - unfold drawSkillsRadarChart. cbn [truthy negb].
    destruct items as [|item items]; [done|].
    by destruct (Radar.skillsOf (item :: items)).
  - unfold Radar.skillsOf. rewrite <- list_fmap_compose. by apply list_fmap_ext.
  - apply tooltips_radar.
Qed.

End RadarDrawing.

Section BarChartBars.
Import Js Config Charts Charts.BarChart Samples.

(** X19: the bar chart never draws more than ten bars: their number is the
    number of keys of the mapping, capped at ten; every bar carries a key of
    the mapping together with the value stored under it; and no key is
    drawn twice when the mapping has no duplicate key. *)
Theorem barChart_bars_are_projects (data : JsObject Z) :
  length (displayData data) = Nat.min 10 (length data)
  /\ Forall (fun d => get data (name d) = Some (xp d)) (displayData data)
  /\ (NoDup data.*1 -> NoDup (name <$> displayData data)).
Proof.
  assert (Hnames : name <$> displayData data = displayProjects data).
  { unfold displayData. rewrite <- list_fmap_compose. apply list_fmap_id. }
  split; [|split].
  - unfold displayData, displayProjects.
    by rewrite length_fmap, length_take, projects_Permutation, length_fmap.
  - unfold displayData. apply Forall_fmap, Forall_forall. intros proj Hproj. simpl.
    assert (Hkey : proj ∈ data.*1).
    { rewrite <- projects_Permutation. unfold displayProjects in Hproj.
      by apply (subseteq_take 10). }
    unfold xpOf. by destruct (get_of_key data proj Hkey) as [v ->].
  - intros Hkeys. rewrite Hnames. unfold displayProjects.
    eapply sublist_NoDup; [|apply sublist_take].
    by rewrite projects_Permutation.
Qed.

End BarChartBars.

(** ** profile.js *)

Section ProfilePage.
Import Js Calc Browser Config Auth Graphql Charts Profile Login.
Import SessionReading ProfileReading SamplePages Samples.
Context {H : HostNumber} {O : HostObject}.
Variable h : Host.

(** What a call of [fetchGraphQLData] does to the trace of requests, to
    storage and to the page. *)
Lemma fetchGraphQLData_session {Data} (network : Settled Data) (query : string) (w : World) :
  requests (events (fetchGraphQLData network query w).2)
  = requests (events w)
    ++ (if accessible (storage w) && tokenPresent w
        then [request (storedToken w) query] else [])
  /\ storage (fetchGraphQLData network query w).2
     = (if accessible (storage w) && sessionRejected network w
        then {| accessible := true; jwtToken := None |} else storage w)
  /\ (if accessible (storage w) && sessionRejected network w
      then dom (fetchGraphQLData network query w).2 = dom (logout w)
      else pageOf (fetchGraphQLData network query w).2 = pageOf w).
Proof.
  split.
  - unfold fetchGraphQLData, getItem, tokenPresent, storedToken, fetchFailed.
    destruct (accessible (storage w)); simpl;
      [|rewrite displayErrorMessage_requests; simpl; by rewrite requests_app].
    destruct (jwtToken (storage w)) as [[|c token]|]; simpl;
      [rewrite logout_requests, displayErrorMessage_requests; simpl;
       by rewrite requests_app| |
       rewrite logout_requests, displayErrorMessage_requests; simpl;
       by rewrite requests_app].
    destruct network as [|status [|[errors|] data]]; simpl;
      [|destruct (ok status); simpl;
        [|destruct ((status =? 401) || (status =? 403)); simpl]..];
      try destruct (isInvalidJWT errors); simpl;
      rewrite ?logout_requests, ?displayErrorMessage_requests; simpl;
      by rewrite ?requests_app, ?app_nil_r.
  - assert (Hout : forall m w0,
              accessible (storage w0) = true -> dom (logout w0) = dom (logout w) ->
              storage (logout (displayErrorMessage m w0))
              = {| accessible := true; jwtToken := None |}
              /\ dom (logout (displayErrorMessage m w0)) = dom (logout w)).
    { intros m w0 Hacc0 Hdom0.
      rewrite logout_storage, displayErrorMessage_accessible, Hacc0.
      by rewrite logout_displayErrorMessage_dom. }
    assert (Hkeep : forall m w0,
              storage w0 = storage w -> pageOf w0 = pageOf w ->
              storage (displayErrorMessage m w0) = storage w
              /\ pageOf (displayErrorMessage m w0) = pageOf w).
    { intros m w0 Hsto0 Hpage0.
      by rewrite displayErrorMessage_storage, displayErrorMessage_page_parts. }
    unfold fetchGraphQLData, getItem, sessionRejected, tokenPresent, fetchFailed.
    destruct (accessible (storage w)) eqn:Hacc; simpl; [|by apply Hkeep].
    destruct (jwtToken (storage w)) as [[|c token]|] eqn:Htoken; simpl;
      [apply Hout; [done|apply logout_emit_dom]| |
       apply Hout; [done|apply logout_emit_dom]].
    set (w1 := emit (request (String c token) query) w).
    assert (Hacc1 : accessible (storage w1) = true) by done.
    assert (Hdom1 : dom (logout w1) = dom (logout w)) by apply logout_emit_dom.
    destruct network as [|status [|[errors|] data]]; simpl; [by apply Hkeep|..];
      destruct (ok status) eqn:Hok; simpl;
      try (assert ((status =? 401) || (status =? 403) = false) as ->
             by (unfold ok in Hok; lia); simpl);
      rewrite ?orb_false_r;
      try destruct ((status =? 401) || (status =? 403)); simpl;
      try (by apply Hout); try (by apply Hkeep); try done.
    all: try (destruct (isInvalidJWT errors); simpl;
              [apply Hout; [done|]; by rewrite logout_emit_dom|by apply Hkeep]).
Qed.

Lemma renderProfile_trace user w :
  events (renderProfile h user w).1.1 = events w
  /\ storage (renderProfile h user w).1.1 = storage w.
Proof.
  unfold renderProfile. destruct (transactions user); try done.
  destruct (fixedHeaderContainer (dom w)) eqn:Hheader; [|done]. simpl.
  destruct (profileContentScrollArea (dom w)) eqn:Hprofile; simpl; [|done].
  by destruct (drawCharts h user).
Qed.

Lemma showError_trace w registered :
  requests (events (showError w registered).1) = requests (events w)
  /\ storage (showError w registered).1 = storage w.
Proof. unfold showError. simpl. by rewrite requests_app, app_nil_r. Qed.

(** [loadProfilePage] on a page that has the three elements. *)
Lemma loadProfilePage_present network w :
  elementsPresent w = true ->
  loadProfilePage h network w
  = match userOf (fetchGraphQLData network USER_PROFILE_QUERY (withDom showLoading w)).1 with
    | Some user =>
        let r := renderProfile h user
                   (fetchGraphQLData network USER_PROFILE_QUERY (withDom showLoading w)).2 in
        match r.2 with
        | Normal => r.1
        | Throw _ => showError r.1.1 (listeners r.1.2)
        end
    | None =>
        showError (fetchGraphQLData network USER_PROFILE_QUERY (withDom showLoading w)).2 []
    end.
Proof.
  unfold elementsPresent, loadProfilePage. intros Hpresent.
  destruct (loginSection (dom w)); [|done].
  destruct (fixedHeaderContainer (dom w)); [|done].
  destruct (profileContentScrollArea (dom w)); [|done].
  destruct (fetchGraphQLData network USER_PROFILE_QUERY _) as [data w1]. simpl.
  destruct data as [[| | | | | |[|user rest]]|]; try done. simpl.
  by destruct (renderProfile h user w1) as [[w2 outcome] [|err]].
Qed.

Lemma loadProfilePage_missing network w :
  elementsPresent w = false ->
  loadProfilePage h network w
  = (emit (ConsoleError "Required DOM elements not found") w, nothing).
Proof.
  unfold elementsPresent, loadProfilePage. intros Hmissing.
  by destruct (loginSection (dom w)), (fixedHeaderContainer (dom w)),
    (profileContentScrollArea (dom w)).
Qed.

(** The requests and the stored token after [loadProfilePage]. *)
Lemma loadProfilePage_session network w :
  requests (events (loadProfilePage h network w).1)
  = requests (events w)
    ++ (if elementsPresent w && accessible (storage w) && tokenPresent w
        then [request (storedToken w) USER_PROFILE_QUERY] else [])
  /\ storage (loadProfilePage h network w).1
     = (if elementsPresent w && accessible (storage w) && sessionRejected network w
        then {| accessible := true; jwtToken := None |} else storage w).
Proof.
  destruct (elementsPresent w) eqn:Hpresent.
  - rewrite (loadProfilePage_present network w Hpresent).
    destruct (fetchGraphQLData_session network USER_PROFILE_QUERY (withDom showLoading w))
      as (Hrequests & Hstorage & _).
    change (storage (withDom showLoading w)) with (storage w) in *.
    change (events (withDom showLoading w)) with (events w) in *.
    change (tokenPresent (withDom showLoading w)) with (tokenPresent w) in *.
    change (sessionRejected network (withDom showLoading w))
      with (sessionRejected network w) in *.
    change (storedToken (withDom showLoading w)) with (storedToken w) in *.
    simpl. rewrite <- Hrequests, <- Hstorage.
    destruct (userOf _) as [user|].
    + destruct (renderProfile_trace user
                  (fetchGraphQLData network USER_PROFILE_QUERY (withDom showLoading w)).2)
        as [Hevents Hsto].
      simpl. destruct (renderProfile h user _).2.
      * by rewrite Hevents, Hsto.
      * destruct (showError_trace (renderProfile h user
                    (fetchGraphQLData network USER_PROFILE_QUERY (withDom showLoading w)).2).1.1
                    (listeners (renderProfile h user
                    (fetchGraphQLData network USER_PROFILE_QUERY (withDom showLoading w)).2).1.2))
          as [-> ->].
        by rewrite Hevents, Hsto.
    + by destruct (showError_trace
                    (fetchGraphQLData network USER_PROFILE_QUERY (withDom showLoading w)).2 [])
        as [-> ->].
  - rewrite (loadProfilePage_missing network w Hpresent). simpl.
    by rewrite requests_app, !app_nil_r.
Qed.

(** X20: [loadProfilePage] does nothing but log an error when one of the
    login section, the header container and the profile area is missing;
    otherwise it sends the profile query once, with the stored token as
    bearer credential, if storage is readable and holds a token; and the
    token is still stored afterwards unless the session was rejected, that
    is, whether or not a profile could be shown. *)
Theorem loadProfilePage_keeps_session_unless_rejected
    (network : Settled Payload) (w : World) :
  (elementsPresent w = false ->
   loadProfilePage h network w
   = (emit (ConsoleError "Required DOM elements not found") w, nothing))
  /\ requests (events (loadProfilePage h network w).1)
     = requests (events w)
       ++ (if elementsPresent w && accessible (storage w) && tokenPresent w
           then [request (storedToken w) USER_PROFILE_QUERY] else [])
  /\ (elementsPresent w && accessible (storage w) && sessionRejected network w = false ->
      storage (loadProfilePage h network w).1 = storage w)
  /\ (elementsPresent w && accessible (storage w) && sessionRejected network w = true ->
      jwtToken (storage (loadProfilePage h network w).1) = None).
Proof.
  destruct (loadProfilePage_session network w) as [Hrequests Hstorage].
  split; [apply loadProfilePage_missing|]. split; [done|].
  rewrite Hstorage. split; by intros ->.
Qed.

Lemma showLoading_present w :
  elementsPresent w = true ->
  displayOf (loginSection (showLoading (dom w))) = Some "none"
  /\ displayOf (fixedHeaderContainer (showLoading (dom w))) = Some "flex"
  /\ profileContentScrollArea (showLoading (dom w))
     = Some {| display := "flex"; text := loadingView |}.
Proof.
  unfold elementsPresent, showLoading. simpl. intros Hpresent.
  destruct (loginSection (dom w)); [|done].
  destruct (fixedHeaderContainer (dom w)); [|done].
  by destruct (profileContentScrollArea (dom w)).
Qed.

Lemma logout_dom_parts w :
  accessible (storage w) = true ->
  loginSection (dom (logout w)) = setDisplay "flex" <$> loginSection (dom w)
  /\ fixedHeaderContainer (dom (logout w))
     = (fun _ => {| display := "none"; text := "" |}) <$> fixedHeaderContainer (dom w)
  /\ profileContentScrollArea (dom (logout w))
     = (fun _ => {| display := "none"; text := "" |}) <$> profileContentScrollArea (dom w).
Proof. intros Hacc. unfold logout, removeItem. by rewrite Hacc. Qed.

(** X21: when the query brings no user (the fetch failed, or [data.user]
    is missing or empty) [loadProfilePage] puts the error view with its retry
    button into the profile area. After a rejected session the area is
    hidden and the login section shown, as [logout] left them; after any
    other failure the area and the header stay visible and the login
    section hidden. *)
Theorem profile_error_view (network : Settled Payload) (w : World) :
  elementsPresent w = true ->
  userOf (fetchGraphQLData network USER_PROFILE_QUERY (withDom showLoading w)).1 = None ->
  (loadProfilePage h network w).2 = {| listeners := [RetryOnClick]; canvases := None |}
  /\ textOf (profileContentScrollArea (dom (loadProfilePage h network w).1))
     = Some errorView
  /\ displayOf (profileContentScrollArea (dom (loadProfilePage h network w).1))
     = Some (if accessible (storage w) && sessionRejected network w then "none" else "flex")
  /\ displayOf (fixedHeaderContainer (dom (loadProfilePage h network w).1))
     = Some (if accessible (storage w) && sessionRejected network w then "none" else "flex")
  /\ displayOf (loginSection (dom (loadProfilePage h network w).1))
     = Some (if accessible (storage w) && sessionRejected network w then "flex" else "none").
Proof.
  intros Hpresent Hnone.
  rewrite (loadProfilePage_present network w Hpresent), Hnone.
  destruct (showLoading_present w Hpresent) as (Hlogin & Hheader & Hprofile).
  destruct (fetchGraphQLData_session network USER_PROFILE_QUERY (withDom showLoading w))
    as (_ & _ & Hdom).
  change (storage (withDom showLoading w)) with (storage w) in Hdom.
  change (sessionRejected network (withDom showLoading w))
    with (sessionRejected network w) in Hdom.
  split; [done|]. unfold showError, textOf, displayOf in *.
  cbn [fst snd dom withDom emit onProfileArea loginSection fixedHeaderContainer
       profileContentScrollArea].
  destruct (accessible (storage w) && sessionRejected network w) eqn:Hrejected.
  - rewrite Hdom. apply andb_prop in Hrejected as [Hacc _].
    destruct (logout_dom_parts (withDom showLoading w) Hacc) as (-> & -> & ->).
    change (dom (withDom showLoading w)) with (showLoading (dom w)).
    rewrite Hprofile.
    destruct (loginSection (showLoading (dom w))); [|done].
    by destruct (fixedHeaderContainer (showLoading (dom w))).
  - unfold pageOf in Hdom.
    change (dom (withDom showLoading w)) with (showLoading (dom w)) in *.
    assert (Hl := f_equal (fun p => p.1.1.1.1) Hdom).
    assert (Hh := f_equal (fun p => p.1.1.1.2) Hdom).
    assert (Hp := f_equal (fun p => p.1.1.2) Hdom).
    cbn [fst snd] in Hl, Hh, Hp.
    rewrite Hl, Hh, Hp, Hprofile. by rewrite Hlogin, Hheader.
Qed.

(** A successful query hands over the payload and only adds the request to
    the trace. *)
Lemma fetchGraphQLData_ok {Data} status (data : Data) query w :
  accessible (storage w) = true -> tokenPresent w = true -> ok status = true ->
  fetchGraphQLData (Response status (Json None data)) query w
  = (Some data, emit (request (storedToken w) query) w).
Proof.
  unfold fetchGraphQLData, getItem, tokenPresent, storedToken.
  intros -> Htoken ->.
  by destruct (jwtToken (storage w)) as [[|c token]|].
Qed.

Lemma progress_length (txs : list Transaction) :
  length (calculateXpProgress h (Array txs)) = length (List.filter isProjectXp txs).
Proof.
  unfold calculateXpProgress, xpTransactions. simpl.
  by rewrite accumulate_length, sort_length.
Qed.

Lemma barChart_completes (o : JsObject XpValue) :
  (drawXpByProject (Some []) o).2 = Normal.
Proof.
  unfold drawXpByProject, drawXpByProjectBarChart.
  destruct (numbers o) as [projectXp|]; simpl.
  - by destruct (BarChart.projects projectXp).
  - by destruct (XpBars.projects o).
Qed.

Lemma radarChart_completes (nodes : Value Radar.SkillNode) :
  (drawSkillsRadarChart (Some []) nodes).2
  = if negb (truthy nodes) || isArray nodes then Normal
    else Throw "TypeError: data.filter is not a function".
Proof.
  unfold drawSkillsRadarChart.
  destruct nodes as [| |[|]|n|str| |[|item items]]; simpl; try done.
  - by destruct (n =? 0).
  - by destruct (bool_decide (str = "")).
  - by destruct (Radar.skillsOf (item :: items)).
Qed.

Lemma lineChart_completes (points : list XpPoint) :
  (drawXpProgressLineChart (Some []) (Array points)).2
  = if (length points =? 1)%nat
    then Throw "TypeError: Cannot read properties of undefined (reading 'date')"
    else Normal.
Proof.
  destruct points as [|p [|q rest]]; [done|done|].
  destruct (lineChart_draws [] (p :: q :: rest)) as [svg Hsvg]; [simpl; lia|].
  unfold Container in *. by rewrite Hsvg.
Qed.

Lemma drawCharts_completes (user : User) :
  (drawCharts h user).2
  = match (drawXpProgressLineChart (Some [])
             (Array (calculateXpProgress h (transactions user)))).2 with
    | Throw e => Throw e
    | Normal =>
        match (drawXpByProject (Some []) (calculateXpByProject (transactions user))).2 with
        | Throw e => Throw e
        | Normal =>
            if truthy (skill_nodes user)
            then (drawSkillsRadarChart (Some []) (skill_nodes user)).2
            else Normal
        end
    end.
Proof.
  unfold drawCharts.
  destruct (drawXpProgressLineChart _ _) as [line [|e1]]; [|done].
  destruct (drawXpByProject _ _) as [bars [|e2]]; [|done].
  destruct (truthy (skill_nodes user)); [|done].
  by destruct (drawSkillsRadarChart _ _).
Qed.

(** The charts of [renderProfile] are all drawn exactly for the users that
    [rendersCharts] accepts. *)
Lemma drawCharts_completion (user : User) (txs : list Transaction) :
  transactions user = Array txs ->
  if rendersCharts user then (drawCharts h user).2 = Normal
  else exists e, (drawCharts h user).2 = Throw e.
Proof.
  intros Htxs. rewrite drawCharts_completes. unfold rendersCharts. rewrite Htxs.
  rewrite lineChart_completes, progress_length, barChart_completes, radarChart_completes.
  destruct (length (List.filter isProjectXp txs) =? 1)%nat; simpl; [eauto|].
  destruct (truthy (skill_nodes user)); simpl; [|done].
  destruct (isArray (skill_nodes user)); simpl; eauto.
Qed.

Lemma elementsPresent_loading e w :
  elementsPresent w = true -> elementsPresent (emit e (withDom showLoading w)) = true.
Proof.
  unfold elementsPresent. simpl.
  destruct (loginSection (dom w)); [|done].
  destruct (fixedHeaderContainer (dom w)); [|done].
  by destruct (profileContentScrollArea (dom w)).
Qed.

(** [loadProfilePage] once the query has brought a user. *)
Lemma loadProfilePage_fetched status (user : User) rest w :
  elementsPresent w = true ->
  accessible (storage w) = true -> tokenPresent w = true -> ok status = true ->
  loadProfilePage h (Response status (Json None (Array (user :: rest)))) w
  = let r := renderProfile h user
               (emit (request (storedToken w) USER_PROFILE_QUERY) (withDom showLoading w)) in
    match r.2 with
    | Normal => r.1
    | Throw _ => showError r.1.1 (listeners r.1.2)
    end.
Proof.
  intros Hpresent Hacc Htoken Hok.
  rewrite (loadProfilePage_present _ w Hpresent).
  by rewrite (fetchGraphQLData_ok status _ _ (withDom showLoading w) Hacc Htoken Hok).
Qed.

(** [renderProfile] on the page [loadProfilePage] hands over, for a user
    whose transactions are an array. *)
Lemma renderProfile_array (user : User) (txs : list Transaction) w0 :
  elementsPresent w0 = true ->
  transactions user = Array txs ->
  renderProfile h user w0
  = (withDom (onProfileArea
                (setText (profileHtml (megabytes (totalXpOf user))
                            (megabytes (totalProjectXp txs))
                            (avgGradeText user) (auditRatioText user))))
       (withDom (onHeader (setText (headerHtml (login user)))) w0),
     {| listeners := [LogoutOnClick]; canvases := Some (drawCharts h user).1 |},
     (drawCharts h user).2).
Proof.
  unfold elementsPresent, renderProfile. intros Hpresent ->.
  destruct (loginSection (dom w0)); [|done].
  destruct (fixedHeaderContainer (dom w0)) eqn:Hheader; [|done].
  destruct (profileContentScrollArea (dom w0)) eqn:Hprofile; [|done].
  simpl. rewrite Hprofile. by destruct (drawCharts h user).
Qed.

(** X22: when the query brings a user, the profile is shown exactly if the
    transactions are an array with no or at least two project-XP records and
    the skill nodes are missing or an array: header and summary are
    written, the logout button is wired, the three charts are drawn, and
    nothing is logged. For every other user the error view replaces the
    profile content and an error is logged, although the data arrived; the
    header with its logout button is then already in place if the
    transactions were an array. *)
Theorem profile_shown_iff_charts_drawn (status : Z) (user : User) (rest : list User) (w : World) :
  elementsPresent w = true ->
  accessible (storage w) = true -> tokenPresent w = true -> ok status = true ->
  if rendersCharts user then
    (loadProfilePage h (Response status (Json None (Array (user :: rest)))) w).2
    = {| listeners := [LogoutOnClick]; canvases := Some (drawCharts h user).1 |}
    /\ textOf (fixedHeaderContainer
                 (dom (loadProfilePage h (Response status (Json None (Array (user :: rest)))) w).1))
       = Some (headerHtml (login user))
    /\ textOf (profileContentScrollArea
                 (dom (loadProfilePage h (Response status (Json None (Array (user :: rest)))) w).1))
       = Some (profileHtml (megabytes (totalXpOf user))
                 (megabytes (totalProjectXp (elements (transactions user))))
                 (avgGradeText user) (auditRatioText user))
    /\ newEvents w (loadProfilePage h (Response status (Json None (Array (user :: rest)))) w).1
       = [request (storedToken w) USER_PROFILE_QUERY]
  else
    (loadProfilePage h (Response status (Json None (Array (user :: rest)))) w).2
    = {| listeners := (if isArray (transactions user) then [LogoutOnClick] else [])
                      ++ [RetryOnClick];
         canvases := None |}
    /\ textOf (profileContentScrollArea
                 (dom (loadProfilePage h (Response status (Json None (Array (user :: rest)))) w).1))
       = Some errorView
    /\ newEvents w (loadProfilePage h (Response status (Json None (Array (user :: rest)))) w).1
       = [request (storedToken w) USER_PROFILE_QUERY; ConsoleError "Profile load error:"].
Proof.
  intros Hpresent Hacc Htoken Hok.
  rewrite (loadProfilePage_fetched status user rest w Hpresent Hacc Htoken Hok).
  set (w0 := emit (request (storedToken w) USER_PROFILE_QUERY) (withDom showLoading w)).
  assert (Hpresent0 : elementsPresent w0 = true) by (by apply elementsPresent_loading).
  assert (Hparts : exists l e p,
            loginSection (dom w) = Some l /\ fixedHeaderContainer (dom w) = Some e
            /\ profileContentScrollArea (dom w) = Some p).
  { unfold elementsPresent in Hpresent.
    destruct (loginSection (dom w)) as [l|]; [|done].
    destruct (fixedHeaderContainer (dom w)) as [e|]; [|done].
    destruct (profileContentScrollArea (dom w)) as [p|]; [|done]. eauto 6. }
  destruct Hparts as (l & e & p & Hl & He & Hp).
  destruct (transactions user) as [| | | | | |txs] eqn:Htxs.
  7:{ pose proof (drawCharts_completion user txs Htxs) as Hcharts.
      rewrite (renderProfile_array user txs w0 Hpresent0 Htxs).
      cbn [fst snd]. unfold rendersCharts in *. rewrite Htxs in *.
      destruct (_ && _).
      - rewrite Hcharts. unfold textOf. simpl. rewrite He, Hp. simpl.
        split; [done|]. split; [done|]. split; [done|]. by apply newEvents_app.
      - destruct Hcharts as [err ->]. unfold textOf. simpl. rewrite Hp. simpl.
        split; [done|]. split; [done|]. apply newEvents_app. simpl.
        by rewrite <- app_assoc. }
  all: unfold rendersCharts, renderProfile; rewrite Htxs; simpl;
    unfold textOf; simpl; rewrite Hp; simpl;
    (split; [done|]); (split; [done|]); apply newEvents_app; simpl;
    by rewrite <- app_assoc.
Qed.

(** X23: a user with exactly one project-XP transaction never sees the
    profile: the line chart throws on its single point, and
    [loadProfilePage] replaces the summary just written by the error view,
    below the header that greets the user. *)
Theorem profile_single_project_shows_error
    (status : Z) (user : User) (rest : list User) (txs : list Transaction) (w : World) :
  elementsPresent w = true ->
  accessible (storage w) = true -> tokenPresent w = true -> ok status = true ->
  transactions user = Array txs ->
  length (List.filter isProjectXp txs) = 1%nat ->
  (loadProfilePage h (Response status (Json None (Array (user :: rest)))) w).2
  = {| listeners := [LogoutOnClick; RetryOnClick]; canvases := None |}
  /\ textOf (fixedHeaderContainer
               (dom (loadProfilePage h (Response status (Json None (Array (user :: rest)))) w).1))
     = Some (headerHtml (login user))
  /\ textOf (profileContentScrollArea
               (dom (loadProfilePage h (Response status (Json None (Array (user :: rest)))) w).1))
     = Some errorView
  /\ storage (loadProfilePage h (Response status (Json None (Array (user :: rest)))) w).1
     = storage w.
Proof.
  intros Hpresent Hacc Htoken Hok Htxs Hone.
  rewrite (loadProfilePage_fetched status user rest w Hpresent Hacc Htoken Hok).
  set (w0 := emit (request (storedToken w) USER_PROFILE_QUERY) (withDom showLoading w)).
  assert (Hpresent0 : elementsPresent w0 = true) by (by apply elementsPresent_loading).
  pose proof (drawCharts_completion user txs Htxs) as Hcharts.
  unfold rendersCharts in Hcharts. rewrite Htxs, Hone in Hcharts. simpl in Hcharts.
  destruct Hcharts as [e Hthrows].
  rewrite (renderProfile_array user txs w0 Hpresent0 Htxs). simpl. rewrite Hthrows. simpl.
  unfold elementsPresent in Hpresent. unfold textOf.
  destruct (loginSection (dom w)); [|done].
  destruct (fixedHeaderContainer (dom w)); [|done].
  by destruct (profileContentScrollArea (dom w)).
Qed.

End ProfilePage.

Section ProfilePageSamples.
Import Js Calc Browser Config Auth Graphql Charts Profile Login.
Import SessionReading ProfileReading SamplePages Samples.

Lemma profile_error_view_witness :
  textOf (profileContentScrollArea
            (dom (loadProfilePage (H := integerHost) (O := integerObject) hostUS Rejected signedIn).1))
  = Some errorView.
Proof.
  apply (profile_error_view (H := integerHost) (O := integerObject) hostUS Rejected signedIn); reflexivity.
Defined.

Lemma profile_shown_iff_charts_drawn_witness :
  (loadProfilePage (H := integerHost) (O := integerObject) hostUS
     (Response 200 (Json None (Array [student]))) signedIn).2
  = {| listeners := [LogoutOnClick];
       canvases := Some (drawCharts (H := integerHost) (O := integerObject) hostUS student).1 |}.
Proof.
  apply (profile_shown_iff_charts_drawn (H := integerHost) (O := integerObject) hostUS 200 student [] signedIn);
    reflexivity.
Defined.

Lemma profile_single_project_shows_error_witness :
  textOf (profileContentScrollArea
            (dom (loadProfilePage (H := integerHost) (O := integerObject) hostUS
                    (Response 200 (Json None (Array [beginner]))) signedIn).1))
  = Some errorView.
Proof.
  apply (profile_single_project_shows_error (H := integerHost) (O := integerObject) hostUS 200 beginner []
           [projectTx "P1" 1000000 jan1] signedIn); reflexivity.
Defined.

End ProfilePageSamples.
Section ProfileSummary.
Import Js Calc Browser Config Auth Graphql Charts Profile Login.
Import SessionReading ProfileReading SamplePages Samples.
Import CalcReading.

Lemma foldl_amounts (c : Z) (txs : list Transaction) :
  foldl (fun sum t => sum + amount t) c txs = c + sumAmounts txs.
Proof.
  revert c. induction txs as [|tx txs IH]; intros c; simpl.
  - unfold sumAmounts. simpl. lia.
  - rewrite IH. unfold sumAmounts. csimpl. lia.
Qed.

Lemma totalProjectXp_sum (txs : list Transaction) :
  totalProjectXp txs = sumAmounts (List.filter isProjectXp txs).
Proof. unfold totalProjectXp. by rewrite foldl_amounts. Qed.

(** X24: the "Project XP" card of the profile agrees with both charts drawn
    from the same transactions, where no project bears a name inherited
    from [Object.prototype] and the amounts are added exactly: its amount
    is the sum of all values of [calculateXpByProject], also of the
    projects the bar chart leaves out, and its text is the [totalXpMB] of
    the last point of [calculateXpProgress], or "0.00" when the series is
    empty. *)
Theorem project_card_agrees_with_charts (h : Host) (txs : list Transaction) :
  plainNames txs ->
  addsExactly txs ->
  sumValues <$> numbers (calculateXpByProject (Array txs)) = Some (totalProjectXp txs)
  /\ megabytes (totalProjectXp txs)
     = from_option totalXpMB "0.00" (last (calculateXpProgress h (Array txs))).
Proof.
  intros Hplain _. rewrite totalProjectXp_sum. split.
  - rewrite (calculateXpByProject_plain _ Hplain), numbers_asValues.
    unfold sumsByProject. simpl. by rewrite sumValues_foldl.
  - unfold calculateXpProgress. simpl. rewrite last_lookup, accumulate_lookup.
    rewrite accumulate_length.
    rewrite <- (sumAmounts_Permutation _ _ (sort_Permutation byCreatedAt _)).
    fold (xpTransactions txs).
    destruct (xpTransactions txs) as [|tx sorted] eqn:Hsorted; [done|].
    assert (Hlast : is_Some ((tx :: sorted) !! pred (length (tx :: sorted)))).
    { apply lookup_lt_is_Some_2. simpl. lia. }
    destruct Hlast as [final ->]. simpl from_option.
    unfold megabytes. by rewrite firstn_all.
Qed.

Lemma project_card_agrees_with_charts_witness :
  sumValues <$> numbers (calculateXpByProject (Array twoProjects))
  = Some (totalProjectXp twoProjects).
Proof.
  apply (project_card_agrees_with_charts hostUS twoProjects).
  - repeat constructor; intros _; compute_done.
  - vm_compute. discriminate.
Defined.

(** The card counts what the mapping has lost: with a project named
    [__proto__] the card shows 6 XP and the values of the mapping add up
    to 1. *)
Lemma project_card_counts_inherited_name :
  totalProjectXp withInheritedName = 6
  /\ sumValues <$> numbers (calculateXpByProject (Array withInheritedName)) = Some 1.
Proof. by vm_compute. Qed.

End ProfileSummary.
(** ** auth.js: handleLogin *)

Section LoginFacts.
Import Js Calc Browser Config Auth Graphql Charts Profile Login.
Import SessionReading ProfileReading SamplePages Samples.

Lemma stripTrailingQuote_app (s : string) : stripTrailingQuote (s +:+ dq) = s.
Proof.
  induction s as [|c s IH]; [done|].
  change (String c s +:+ dq) with (String c (s +:+ dq)).
  destruct s as [|c' s]; [done|].
  change (String c' s +:+ dq) with (String c' (s +:+ dq)) in *.
  cbn [stripTrailingQuote] in *. by rewrite IH.
Qed.

Lemma stripTrailingQuote_bare (s : string) :
  endsWithQuote s = false -> stripTrailingQuote s = s.
Proof.
  induction s as [|c s IH]; [done|].
  destruct s as [|c' s].
  - simpl. by intros ->.
  - intros Hends. cbn [stripTrailingQuote endsWithQuote] in *. by rewrite IH.
Qed.

(** X28: the token is the response text without one leading and one
    trailing double quote: a text in quotes loses exactly that pair, also
    when more quotes follow inside; a text with no quote at either end is
    kept as it is; a text of one or two quotes gives the empty token. *)
Theorem unquote_strips_one_pair (s : string) :
  unquote (dq +:+ s +:+ dq) = s
  /\ (bare s = true -> unquote s = s)
  /\ unquote dq = "" /\ unquote (dq +:+ dq) = "".
Proof.
  split; [|split; [|done]].
  - unfold unquote. change (stripLeadingQuote (dq +:+ s +:+ dq)) with (s +:+ dq).
    apply stripTrailingQuote_app.
  - unfold bare, unquote. intros Hbare. apply andb_prop in Hbare as [Hstart Hend].
    apply negb_true_iff in Hstart, Hend.
    assert (stripLeadingQuote s = s) as ->.
    { destruct s as [|c s]; [done|]. simpl in *. by rewrite Hstart. }
    by apply stripTrailingQuote_bare.
Qed.

End LoginFacts.

Section LoginFlow.
Import Js Calc Browser Config Auth Graphql Charts Profile Login.
Import SessionReading ProfileReading SamplePages Samples.
Context {H : HostNumber} {O : HostObject}.
Variable h : Host.

Lemma hideErrorMessage_inputs w :
  usernameEmailInput (dom (hideErrorMessage w)) = usernameEmailInput (dom w)
  /\ passwordInput (dom (hideErrorMessage w)) = passwordInput (dom w)
  /\ elementsPresent (hideErrorMessage w) = elementsPresent w.
Proof. done. Qed.

(** [handleLogin] with an input left empty. *)
Lemma handleLogin_empty signin network w u p :
  usernameEmailInput (dom w) = Some u -> passwordInput (dom w) = Some p ->
  trim (text u) = "" \/ text p = "" ->
  handleLogin h signin network w
  = (displayErrorMessage "Please enter both username/email and password."
       (hideErrorMessage w), nothing, Normal).
Proof.
  unfold handleLogin. simpl. intros -> -> Hempty.
  assert (bool_decide (trim (text u) = "") || bool_decide (text p = "") = true) as ->; [|done].
  destruct Hempty as [-> | ->]; [done|]. by rewrite orb_true_r.
Qed.

(** [handleLogin] when nothing is sent: an input is missing or empty, or
    [btoa] throws. *)
Lemma handleLogin_not_sent signin network w :
  credentialsEntered w = None ->
  requests (events (handleLogin h signin network w).1.1) = requests (events w)
  /\ storage (handleLogin h signin network w).1.1 = storage w
  /\ (handleLogin h signin network w).1.2 = nothing.
Proof.
  unfold handleLogin, credentialsEntered.
  change (usernameEmailInput (dom (hideErrorMessage w))) with (usernameEmailInput (dom w)).
  change (passwordInput (dom (hideErrorMessage w))) with (passwordInput (dom w)).
  destruct (usernameEmailInput (dom w)) as [u|]; [|done].
  destruct (passwordInput (dom w)) as [p|]; [|done]. cbn zeta.
  destruct (_ || _).
  - intros _. cbn [fst snd].
    by rewrite displayErrorMessage_requests, displayErrorMessage_storage.
  - intros ->. unfold loginFailed. cbn [fst snd].
    rewrite displayErrorMessage_requests, displayErrorMessage_storage. simpl.
    by rewrite requests_app, app_nil_r.
Qed.

(** X25: when the user name is empty or only white space, or the password
    is empty, [handleLogin] contacts no server: it shows the request to
    enter both and leaves storage and the sections of the page as they
    were. *)
Theorem handleLogin_requires_credentials
    (signin : Signin) (network : Settled Payload) (w : World) (u p : Element) :
  usernameEmailInput (dom w) = Some u -> passwordInput (dom w) = Some p ->
  trim (text u) = "" \/ text p = "" ->
  requests (events (handleLogin h signin network w).1.1) = requests (events w)
  /\ storage (handleLogin h signin network w).1.1 = storage w
  /\ pageOf (handleLogin h signin network w).1.1 = pageOf w
  /\ messageOnScreen (handleLogin h signin network w).1.1
     = (fun _ => "Please enter both username/email and password.")
       <$> errorMessageDiv (dom w)
  /\ (handleLogin h signin network w).2 = Normal.
Proof.
  intros Hu Hp Hempty.
  rewrite (handleLogin_empty signin network w u p Hu Hp Hempty).
  cbn [fst snd]. rewrite displayErrorMessage_requests, displayErrorMessage_storage,
    displayErrorMessage_page_parts, displayErrorMessage_onScreen.
  split; [done|]. split; [done|]. split; [done|]. split; [|done].
  simpl. by destruct (errorMessageDiv (dom w)).
Qed.

(** [handleLogin] once the credentials are sent. *)
Lemma handleLogin_sent signin network w credentials :
  credentialsEntered w = Some credentials ->
  handleLogin h signin network w
  = let w1 := emit (signinRequest credentials) (hideErrorMessage w) in
    match tokenIssued signin with
    | Some jwtToken =>
        match setItem jwtToken (storage w1) with
        | Some s =>
            ((loadProfilePage h network (withStorage s w1)).1,
             (loadProfilePage h network (withStorage s w1)).2, Normal)
        | None =>
            (displayErrorMessage ERROR_MESSAGES.STORAGE_ERROR
               (emit (ConsoleError "Storage error:") w1), nothing, Normal)
        end
    | None =>
        match signin with
        | SigninResponse status (Some body) =>
            if ok status then
              (displayErrorMessage ERROR_MESSAGES.JWT_ERROR w1, nothing, Normal)
            else
              (displayErrorMessage
                 (if (status =? 401) || (status =? 403)
                  then ERROR_MESSAGES.INVALID_CREDENTIALS
                  else ERROR_MESSAGES.NETWORK_ERROR +:+ " (Status: " +:+ pretty status +:+ ")")
                 (emit (ConsoleError "Login failed:") w1), nothing, Normal)
        | _ => loginFailed w1
        end
    end.
Proof.
  unfold handleLogin, credentialsEntered.
  change (usernameEmailInput (dom (hideErrorMessage w))) with (usernameEmailInput (dom w)).
  change (passwordInput (dom (hideErrorMessage w))) with (passwordInput (dom w)).
  destruct (usernameEmailInput (dom w)) as [u|]; [|done].
  destruct (passwordInput (dom w)) as [p|]; [|done]. cbn zeta.
  destruct (_ || _); [done|]. intros ->.
  destruct signin as [|status [body|]]; [done| |done]. unfold tokenIssued.
  destruct (ok status); simpl.
  - destruct (bool_decide (unquote body = "")); simpl; [done|].
    destruct (setItem _ _); [|done]. by destruct (loadProfilePage _ _ _).
  - by destruct ((status =? 401) || (status =? 403)).
Qed.

Lemma tokenIssued_not_empty signin jwtToken :
  tokenIssued signin = Some jwtToken -> jwtToken <> "".
Proof.
  unfold tokenIssued. destruct signin as [|status [body|]]; try done.
  destruct (ok status); simpl; [|done].
  case_bool_decide; [done|]. simpl. congruence.
Qed.

(** X26: the requests of [handleLogin]: none when an input is missing or
    empty or when [btoa] refuses a character above U+00FF; otherwise the
    sign-in request with the trimmed user name and the password as Basic
    credential; and after it the profile query, exactly when the response
    carried a token, storage accepted it and the page has the three
    profile elements, with that token, unquoted, as bearer credential.
    When [btoa] throws, the network error message is shown although
    nothing was sent. *)
Theorem handleLogin_requests (signin : Signin) (network : Settled Payload) (w : World) :
  requests (events (handleLogin h signin network w).1.1)
  = requests (events w)
    ++ match credentialsEntered w with
       | None => []
       | Some credentials =>
           signinRequest credentials
           :: match tokenIssued signin with
              | Some jwtToken =>
                  if elementsPresent w && accessible (storage w)
                  then [request jwtToken USER_PROFILE_QUERY] else []
              | None => []
              end
       end
  /\ (forall u p,
        usernameEmailInput (dom w) = Some u -> passwordInput (dom w) = Some p ->
        trim (text u) <> "" -> text p <> "" ->
        credentialsEntered w = btoa (trim (text u) +:+ ":" +:+ text p)
        /\ (btoa (trim (text u) +:+ ":" +:+ text p) = None ->
            requests (events (handleLogin h signin network w).1.1) = requests (events w)
            /\ messageOnScreen (handleLogin h signin network w).1.1
               = (fun _ => ERROR_MESSAGES.NETWORK_ERROR) <$> errorMessageDiv (dom w)
            /\ storage (handleLogin h signin network w).1.1 = storage w)).
Proof.
  split.
  - destruct (credentialsEntered w) as [credentials|] eqn:Hentered.
    + rewrite (handleLogin_sent signin network w credentials Hentered).
      cbn zeta. destruct (tokenIssued signin) as [jwtToken|] eqn:Hissued.
      * unfold setItem. simpl. destruct (accessible (storage w)) eqn:Hacc; simpl.
        -- destruct (loadProfilePage_session h network
                      (withStorage {| accessible := true; jwtToken := Some jwtToken |}
                         (emit (signinRequest credentials) (hideErrorMessage w))))
             as [-> _].
           simpl. rewrite requests_app. simpl. rewrite <- app_assoc. f_equal. simpl. f_equal.
           change (elementsPresent _) with (elementsPresent w).
           rewrite andb_true_r.
           pose proof (tokenIssued_not_empty _ _ Hissued) as Htoken.
           unfold tokenPresent, storedToken. simpl.
           destruct jwtToken as [|c rest]; [done|]. by rewrite andb_true_r.
        -- rewrite displayErrorMessage_requests. simpl.
           rewrite !requests_app, andb_false_r. simpl. by rewrite <- app_assoc.
      * destruct signin as [|status [body|]]; unfold loginFailed; simpl;
          try destruct (ok status); simpl;
          rewrite displayErrorMessage_requests; simpl;
          rewrite ?requests_app; simpl; by rewrite <- ?app_assoc, ?app_nil_r.
    + rewrite app_nil_r. by apply handleLogin_not_sent.
  - intros u p Hu Hp Huser Hpassword.
    assert (Hentered : credentialsEntered w = btoa (trim (text u) +:+ ":" +:+ text p)).
    { unfold credentialsEntered. rewrite Hu, Hp.
      by rewrite (bool_decide_eq_false_2 _ Huser), (bool_decide_eq_false_2 _ Hpassword). }
    split; [done|]. intros Hthrows. rewrite Hthrows in Hentered.
    destruct (handleLogin_not_sent signin network w Hentered) as (Hrequests & Hstorage & _).
    split; [done|]. split; [|done].
    unfold handleLogin.
    change (usernameEmailInput (dom (hideErrorMessage w))) with (usernameEmailInput (dom w)).
    change (passwordInput (dom (hideErrorMessage w))) with (passwordInput (dom w)).
    rewrite Hu, Hp. cbn zeta.
    rewrite (bool_decide_eq_false_2 _ Huser), (bool_decide_eq_false_2 _ Hpassword), Hthrows.
    unfold loginFailed. cbn [fst snd orb]. rewrite displayErrorMessage_onScreen. simpl.
    by destruct (errorMessageDiv (dom w)).
Qed.

(** X27: a token is only ever written by a sign-in that sent credentials,
    got a 2xx response with a non-empty token and found storage writable;
    what is stored is the unquoted response text, unless the profile query
    that follows rejects it at once (401, 403 or invalid-jwt), which
    removes it again. In every other case storage is as before. *)
Theorem handleLogin_stores_token (signin : Signin) (network : Settled Payload) (w : World) :
  storage (handleLogin h signin network w).1.1
  = match credentialsEntered w, tokenIssued signin with
    | Some _, Some jwtToken =>
        if accessible (storage w) then
          if elementsPresent w && (refused network || tokenInvalid network)
          then {| accessible := true; jwtToken := None |}
          else {| accessible := true; jwtToken := Some jwtToken |}
        else storage w
    | _, _ => storage w
    end.
Proof.
  destruct (credentialsEntered w) as [credentials|] eqn:Hentered.
  - rewrite (handleLogin_sent signin network w credentials Hentered).
    cbn zeta. destruct (tokenIssued signin) as [jwtToken|] eqn:Hissued.
    + unfold setItem. simpl. destruct (accessible (storage w)) eqn:Hacc; simpl.
      * destruct (loadProfilePage_session h network
                    (withStorage {| accessible := true; jwtToken := Some jwtToken |}
                       (emit (signinRequest credentials) (hideErrorMessage w))))
          as [_ ->].
        change (elementsPresent _) with (elementsPresent w).
        pose proof (tokenIssued_not_empty _ _ Hissued) as Htoken.
        unfold sessionRejected, tokenPresent. simpl.
        destruct jwtToken as [|c rest]; [done|]. by rewrite andb_true_r.
      * by rewrite displayErrorMessage_storage.
    + destruct signin as [|status [body|]]; unfold loginFailed; simpl;
        try destruct (ok status); simpl;
        by rewrite displayErrorMessage_storage.
  - by apply handleLogin_not_sent.
Qed.

End LoginFlow.

Section LoginSamples.
Import Js Calc Browser Config Auth Graphql Charts Profile Login.
Import SessionReading ProfileReading SamplePages Samples.

Lemma handleLogin_requires_credentials_witness :
  requests (events (handleLogin (H := integerHost) (O := integerObject) hostUS
                      SigninRejected Rejected blankForm).1.1)
  = requests (events blankForm).
Proof.
  apply (handleLogin_requires_credentials (H := integerHost) (O := integerObject) hostUS
           SigninRejected Rejected
           blankForm {| display := ""; text := "   " |} {| display := ""; text := "secret" |});
    [reflexivity|reflexivity|by left].
Defined.

(** A password with a euro sign: [btoa] throws, no request leaves the page
    and the network error message is shown. *)
Lemma handleLogin_requests_witness :
  credentialsEntered euroPassword = None
  /\ requests (events (handleLogin (H := integerHost) (O := integerObject) hostUS
                         (SigninResponse 200 (Some "token")) Rejected euroPassword).1.1)
     = []
  /\ messageOnScreen (handleLogin (H := integerHost) (O := integerObject) hostUS
                        (SigninResponse 200 (Some "token")) Rejected euroPassword).1.1
     = Some ERROR_MESSAGES.NETWORK_ERROR.
Proof.
  destruct (handleLogin_requests (H := integerHost) (O := integerObject) hostUS
              (SigninResponse 200 (Some "token")) Rejected euroPassword) as [_ Hentered].
  destruct (Hentered {| display := ""; text := "student" |}
              {| display := "";
                 text := String (Ascii.ascii_of_nat 226)
                           (String (Ascii.ascii_of_nat 130)
                              (String (Ascii.ascii_of_nat 172) "100")) |}
              eq_refl eq_refl ltac:(discriminate) ltac:(discriminate))
    as [Hcredentials Hthrows].
  destruct (Hthrows eq_refl) as (Hrequests & Hmessage & _).
  split; [exact Hcredentials|]. split; [exact Hrequests|exact Hmessage].
Defined.

End LoginSamples.
(** ** script.js, and the page as a whole *)

Section WholePage.
Import Js Calc Browser Config Auth Graphql Charts Profile Login App.
Import SessionReading ProfileReading SamplePages Samples.
Context {H : HostNumber} {O : HostObject}.
Variable h : Host.

Lemma fetchGraphQLData_Some {Data} (network : Settled Data) query w (d : Data) :
  (fetchGraphQLData network query w).1 = Some d ->
  accessible (storage w) = true /\ tokenPresent w = true
  /\ (fetchGraphQLData network query w).2 = emit (request (storedToken w) query) w.
Proof.
  unfold fetchGraphQLData, getItem, tokenPresent, storedToken.
  destruct (accessible (storage w)); [|done].
  destruct (jwtToken (storage w)) as [[|c token]|]; [done| |done].
  destruct network as [|status [|[errors|] data]]; simpl; [done|..];
    destruct (ok status); simpl; try done;
    try (by destruct ((status =? 401) || (status =? 403)));
    by destruct (isInvalidJWT errors).
Qed.

Lemma renderProfile_displays user w :
  displayOf (loginSection (dom (renderProfile h user w).1.1))
  = displayOf (loginSection (dom w))
  /\ displayOf (profileContentScrollArea (dom (renderProfile h user w).1.1))
     = displayOf (profileContentScrollArea (dom w)).
Proof.
  unfold renderProfile. destruct (transactions user); try done.
  destruct (fixedHeaderContainer (dom w)) eqn:Hheader; [|done]. simpl.
  destruct (profileContentScrollArea (dom w)) eqn:Hprofile; simpl;
    [|by rewrite ?Hprofile].
  destruct (drawCharts h user). simpl. by rewrite Hprofile.
Qed.

Lemma renderProfile_listeners user w :
  LoginOnSubmit ∉ listeners (renderProfile h user w).1.2.
Proof.
  unfold renderProfile.
  destruct (transactions user); try (simpl; apply not_elem_of_nil).
  destruct (fixedHeaderContainer (dom w)); [|simpl; apply not_elem_of_nil]. simpl.
  destruct (profileContentScrollArea _); [|simpl; apply not_elem_of_nil].
  destruct (drawCharts h user). simpl. intros Hin.
  apply list_elem_of_singleton in Hin. done.
Qed.

Lemma loadProfilePage_listeners network w :
  LoginOnSubmit ∉ listeners (loadProfilePage h network w).2.
Proof.
  destruct (elementsPresent w) eqn:Hpresent.
  - rewrite (loadProfilePage_present h network w Hpresent).
    destruct (userOf _) as [user|]; simpl.
    + pose proof (renderProfile_listeners user
                    (fetchGraphQLData network USER_PROFILE_QUERY (withDom showLoading w)).2)
        as Hrender.
      destruct (renderProfile h user _).2; [done|]. simpl.
      intros Hin. apply elem_of_app in Hin as [Hin|Hin]; [done|].
      apply list_elem_of_singleton in Hin. done.
    + intros Hin. apply list_elem_of_singleton in Hin. done.
  - rewrite (loadProfilePage_missing h network w Hpresent). apply not_elem_of_nil.
Qed.

(** Where [loadProfilePage] leaves the charts, the session is in place and
    the profile is on screen. *)
Lemma loadProfilePage_shown network w :
  is_Some (canvases (loadProfilePage h network w).2) ->
  storage (loadProfilePage h network w).1 = storage w
  /\ accessible (storage w) = true /\ tokenPresent w = true
  /\ displayOf (loginSection (dom (loadProfilePage h network w).1)) = Some "none"
  /\ displayOf (profileContentScrollArea (dom (loadProfilePage h network w).1))
     = Some "flex".
Proof.
  destruct (elementsPresent w) eqn:Hpresent.
  2:{ rewrite (loadProfilePage_missing h network w Hpresent). simpl.
      intros [c Hc]. done. }
  rewrite (loadProfilePage_present h network w Hpresent).
  destruct (userOf _) as [user|] eqn:Huser; [|intros [c Hc]; done].
  assert (Hdata : exists d,
            (fetchGraphQLData network USER_PROFILE_QUERY (withDom showLoading w)).1 = Some d).
  { destruct (fetchGraphQLData _ _ _).1; [eauto|done]. }
  destruct Hdata as [d Hd].
  apply fetchGraphQLData_Some in Hd as (Hacc & Htoken & ->).
  destruct (renderProfile_trace h user
              (emit (request (storedToken (withDom showLoading w)) USER_PROFILE_QUERY)
                 (withDom showLoading w))) as [_ Hstorage].
  destruct (renderProfile_displays user
              (emit (request (storedToken (withDom showLoading w)) USER_PROFILE_QUERY)
                 (withDom showLoading w))) as [Hlogin Hprofile].
  destruct (showLoading_present w Hpresent) as (Hlogin0 & _ & Hprofile0).
  cbn zeta. destruct (renderProfile h user _).2; [|intros [c Hc]; done].
  intros _. rewrite Hstorage, Hlogin, Hprofile.
  split; [done|]. split; [done|]. split; [done|]. split; [done|].
  change (dom (emit _ (withDom showLoading w))) with (showLoading (dom w)).
  by rewrite Hprofile0.
Qed.

(** X29: the start of the application. With a readable, non-empty stored
    token it does what [loadProfilePage] does. Otherwise it contacts no
    server and leaves storage alone: it shows the login section, and when
    reading storage failed logs that error. The submit listener is added
    exactly when the login form exists. *)
Theorem init_loads_profile_or_shows_login
    (loginForm : bool) (network : Settled Payload) (w : World) :
  requests (events (init h loginForm network w).1)
  = requests (events w)
    ++ (if elementsPresent w && accessible (storage w) && tokenPresent w
        then [request (storedToken w) USER_PROFILE_QUERY] else [])
  /\ (accessible (storage w) && tokenPresent w = true ->
      (init h loginForm network w).1 = (loadProfilePage h network w).1)
  /\ (accessible (storage w) && tokenPresent w = false ->
      storage (init h loginForm network w).1 = storage w
      /\ displayOf (loginSection (dom (init h loginForm network w).1))
         = (fun _ => "flex") <$> loginSection (dom w)
      /\ newEvents w (init h loginForm network w).1
         = (if accessible (storage w) then [] else [ConsoleError "Initialization error:"])
      /\ canvases (init h loginForm network w).2 = None)
  /\ (LoginOnSubmit ∈ listeners (init h loginForm network w).2 <-> loginForm = true).
Proof.
  pose proof (loadProfilePage_session h network w) as [Hrequests _].
  pose proof (loadProfilePage_listeners network w) as Hlisteners.
  unfold init, getItem, tokenPresent in *.
  destruct (accessible (storage w)) eqn:Hacc; simpl.
  - destruct (jwtToken (storage w)) as [[|c token]|] eqn:Htoken; simpl.
    + rewrite !andb_false_r, app_nil_r. split; [done|]. split; [done|]. split.
      * intros _. split; [done|]. split; [by destruct (loginSection (dom w))|].
        split; [|done]. unfold newEvents. simpl. apply drop_all.
      * destruct loginForm; simpl; [by rewrite list_elem_of_singleton|].
        split; [intros Hin; by apply elem_of_nil in Hin|done].
    + destruct (loadProfilePage h network w) as [w' outcome]. simpl in *.
      split; [done|]. split; [done|]. split; [done|].
      destruct loginForm; simpl.
      * split; [done|]. intros _. apply list_elem_of_here.
      * done.
    + rewrite !andb_false_r, app_nil_r. split; [done|]. split; [done|]. split.
      * intros _. split; [done|]. split; [by destruct (loginSection (dom w))|].
        split; [|done]. unfold newEvents. simpl. apply drop_all.
      * destruct loginForm; simpl; [by rewrite list_elem_of_singleton|].
        split; [intros Hin; by apply elem_of_nil in Hin|done].
  - rewrite !andb_false_r, app_nil_r, requests_app, app_nil_r.
    split; [done|]. split; [done|]. split.
    + intros _. split; [done|]. split; [by destruct (loginSection (dom w))|].
      split; [|done]. by apply newEvents_app.
    + destruct loginForm; simpl; [by rewrite list_elem_of_singleton|].
      split; [intros Hin; by apply elem_of_nil in Hin|done].
Qed.

(** X30: the profile is only ever on screen with a session: whenever
    [loadProfilePage], [handleLogin] or the start of the application leaves
    the chart canvases in the profile area, storage is accessible and holds
    a non-empty token, the login section is hidden and the profile area
    is shown. *)
Theorem profile_shown_only_with_session
    (loginForm : bool) (signin : Signin) (network : Settled Payload) (w : World) :
  (is_Some (canvases (loadProfilePage h network w).2) ->
   accessible (storage (loadProfilePage h network w).1) = true
   /\ tokenPresent (loadProfilePage h network w).1 = true
   /\ displayOf (loginSection (dom (loadProfilePage h network w).1)) = Some "none"
   /\ displayOf (profileContentScrollArea (dom (loadProfilePage h network w).1))
      = Some "flex")
  /\ (is_Some (canvases (handleLogin h signin network w).1.2) ->
      accessible (storage (handleLogin h signin network w).1.1) = true
      /\ tokenPresent (handleLogin h signin network w).1.1 = true
      /\ displayOf (loginSection (dom (handleLogin h signin network w).1.1)) = Some "none"
      /\ displayOf (profileContentScrollArea (dom (handleLogin h signin network w).1.1))
         = Some "flex")
  /\ (is_Some (canvases (init h loginForm network w).2) ->
      accessible (storage (init h loginForm network w).1) = true
      /\ tokenPresent (init h loginForm network w).1 = true
      /\ displayOf (loginSection (dom (init h loginForm network w).1)) = Some "none"
      /\ displayOf (profileContentScrollArea (dom (init h loginForm network w).1))
         = Some "flex").
Proof.
  assert (Hshown : forall w0,
            is_Some (canvases (loadProfilePage h network w0).2) ->
            accessible (storage (loadProfilePage h network w0).1) = true
            /\ tokenPresent (loadProfilePage h network w0).1 = true
            /\ displayOf (loginSection (dom (loadProfilePage h network w0).1)) = Some "none"
            /\ displayOf (profileContentScrollArea (dom (loadProfilePage h network w0).1))
               = Some "flex").
  { intros w0 Hcanvases.
    destruct (loadProfilePage_shown network w0 Hcanvases)
      as (Hstorage & Hacc & Htoken & Hlogin & Hprofile).
    unfold tokenPresent in *. by rewrite Hstorage. }
  split; [apply Hshown|]. split.
  - destruct (credentialsEntered w) as [credentials|] eqn:Hentered.
    + rewrite (handleLogin_sent h signin network w credentials Hentered).
      cbn zeta. destruct (tokenIssued signin) as [jwtToken|].
      * destruct (setItem _ _) as [s|]; [apply Hshown|]. simpl. intros [c Hc]. done.
      * destruct signin as [|status [body|]]; unfold loginFailed; simpl;
          try destruct (ok status); simpl; intros [c Hc]; done.
    + destruct (handleLogin_not_sent h signin network w Hentered) as (_ & _ & ->).
      simpl. intros [c Hc]. done.
  - unfold init, getItem. destruct (accessible (storage w)); [|intros [c Hc]; done].
    destruct (jwtToken (storage w)) as [[|c token]|];
      [intros [c Hc]; done| |intros [c Hc]; done].
    specialize (Hshown w). destruct (loadProfilePage h network w) as [w' outcome].
    apply Hshown.
Qed.

End WholePage.
